(** * Eco Weather + AQI dashboard: classification, tips, logging, orchestration

    A shallow embedding of [helpers.py], [services.py] and the query flow of
    [app.py], with the properties of the specification proved about it.

    Conventions of the embedding:
    - a Python [float] is an IEEE 754 binary64 value, taken from the
      Standard Library's executable specification [SpecFloat] (precision 53,
      exponent bound 1024); comparisons and arithmetic are the IEEE ones, so
      NaN compares false with everything and arithmetic rounds to nearest
      even;
    - a JSON integer reaches these functions as a Python [int]; they convert
      it with [float()], or compare and print it as the float of the same
      value does, so it is modelled by that float (the same number below
      [2^53]);
    - [None] is [None] of an [option];
    - a Python [str] is a [string] holding its UTF-8 encoding;
    - a [dict] with string keys is a [gmap string _]; a [list] is a [list];
    - of pandas the embedding fixes what the calls of the program fix:
      [pd.DataFrame] and [pd.concat] keep rows and columns in order and
      [to_excel] writes the frame it is given. What the two parsers make of
      their input, [pd.read_excel] of a workbook and [pd.to_datetime] of a
      column of strings, is taken from the environment, as the answers of
      the three endpoints are: [read_excel] need not load what was written,
      and [to_datetime] may raise. *)

From Stdlib Require Import ZArith Lia String Ascii List Floats.SpecFloat.
From stdpp Require Import base option list gmap strings pretty.

Local Open Scope string_scope.
Local Open Scope list_scope.
Local Open Scope Z_scope.

(** ** Python floats *)

Module PyFloat.

Definition prec : Z := 53.
Definition emax : Z := 1024.

Definition float : Type := spec_float.

(** [m * 2^e], rounded to the nearest binary64 value. *)
Definition of_dyadic (m e : Z) : float := binary_normalize prec emax m e false.

(** The float a Python integer literal denotes when it meets a float
    (exact for the small literals of this program). *)
Definition of_int (z : Z) : float := of_dyadic z 0.

(** [math.isnan] *)
Definition isnan (x : float) : bool :=
  match x with S754_nan => true | _ => false end.

Definition leb (x y : float) : bool := SFleb x y.
Definition ltb (x y : float) : bool := SFltb x y.
Definition gtb (x y : float) : bool := ltb y x.

Definition mul (x y : float) : float := SFmul prec emax x y.
Definition div (x y : float) : float := SFdiv prec emax x y.
Definition add (x y : float) : float := SFadd prec emax x y.
Definition sub (x y : float) : float := SFsub prec emax x y.

(** Every value of the type that is a genuine binary64 number. *)
Definition valid (x : float) : bool := valid_binary prec emax x.

End PyFloat.

Declare Scope pyfloat_scope.
Delimit Scope pyfloat_scope with F.
Bind Scope pyfloat_scope with PyFloat.float.
Notation "x <=? y" := (PyFloat.leb x y) : pyfloat_scope.
Notation "x <? y" := (PyFloat.ltb x y) : pyfloat_scope.
Notation "x >? y" := (PyFloat.gtb x y) : pyfloat_scope.
Notation "x * y" := (PyFloat.mul x y) : pyfloat_scope.
Notation "x / y" := (PyFloat.div x y) : pyfloat_scope.
Notation "x + y" := (PyFloat.add x y) : pyfloat_scope.

Abbreviation float := PyFloat.float.

(** The numeric literals of the program, as the floats they are compared
    or combined with. *)
Definition f0 : float := Eval vm_compute in PyFloat.of_int 0.
Definition f5 : float := Eval vm_compute in PyFloat.of_int 5.
Definition f6 : float := Eval vm_compute in PyFloat.of_int 6.
Definition f9 : float := Eval vm_compute in PyFloat.of_int 9.
Definition f15 : float := Eval vm_compute in PyFloat.of_int 15.
Definition f18 : float := Eval vm_compute in PyFloat.of_int 18.
Definition f25 : float := Eval vm_compute in PyFloat.of_int 25.
Definition f28 : float := Eval vm_compute in PyFloat.of_int 28.
Definition f30 : float := Eval vm_compute in PyFloat.of_int 30.
Definition f32 : float := Eval vm_compute in PyFloat.of_int 32.
Definition f50 : float := Eval vm_compute in PyFloat.of_int 50.
Definition f100 : float := Eval vm_compute in PyFloat.of_int 100.
Definition f150 : float := Eval vm_compute in PyFloat.of_int 150.
Definition f200 : float := Eval vm_compute in PyFloat.of_int 200.
Definition f300 : float := Eval vm_compute in PyFloat.of_int 300.

(** ** helpers.py: the AQI classifier *)

(** [explain_us_aqi(aqi: float) -> str].  The argument is a float or [None];
    [isinstance(aqi, float)] then holds of every argument that is not [None]
    and [float(aqi)] returns it unchanged. *)
Definition explain_us_aqi (aqi : option float) : string :=
  match aqi with
  | None => "AQI data not available."
  | Some aqi =>
      if PyFloat.isnan aqi then "AQI data not available."
      else if (aqi <=? f50)%F then
        "Good – Air quality is considered satisfactory."
      else if (aqi <=? f100)%F then
        "Moderate – Acceptable; some pollutants may affect very sensitive people."
      else if (aqi <=? f150)%F then
        "Unhealthy for Sensitive Groups – Sensitive people should reduce outdoor exertion."
      else if (aqi <=? f200)%F then
        "Unhealthy – Everyone may begin to feel adverse health effects."
      else if (aqi <=? f300)%F then
        "Very Unhealthy – Health alert; serious effects for everyone."
      else
        "Hazardous – Emergency conditions; avoid going outside."
  end.

(** [aqi_emoji(aqi: float) -> str] *)
Definition aqi_emoji (aqi : option float) : string :=
  match aqi with
  | None => "⚪"
  | Some aqi =>
      if PyFloat.isnan aqi then "⚪"
      else if (aqi <=? f50)%F then "🟢"
      else if (aqi <=? f100)%F then "🟡"
      else if (aqi <=? f150)%F then "🟠"
      else if (aqi <=? f200)%F then "🔴"
      else if (aqi <=? f300)%F then "🟣"
      else "⚫"
  end.

(** ** helpers.py: the tip engine *)

Definition tip_comfortable : string :=
  "🌡️ Comfortable temperature – use fans/natural airflow instead of AC to save energy.".
Definition tip_hot : string :=
  "🥵 It’s hot – close curtains during the day & use light cotton clothes before lowering AC too much.".
Definition tip_cool : string :=
  "🥶 It’s cool – wear extra layers instead of relying only on room heaters.".
Definition tip_clear_sky : string :=
  "☀️ Clear sky – perfect to dry clothes outside instead of using a dryer.".
Definition tip_daylight : string :=
  "🔆 Use natural daylight instead of switching on lights.".
Definition tip_cloudy : string :=
  "☁️ Cloudy – still enough daylight; keep unnecessary lights switched off.".
Definition tip_rain : string :=
  "🌧️ Rainy – collect some rainwater (where safe) for plants or cleaning.".
Definition tip_wintry : string :=
  "❄️ Cold/wintry – ensure windows/doors are sealed to avoid heat loss.".
Definition tip_avoid_vehicles : string :=
  "🚗 AQI is high – avoid using private vehicles; prefer public transport or carpooling.".
Definition tip_wear_mask : string :=
  "😷 Consider wearing a mask and avoid heavy outdoor exercise.".
Definition tip_walk_cycle : string :=
  "🚶 AQI is good – great time to walk or cycle instead of using a vehicle.".
Definition tip_ventilation : string :=
  "💨 Windy outside – open windows for natural ventilation instead of running a fan all day.".
Definition tip_fallback : string :=
  "✅ No special alerts – follow 3Rs: Reduce, Reuse, Recycle. ♻️".

(** [tips.append(x)] *)
Definition append {A} (l : list A) (x : A) : list A := l ++ [x].

(** [eco_tips(temp_c: float, weather_code: int, aqi: float, wind_speed: float)].
    [aqi] and [wind_speed] are tested against [None] by the code and so are
    optional here; [temp_c] and [weather_code] are not. *)
Definition eco_tips (temp_c : float) (weather_code : Z)
    (aqi : option float) (wind_speed : option float) : list string :=
  let tips : list string := [] in
  (* Temperature *)
  let tips :=
    if (f18 <=? temp_c)%F && (temp_c <=? f28)%F then append tips tip_comfortable
    else if (temp_c >? f30)%F then append tips tip_hot
    else if (temp_c <? f15)%F then append tips tip_cool
    else tips in
  (* Weather code categories *)
  let tips :=
    if (weather_code =? 0) || (weather_code =? 1) then
      append (append tips tip_clear_sky) tip_daylight
    else if (weather_code =? 2) || (weather_code =? 3) then
      append tips tip_cloudy
    else if ((51 <=? weather_code) && (weather_code <=? 67))
            || ((80 <=? weather_code) && (weather_code <=? 82)) then
      append tips tip_rain
    else if ((71 <=? weather_code) && (weather_code <=? 77))
            || ((85 <=? weather_code) && (weather_code <=? 86)) then
      append tips tip_wintry
    else tips in
  (* AQI & transport *)
  let tips :=
    match aqi with
    | Some aqi =>
        if negb (PyFloat.isnan aqi) then
          if (aqi >? f150)%F then
            append (append tips tip_avoid_vehicles) tip_wear_mask
          else if (aqi <=? f50)%F then append tips tip_walk_cycle
          else tips
        else tips
    | None => tips
    end in
  (* Wind *)
  let tips :=
    match wind_speed with
    | Some wind_speed =>
        if (wind_speed >? f6)%F then append tips tip_ventilation else tips
    | None => tips
    end in
  match tips with
  | [] => append tips tip_fallback
  | _ => tips
  end.

(** ** Formatting a float with [:.1f]

    Python prints the decimal that is nearest to the exact binary value,
    ties going to the even digit. *)

(** The integer nearest to [n / d] for [d > 0], ties to even. *)
Definition round_half_even_div (n d : Z) : Z :=
  let q := n / d in
  let r := n mod d in
  match 2 * r ?= d with
  | Lt => q
  | Gt => q + 1
  | Eq => if Z.even q then q else q + 1
  end.

(** [m * 2^e * 10], rounded to an integer. *)
Definition tenths (m : positive) (e : Z) : Z :=
  if 0 <=? e then Z.pos m * 2 ^ e * 10
  else round_half_even_div (Z.pos m * 10) (2 ^ (- e)).

Definition format_sign (s : bool) : string := if s then "-" else "".

Definition format_1f (x : float) : string :=
  match x with
  | S754_nan => "nan"
  | S754_infinity s => format_sign s +:+ "inf"
  | S754_zero s => format_sign s +:+ "0.0"
  | S754_finite s m e =>
      let n := tenths m e in
      format_sign s +:+ pretty (n / 10) +:+ "." +:+ pretty (n mod 10)
  end.

(** ** helpers.py: the pollutant summary *)

Definition newline : string := String (ascii_of_nat 10) EmptyString.

(** [d.get(key)] on a dict whose values may be [None]. *)
Definition dict_get {V} (d : gmap string (option V)) (key : string) : option V :=
  match d !! key with
  | Some v => v
  | None => None
  end.

(** The body of [pollutant_summary] up to its [return]: the list [lines]. *)
Definition pollutant_lines (pollutants : gmap string (option float)) : list string :=
  let lines : list string := [] in
  let pm25 := dict_get pollutants "pm2_5" in
  let pm10 := dict_get pollutants "pm10" in
  let o3 := dict_get pollutants "ozone" in
  let no2 := dict_get pollutants "nitrogen_dioxide" in
  let co := dict_get pollutants "carbon_monoxide" in
  let lines :=
    match pm25 with
    | Some pm25 => append lines ("PM2.5: " +:+ format_1f pm25 +:+ " µg/m³")
    | None => lines
    end in
  let lines :=
    match pm10 with
    | Some pm10 => append lines ("PM10: " +:+ format_1f pm10 +:+ " µg/m³")
    | None => lines
    end in
  let lines :=
    match o3 with
    | Some o3 => append lines ("O₃ (ozone): " +:+ format_1f o3 +:+ " µg/m³")
    | None => lines
    end in
  let lines :=
    match no2 with
    | Some no2 => append lines ("NO₂: " +:+ format_1f no2 +:+ " µg/m³")
    | None => lines
    end in
  let lines :=
    match co with
    | Some co => append lines ("CO: " +:+ format_1f co +:+ " µg/m³")
    | None => lines
    end in
  lines.

(** [pollutant_summary(pollutants: dict)] *)
Definition pollutant_summary (pollutants : gmap string (option float)) : string :=
  match pollutant_lines pollutants with
  | [] => "Pollutant data not available."
  | lines => String.concat newline lines
  end.

(** ** services.py: the latest air-quality sample *)

(** The ["hourly"] object of an air-quality response: the ["time"] array and
    the numeric series, each an array of numbers or nulls that may be
    missing. *)
Record hourly_json := {
  hourly_time : option (list string);
  hourly_series : gmap string (list (option float));
}.

Record aq_json := { aq_hourly : option hourly_json }.

Definition empty_hourly : hourly_json :=
  {| hourly_time := None; hourly_series := ∅ |}.

(** [arr[idx]] where the caller has checked [idx < len(arr)]; the element may
    be a JSON null, which is [None] as well. *)
Definition item (arr : list (option float)) (idx : nat) : option float :=
  match arr !! idx with
  | Some x => x
  | None => None
  end.

Definition _safe_get (hourly : hourly_json) (key : string) (idx : nat) : option float :=
  match hourly_series hourly !! key with
  | None => None
  | Some arr =>
      if bool_decide (arr = []) || (length arr <=? idx)%nat then None
      else item arr idx
  end.

Definition latest_aqi (aq_data : aq_json)
    : option float * gmap string (option float) :=
  let hourly := default empty_hourly (aq_hourly aq_data) in
  let times := default [] (hourly_time hourly) in
  if bool_decide (times = []) then (None, ∅)
  else
    let idx := (length times - 1)%nat in
    let aqi_values := default [] (hourly_series hourly !! "us_aqi") in
    let aqi_val := if (idx <? length aqi_values)%nat then item aqi_values idx else None in
    let pollutants : gmap string (option float) :=
      <["carbon_monoxide" := _safe_get hourly "carbon_monoxide" idx]>
      (<["nitrogen_dioxide" := _safe_get hourly "nitrogen_dioxide" idx]>
      (<["ozone" := _safe_get hourly "ozone" idx]>
      (<["pm10" := _safe_get hourly "pm10" idx]>
      (<["pm2_5" := _safe_get hourly "pm2_5" idx]> ∅)))) in
    (aqi_val, pollutants).

(** ** Exceptions, the world and the effect monad *)

Inductive exn :=
  | RequestException (msg : string)   (* transport failure or timeout *)
  | HTTPError (msg : string)          (* [raise_for_status] *)
  | ValueError (msg : string)
  | FileNotFoundError (msg : string)
  | PermissionError (msg : string).

(** [str(e)] *)
Definition str_exn (e : exn) : string :=
  match e with
  | RequestException msg | HTTPError msg | ValueError msg
  | FileNotFoundError msg | PermissionError msg => msg
  end.

Inductive result (A : Type) :=
  | Ok (a : A)
  | Err (e : exn).
Arguments Ok {A} a.
Arguments Err {A} e.

(** *** pandas frames and the spreadsheet file *)

Inductive pyval :=
  | VNone
  | VStr (s : string)
  | VInt (z : Z)
  | VFloat (f : float).

(** A dict literal: its items in insertion order. *)
Definition record : Type := list (string * pyval).

(** A frame: its column labels in order and its rows; a cell a row has no
    value for is a missing value. *)
Record DataFrame := {
  columns : list string;
  rows : list (gmap string pyval);
}.

(** [pd.DataFrame([record])] *)
Definition DataFrame_of_record (r : record) : DataFrame :=
  {| columns := r.*1; rows := [list_to_map r] |}.

(** [pd.concat([a, b], ignore_index=True)]: the rows of [a] then those of
    [b], over the columns of [a] followed by the new ones of [b]. *)
Definition pd_concat (a b : DataFrame) : DataFrame :=
  {| columns := columns a ++ list_difference (columns b) (columns a);
     rows := rows a ++ rows b |}.

(** What a path names: the workbook [to_excel] wrote from a frame, or bytes
    [pd.read_excel] cannot parse. What [pd.read_excel] loads from a workbook
    need not be the frame written: see [read_back] below. *)
Inductive file :=
  | Workbook (df : DataFrame)
  | Corrupt.

Record filesystem := {
  files : gmap string file;
  read_only : gset string;   (* paths that cannot be written *)
}.

(** *** JSON responses of the three endpoints *)

(** One geocoding match, and the dict [geocode_city] returns for it: the
    same four keys, each read with [.get]. *)
Record location := {
  loc_name : option string;
  loc_country : option string;
  loc_latitude : option float;
  loc_longitude : option float;
}.

Record geocode_json := { geo_results : option (list location) }.

Record current_json := {
  cur_temperature : option float;
  cur_windspeed : option float;
  cur_weathercode : option Z;
  cur_time : option string;
}.

Record daily_json := {
  daily_time : option (list string);
  daily_temperature_2m_max : option (list (option float));
  daily_temperature_2m_min : option (list (option float));
  daily_weathercode : option (list (option Z));
}.

Record weather_json := {
  current_weather : option current_json;
  daily : option daily_json;
}.

Definition empty_current : current_json :=
  {| cur_temperature := None; cur_windspeed := None;
     cur_weathercode := None; cur_time := None |}.

Definition empty_daily : daily_json :=
  {| daily_time := None; daily_temperature_2m_max := None;
     daily_temperature_2m_min := None; daily_weathercode := None |}.

(** *** The world *)

(** What the outside provides and the program cannot change:
    [requests.get(...)], [raise_for_status()] and [r.json()] of each endpoint
    taken together, the clock, the calendar of [datetime], and the two
    parsers of pandas the program calls with their defaults. *)
Record environment := {
  http_geocoding : string → result geocode_json;
  http_forecast : option float → option float → result weather_json;
  http_air_quality : option float → option float → result aq_json;
  now : string;   (* [datetime.now().strftime("%Y-%m-%d %H:%M:%S")] *)
  (* [datetime.strptime(s, "%Y-%m-%d").strftime("%a, %d %b")], [None] when
     parsing raises *)
  strptime_label : string → option string;
  (* [pd.to_datetime(column)] on a column of strings: the exception it
     raises when it cannot parse the column, [None] when it converts it *)
  to_datetime_error : list string → option exn;
  (* the rows [pd.read_excel(path)] loads from the workbook [to_excel] wrote
     from a frame: with the defaults of the call a text cell that is one of
     the NA tokens ("None", "NA", "null", ...) is loaded as a missing value
     and the type of a column is inferred anew, so the rows loaded need not
     be the rows written *)
  read_back : DataFrame → list (gmap string pyval);
}.

(** The hourly AQI frame of [aqi_timeseries]: two columns of equal length. *)
Record aqi_frame := {
  frame_time : list string;
  frame_us_aqi : list (option float);
}.

Inductive event :=
  | HttpGet (url : string)
  | StError (msg : string)
  | StWarning (msg : string)
  | StSuccess (msg : string)
  | StInfo (msg : string)
  | StSubheader (msg : string)
  | StMarkdown (msg : string)
  | StCaption (msg : string)
  | StText (msg : string)
  | StWrite (msg : string)
  | StMetric (label value : string)
  | StLineChart (df : aqi_frame)   (* the US AQI of the frame against its times *)
  | StJson (label : string).

Record world := {
  fs : filesystem;
  trace : list event;   (* requests sent and widgets drawn, oldest first *)
}.

Inductive outcome (A : Type) :=
  | Returned (a : A)
  | Raised (e : exn)
  | Stopped.              (* [st.stop()]: the script run ends *)
Arguments Returned {A} a.
Arguments Raised {A} e.
Arguments Stopped {A}.

Definition M (A : Type) : Type := environment → world → outcome A * world.

#[global] Instance M_ret : MRet M := λ A a _ w, (Returned a, w).

#[global] Instance M_bind : MBind M := λ A B f m env w,
  match m env w with
  | (Returned a, w') => f a env w'
  | (Raised e, w') => (Raised e, w')
  | (Stopped, w') => (Stopped, w')
  end.

Definition raise {A} (e : exn) : M A := λ _ w, (Raised e, w).

Definition st_stop {A} : M A := λ _ w, (Stopped, w).

(** [try: m except Exception as e: handler(e)]; [st.stop()] is not an
    [Exception] and passes through. *)
Definition try_except {A} (m : M A) (handler : exn → M A) : M A := λ env w,
  match m env w with
  | (Raised e, w') => handler e env w'
  | r => r
  end.

Definition lift_result {A} (r : result A) : M A :=
  match r with
  | Ok a => mret a
  | Err e => raise e
  end.

Definition ask : M environment := λ env w, (Returned env, w).

(** The world after one more event. *)
Definition push (ev : event) (w : world) : world :=
  {| fs := fs w; trace := trace w ++ [ev] |}.

Definition emit (ev : event) : M unit := λ _ w, (Returned tt, push ev w).

Definition get_fs : M filesystem := λ _ w, (Returned (fs w), w).

Definition put_fs (f : filesystem) : M unit := λ _ w,
  (Returned tt, {| fs := f; trace := trace w |}).

Fixpoint for_each {A} (l : list A) (body : A → M unit) : M unit :=
  match l with
  | [] => mret tt
  | x :: l' => body x;; for_each l' body
  end.

(** *** The file operations *)

Definition os_path_exists (file_path : string) : M bool :=
  f ← get_fs; mret (bool_decide (is_Some (files f !! file_path))).

(** The header row is loaded as it was written, the rows below it as
    [read_back] gives them. *)
Definition pd_read_excel (file_path : string) : M DataFrame :=
  env ← ask;
  f ← get_fs;
  match files f !! file_path with
  | Some (Workbook df) => mret {| columns := columns df; rows := read_back env df |}
  | Some Corrupt => raise (ValueError "Excel file format cannot be determined")
  | None => raise (FileNotFoundError file_path)
  end.

Definition to_excel (df : DataFrame) (file_path : string) : M unit :=
  f ← get_fs;
  if bool_decide (file_path ∈ read_only f) then raise (PermissionError file_path)
  else put_fs {| files := <[file_path := Workbook df]> (files f);
                 read_only := read_only f |}.

(** ** helpers.py: the record logger *)

Definition save_record_to_excel (record : record) (file_path : string) : M unit :=
  try_except
    (file_exists ← os_path_exists file_path;
     if file_exists : bool then
       df_existing ← pd_read_excel file_path;
       let df_new := pd_concat df_existing (DataFrame_of_record record) in
       to_excel df_new file_path
     else
       to_excel (DataFrame_of_record record) file_path)
    (λ e, emit (StWarning ("Could not save record to Excel: " +:+ str_exn e))).

(** ** helpers.py: the AQI time series *)

(** [pd.DataFrame({...})] raises [ValueError] on columns of different
    lengths. *)
Definition aqi_timeseries (aq_data : aq_json) : result (option aqi_frame) :=
  let hourly := default empty_hourly (aq_hourly aq_data) in
  let times := default [] (hourly_time hourly) in
  let aqi_values := default [] (hourly_series hourly !! "us_aqi") in
  if bool_decide (times = []) || bool_decide (aqi_values = []) then Ok None
  else if bool_decide (length times = length aqi_values) then
    Ok (Some {| frame_time := times; frame_us_aqi := aqi_values |})
  else Err (ValueError "All arrays must be of the same length").

(** ** services.py: the three requests *)

Definition GEOCODE_URL : string := "https://geocoding-api.open-meteo.com/v1/search".
Definition FORECAST_URL : string := "https://api.open-meteo.com/v1/forecast".
Definition AIR_QUALITY_URL : string :=
  "https://air-quality-api.open-meteo.com/v1/air-quality".

Definition geocode_city (city : string) : M (option location) :=
  env ← ask;
  emit (HttpGet GEOCODE_URL);;
  data ← lift_result (http_geocoding env city);
  match geo_results data with
  | None | Some [] => mret None
  | Some (loc :: _) =>
      mret (Some {| loc_name := loc_name loc;
                    loc_country := loc_country loc;
                    loc_latitude := loc_latitude loc;
                    loc_longitude := loc_longitude loc |})
  end.

Definition get_weather_forecast (lat lon : option float) : M weather_json :=
  env ← ask;
  emit (HttpGet FORECAST_URL);;
  lift_result (http_forecast env lat lon).

Definition get_air_quality (lat lon : option float) : M aq_json :=
  env ← ask;
  emit (HttpGet AIR_QUALITY_URL);;
  lift_result (http_air_quality env lat lon).

(** ** app.py: one query *)

Inductive temperature_unit := Celsius | Fahrenheit.

(** [:.0f] *)
Definition format_0f (x : float) : string :=
  match x with
  | S754_nan => "nan"
  | S754_infinity s => format_sign s +:+ "inf"
  | S754_zero s => format_sign s +:+ "0"
  | S754_finite s m e =>
      let n := if 0 <=? e then Z.pos m * 2 ^ e
               else round_half_even_div (Z.pos m) (2 ^ (- e)) in
      format_sign s +:+ pretty n
  end.

(** [f"{x}"] of a string or [None], and [str(x)] of an integer or [None]. *)
Definition str_opt (x : option string) : string := default "None" x.
Definition str_int_opt (x : option Z) : string :=
  match x with
  | Some z => pretty z
  | None => "None"
  end.

(** [x[i] if i < len(x) else None] *)
Definition item_or_none {A} (x : list (option A)) (i : nat) : option A :=
  if (i <? length x)%nat then
    match x !! i with
    | Some v => v
    | None => None
    end
  else None.

(** The unit conversion of the current temperature: the value shown and its
    unit label. *)
Definition convert_current (units : temperature_unit) (temp_c : option float)
    : option float * string :=
  match units, temp_c with
  | Fahrenheit, Some temp_c => (Some (temp_c * f9 / f5 + f32)%F, "°F")
  | _, _ => (temp_c, "°C")
  end.

(** The air-quality block: any exception leaves the unavailable state. *)
Definition fetch_air_quality (lat lon : option float)
    : M (option float * gmap string (option float) * option aqi_frame) :=
  try_except
    (aq_data ← get_air_quality lat lon;
     let '(aqi_val, pollutants) := latest_aqi aq_data in
     aqi_df ← lift_result (aqi_timeseries aq_data);
     mret (aqi_val, pollutants, aqi_df))
    (λ _, mret (None, ∅, None)).

Definition pyval_of {A} (inj : A → pyval) (x : option A) : pyval :=
  match x with
  | Some a => inj a
  | None => VNone
  end.

Definition build_record (now : string) (city_name country : option string)
    (temp_c wind_speed : option float) (weather_code : option Z)
    (aqi_val : option float) : record :=
  [ ("Date & Time", VStr now);
    ("City", pyval_of VStr city_name);
    ("Country", pyval_of VStr country);
    ("Temperature (°C)", pyval_of VFloat temp_c);
    ("Wind Speed (km/h)", pyval_of VFloat wind_speed);
    ("Weather Code", pyval_of VInt weather_code);
    ("US AQI", pyval_of VFloat aqi_val) ].

(** The values one forecast column shows: minimum, maximum, weather code. *)
Definition forecast_day (units : temperature_unit)
    (tmax tmin : list (option float)) (wcodes : list (option Z)) (i : nat)
    : option float * option float * option Z :=
  let d_tmax := item_or_none tmax i in
  let d_tmin := item_or_none tmin i in
  let d_code := item_or_none wcodes i in
  let '(d_tmax, d_tmin) :=
    match units with
    | Fahrenheit =>
        let d_tmax := match d_tmax with
                      | Some d_tmax => Some (d_tmax * f9 / f5 + f32)%F
                      | None => None
                      end in
        let d_tmin := match d_tmin with
                      | Some d_tmin => Some (d_tmin * f9 / f5 + f32)%F
                      | None => None
                      end in
        (d_tmax, d_tmin)
    | Celsius => (d_tmax, d_tmin)
    end in
  (d_tmin, d_tmax, d_code).

(** The tips of a query, with the defaults for missing current-weather
    fields. *)
Definition query_tips (temp_c wind_speed : option float) (weather_code : option Z)
    (aqi_val : option float) : list string :=
  eco_tips (match temp_c with Some t => t | None => f25 end)
           (match weather_code with Some c => c | None => 1 end)
           aqi_val
           (Some (match wind_speed with Some w => w | None => f0 end)).

Definition LOG_PATH : string := "weather_records.xlsx".

(** The blocks of the button handler, one definition per block of
    [app.py]. Layout containers ([st.columns], [st.expander]) draw nothing of
    their own and are left out. *)

(** LAYOUT: CURRENT INFO *)
Definition render_current (city_name country time_str : option string)
    (temp : option float) (temp_unit : string) (wind_speed : option float)
    (weather_code : option Z) : M unit :=
  emit (StSubheader "📍 Location");;
  emit (StMetric "City" (str_opt city_name +:+ ", " +:+ str_opt country));;
  match time_str with
  | Some t => if bool_decide (t = "") then mret tt
              else emit (StCaption ("Updated at: " +:+ t +:+ " (local time)"))
  | None => mret tt
  end;;
  emit (StSubheader "🌡️ Temperature");;
  match temp with
  | Some temp => emit (StMetric "Current" (format_1f temp +:+ temp_unit))
  | None => emit (StMetric "Current" "N/A")
  end;;
  emit (StMetric "Humidity" "N/A");;
  emit (StSubheader "🌬️ Wind");;
  match wind_speed with
  | Some wind_speed => emit (StMetric "Wind Speed" (format_1f wind_speed +:+ " km/h"))
  | None => emit (StMetric "Wind Speed" "N/A")
  end;;
  emit (StMetric "Weather Code"
          (match weather_code with Some c => pretty c | None => "N/A" end));;
  emit (StMarkdown "---").

(** AIR QUALITY SECTION. The conversion of the hourly times for the trend
    chart is outside every [try]: its exception ends the run. *)
Definition render_air_quality (aqi_val : option float)
    (pollutants : gmap string (option float)) (aqi_df : option aqi_frame) : M unit :=
  emit (StSubheader "😷 Air Quality (US AQI)");;
  match aqi_val with
  | Some a =>
      if negb (PyFloat.isnan a) then
        let badge := aqi_emoji aqi_val in
        emit (StWrite (badge +:+ " **US AQI:** " +:+ format_0f a));;
        emit (StInfo (explain_us_aqi aqi_val));;
        emit (StText "Key pollutants:");;
        emit (StText (pollutant_summary pollutants));;
        match aqi_df with
        | Some df =>
            if negb (bool_decide (frame_time df = [])) then
              emit (StMarkdown "**AQI Trend (recent hours)**");;
              env ← ask;
              match to_datetime_error env (frame_time df) with
              | Some e => raise e
              | None => emit (StLineChart df)
              end
            else mret tt
        | None => mret tt
        end
      else emit (StWarning "Air quality data not available for this location.")
  | None => emit (StWarning "Air quality data not available for this location.")
  end;;
  emit (StMarkdown "---").

(** One column of the forecast. *)
Definition render_forecast_day (units : temperature_unit) (temp_unit : string)
    (dates : list string) (tmax tmin : list (option float))
    (wcodes : list (option Z)) (i : nat) : M unit :=
  env ← ask;
  let date_str := default "" (dates !! i) in
  let label := default date_str (strptime_label env date_str) in
  emit (StMarkdown ("**" +:+ label +:+ "**"));;
  let '(d_tmin, d_tmax, d_code) := forecast_day units tmax tmin wcodes i in
  match d_tmin with
  | Some d_tmin => emit (StWrite ("Min: " +:+ format_1f d_tmin +:+ temp_unit))
  | None => mret tt
  end;;
  match d_tmax with
  | Some d_tmax => emit (StWrite ("Max: " +:+ format_1f d_tmax +:+ temp_unit))
  | None => mret tt
  end;;
  emit (StWrite ("Weather code: " +:+ str_int_opt d_code)).

(** FORECAST SECTION (UP TO 5 DAYS) *)
Definition render_forecast (units : temperature_unit) (temp_unit : string)
    (daily : daily_json) : M unit :=
  emit (StSubheader "📅 5-Day Forecast (Daily Min/Max from Open-Meteo)");;
  let dates := default [] (daily_time daily) in
  let tmax := default [] (daily_temperature_2m_max daily) in
  let tmin := default [] (daily_temperature_2m_min daily) in
  let wcodes := default [] (daily_weathercode daily) in
  let num_days := Nat.min 5 (length dates) in
  (if bool_decide (num_days = 0%nat) then
     emit (StWarning "Forecast data not available.")
   else
     for_each (seq 0 num_days)
       (render_forecast_day units temp_unit dates tmax tmin wcodes));;
  emit (StMarkdown "---").

(** ECO TIPS *)
Definition render_tips (temp_c wind_speed : option float)
    (weather_code : option Z) (aqi_val : option float) : M unit :=
  emit (StSubheader "🌱 Eco-Friendly Suggestions");;
  let tips := query_tips temp_c wind_speed weather_code aqi_val in
  for_each tips (λ tip, emit (StWrite ("• " +:+ tip))).

(** RAW JSON *)
Definition render_raw (show_raw : bool) : M unit :=
  if show_raw then
    emit (StMarkdown "---");;
    emit (StSubheader "🧾 Raw API Data");;
    emit (StJson "Geocoding JSON");;
    emit (StJson "Weather JSON");;
    emit (StJson "Air Quality JSON")
  else mret tt.

(** What follows a successful forecast fetch. *)
Definition after_forecast (units : temperature_unit) (show_raw : bool)
    (location : location) (weather_data : weather_json) : M unit :=
  let lat := loc_latitude location in
  let lon := loc_longitude location in
  let city_name := loc_name location in
  let country := loc_country location in
  let current := default empty_current (current_weather weather_data) in
  let daily := default empty_daily (daily weather_data) in
  let temp_c := cur_temperature current in
  let wind_speed := cur_windspeed current in
  let weather_code := cur_weathercode current in
  let time_str := cur_time current in
  (* Unit conversion *)
  let '(temp, temp_unit) := convert_current units temp_c in
  (* ---------- AIR QUALITY ---------- *)
  '(aqi_val, pollutants, aqi_df) ← fetch_air_quality lat lon;
  (* ---------- SAVE TO EXCEL ---------- *)
  env ← ask;
  let record := build_record (now env) city_name country temp_c wind_speed
                             weather_code aqi_val in
  save_record_to_excel record LOG_PATH;;
  emit (StSuccess "📊 Weather record saved in 'weather_records.xlsx'");;
  render_current city_name country time_str temp temp_unit wind_speed weather_code;;
  render_air_quality aqi_val pollutants aqi_df;;
  render_forecast units temp_unit daily;;
  render_tips temp_c wind_speed weather_code aqi_val;;
  render_raw show_raw.

(** The body of the button handler. [city] is the text of the input after
    [.strip()]. *)
Definition main (city : string) (units : temperature_unit) (show_raw : bool) : M unit :=
  if bool_decide (city = "") then emit (StError "Please enter a city name.")
  else
    (* ---------- GEOCODING ---------- *)
    location ← try_except (geocode_city city)
      (λ e, emit (StError ("Error geocoding city: " +:+ str_exn e));; st_stop);
    match location with
    | None =>
        emit (StError "Could not find this city. Try a different spelling or include country (e.g., 'Delhi, India').");;
        st_stop
    | Some location =>
        (* ---------- WEATHER FORECAST ---------- *)
        weather_data ← try_except
          (get_weather_forecast (loc_latitude location) (loc_longitude location))
          (λ e, emit (StError ("Error fetching weather data: " +:+ str_exn e));; st_stop);
        after_forecast units show_raw location weather_data
    end.

(** * The specification's vocabulary *)

(** ** The seven AQI tiers and their table *)

Inductive tier :=
  | Good | Moderate | UnhealthySensitive | Unhealthy | VeryUnhealthy
  | Hazardous | Unknown.

Definition tier_description (t : tier) : string :=
  match t with
  | Good => "Good – Air quality is considered satisfactory."
  | Moderate => "Moderate – Acceptable; some pollutants may affect very sensitive people."
  | UnhealthySensitive =>
      "Unhealthy for Sensitive Groups – Sensitive people should reduce outdoor exertion."
  | Unhealthy => "Unhealthy – Everyone may begin to feel adverse health effects."
  | VeryUnhealthy => "Very Unhealthy – Health alert; serious effects for everyone."
  | Hazardous => "Hazardous – Emergency conditions; avoid going outside."
  | Unknown => "AQI data not available."
  end.

Definition tier_badge (t : tier) : string :=
  match t with
  | Good => "🟢"
  | Moderate => "🟡"
  | UnhealthySensitive => "🟠"
  | Unhealthy => "🔴"
  | VeryUnhealthy => "🟣"
  | Hazardous => "⚫"
  | Unknown => "⚪"
  end.

(** The tier of an AQI input, by the inclusive upper bounds of the
    specification. *)
Inductive in_tier : option float → tier → Prop :=
  | tier_good v :
      (v <=? f50)%F = true → in_tier (Some v) Good
  | tier_moderate v :
      (f50 <? v)%F = true → (v <=? f100)%F = true → in_tier (Some v) Moderate
  | tier_sensitive v :
      (f100 <? v)%F = true → (v <=? f150)%F = true →
      in_tier (Some v) UnhealthySensitive
  | tier_unhealthy v :
      (f150 <? v)%F = true → (v <=? f200)%F = true → in_tier (Some v) Unhealthy
  | tier_very_unhealthy v :
      (f200 <? v)%F = true → (v <=? f300)%F = true →
      in_tier (Some v) VeryUnhealthy
  | tier_hazardous v :
      (f300 <? v)%F = true → in_tier (Some v) Hazardous
  | tier_absent : in_tier None Unknown
  | tier_nan v : PyFloat.isnan v = true → in_tier (Some v) Unknown.

(** ** The rules of the tip engine, by category *)

Definition temperature_fires (t : float) : bool :=
  ((f18 <=? t)%F && (t <=? f28)%F) || (t >? f30)%F || (t <? f15)%F.

Definition code_in (c lo hi : Z) : bool := (lo <=? c) && (c <=? hi).

Definition weather_fires (c : Z) : bool :=
  code_in c 0 1 || code_in c 2 3 || code_in c 51 67 || code_in c 80 82
  || code_in c 71 77 || code_in c 85 86.

(** Present: neither absent nor NaN. *)
Definition aqi_present (a : option float) : bool :=
  match a with
  | Some x => negb (PyFloat.isnan x)
  | None => false
  end.

Definition aqi_fires (a : option float) : bool :=
  match a with
  | Some x => negb (PyFloat.isnan x) && ((x >? f150)%F || (x <=? f50)%F)
  | None => false
  end.

Definition wind_fires (w : option float) : bool :=
  match w with
  | Some x => (x >? f6)%F
  | None => false
  end.

Definition temperature_tips (t : float) : list string :=
  if (f18 <=? t)%F && (t <=? f28)%F then [tip_comfortable]
  else if (t >? f30)%F then [tip_hot]
  else if (t <? f15)%F then [tip_cool]
  else [].

Definition weather_tips (c : Z) : list string :=
  if code_in c 0 1 then [tip_clear_sky; tip_daylight]
  else if code_in c 2 3 then [tip_cloudy]
  else if code_in c 51 67 || code_in c 80 82 then [tip_rain]
  else if code_in c 71 77 || code_in c 85 86 then [tip_wintry]
  else [].

Definition aqi_tips (a : option float) : list string :=
  match a with
  | Some x =>
      if PyFloat.isnan x then []
      else if (x >? f150)%F then [tip_avoid_vehicles; tip_wear_mask]
      else if (x <=? f50)%F then [tip_walk_cycle]
      else []
  | None => []
  end.

Definition wind_tips (w : option float) : list string :=
  match w with
  | Some x => if (x >? f6)%F then [tip_ventilation] else []
  | None => []
  end.

Definition or_fallback (tips : list string) : list string :=
  match tips with
  | [] => [tip_fallback]
  | _ => tips
  end.

Definition is_aqi_tip (s : string) : Prop :=
  s = tip_avoid_vehicles ∨ s = tip_wear_mask ∨ s = tip_walk_cycle.

(** ** The pollutant table of the summary, in its fixed order *)

Definition pollutant_table : list (string * string) :=
  [ ("pm2_5", "PM2.5: ");
    ("pm10", "PM10: ");
    ("ozone", "O₃ (ozone): ");
    ("nitrogen_dioxide", "NO₂: ");
    ("carbon_monoxide", "CO: ") ].

(** The line of one pollutant: name, value with one decimal, unit. *)
Definition pollutant_line (label : string) (v : float) : string :=
  label +:+ format_1f v +:+ " µg/m³".

(** The line of a table entry, if the mapping has a value for it. *)
Definition present_line (pollutants : gmap string (option float))
    (entry : string * string) : option string :=
  pollutant_line entry.2 <$> dict_get pollutants entry.1.

Definition NOT_AVAILABLE : string := "Pollutant data not available.".

(** ** The hourly series of an air-quality response *)

(** The ["time"] array, empty when it or the ["hourly"] object is missing. *)
Definition time_array (aq_data : aq_json) : list string :=
  match aq_hourly aq_data with
  | Some hourly => match hourly_time hourly with
                   | Some times => times
                   | None => []
                   end
  | None => []
  end.

(** The value of a series at an index: absent when the series is missing,
    shorter than the index asks for, or null there. *)
Definition series_value (aq_data : aq_json) (key : string) (i : nat) : option float :=
  match aq_hourly aq_data with
  | Some hourly =>
      match hourly_series hourly !! key with
      | Some arr => match arr !! i with
                    | Some v => v
                    | None => None
                    end
      | None => None
      end
  | None => None
  end.

Definition pollutant_keys : list string :=
  ["pm2_5"; "pm10"; "ozone"; "nitrogen_dioxide"; "carbon_monoxide"].

(** Three hours of data: a full [us_aqi] series, a [pm2_5] series one short,
    a [pm10] series ending in a null, a full ozone series, and no other
    series. *)
Definition sample_response : aq_json :=
  {| aq_hourly := Some
       {| hourly_time := Some ["2024-05-01T00:00"; "2024-05-01T01:00";
                               "2024-05-01T02:00"];
          hourly_series :=
            <["us_aqi" := [Some f50; Some f100; Some f150]]>
            (<["pm2_5" := [Some f5; Some f6]]>
            (<["pm10" := [Some f9; Some f15; None]]>
            (<["ozone" := [Some f0; Some f5; Some f25]]> ∅))) |} |}.

(** ** The record logger, called once per record *)

Definition append_all (records : list record) (file_path : string) : M unit :=
  for_each records (λ r, save_record_to_excel r file_path).

(** The text cells [pd.read_excel] takes for missing values when it is
    called, as here, with its defaults. *)
Definition NA_VALUES : list string :=
  [""; "#N/A"; "#N/A N/A"; "#NA"; "-1.#IND"; "-1.#QNAN"; "-NaN"; "-nan";
   "1.#IND"; "1.#QNAN"; "<NA>"; "N/A"; "NA"; "NULL"; "NaN"; "None"; "n/a";
   "nan"; "null"].

Definition na_cell (v : pyval) : pyval :=
  match v with
  | VStr s => if bool_decide (s ∈ NA_VALUES) then VNone else VStr s
  | _ => v
  end.

(** The loader of the mocked queries: the NA filter, cell by cell. *)
Definition na_filter (df : DataFrame) : list (gmap string pyval) :=
  (λ row : gmap string pyval, na_cell <$> row) <$> rows df.

(** The calendar of the mocked queries: it cannot parse a column that holds
    the word "yesterday". *)
Definition UNPARSABLE : string :=
  "Unknown datetime string format, unable to parse: yesterday".

Definition mock_to_datetime (times : list string) : option exn :=
  if bool_decide ("yesterday" ∈ times) then Some (ValueError UNPARSABLE) else None.

(** The rows [pd.read_excel] loads from what a path names, none when there
    is no workbook. *)
Definition loaded_rows (env : environment) (f : option file)
    : list (gmap string pyval) :=
  match f with
  | Some (Workbook df) => read_back env df
  | _ => []
  end.


(** A world with no files, every path writable, and nothing drawn yet. *)
Definition empty_world : world :=
  {| fs := {| files := ∅; read_only := ∅ |}; trace := [] |}.

(** An environment whose endpoints all fail. *)
Definition offline : environment :=
  {| http_geocoding := λ _, Err (RequestException "offline");
     http_forecast := λ _ _, Err (RequestException "offline");
     http_air_quality := λ _ _, Err (RequestException "offline");
     now := "2024-05-01 12:00:00";
     strptime_label := λ _, None;
     to_datetime_error := mock_to_datetime;
     read_back := na_filter |}.

Definition record_delhi : record :=
  [ ("Date & Time", VStr "2024-05-01 12:00:00"); ("City", VStr "Delhi");
    ("Country", VStr "India"); ("Temperature (°C)", VFloat f32);
    ("Wind Speed (km/h)", VFloat f6); ("Weather Code", VInt 1);
    ("US AQI", VFloat f150) ].


Definition record_oslo : record :=
  [ ("Date & Time", VStr "2024-05-01 12:05:00"); ("City", VStr "Oslo");
    ("Country", VStr "Norway"); ("Temperature (°C)", VFloat f9);
    ("Wind Speed (km/h)", VFloat f15); ("Weather Code", VInt 61);
    ("US AQI", VNone) ].

(** ** Computations that return

    [returns env m w Q]: run from the world [w], the computation [m] returns
    (it neither raises nor stops) with a value and a world that satisfy
    [Q]. *)
Definition returns (env : environment) {A} (m : M A) (w : world)
    (Q : A → world → Prop) : Prop :=
  ∃ a w', m env w = (Returned a, w') ∧ Q a w'.

(** A property of worlds that drawing one more event keeps. *)
Definition stable (I : world → Prop) : Prop := ∀ ev w, I w → I (push ev w).

Definition AQ_UNAVAILABLE : string :=
  "Air quality data not available for this location.".

(** The log cannot be appended to: the file is there but is not a workbook,
    or the path cannot be written. *)
Definition log_fails (f : filesystem) : Prop :=
  files f !! LOG_PATH = Some Corrupt ∨ LOG_PATH ∈ read_only f.

(** The fields of the current-weather block of a response. *)
Definition current_of (wd : weather_json) : current_json :=
  default empty_current (current_weather wd).

(** The exception that ends the air-quality section, if any: that of
    [pd.to_datetime] on the times of the frame, when the AQI is a number and
    the frame is there. *)
Definition chart_error (env : environment) (aqi_val : option float)
    (aqi_df : option aqi_frame) : option exn :=
  match aqi_val, aqi_df with
  | Some a, Some df =>
      if negb (PyFloat.isnan a) && negb (bool_decide (frame_time df = []))
      then to_datetime_error env (frame_time df)
      else None
  | _, _ => None
  end.

(** The same, of a query at a place: the air-quality request is answered,
    the frame is built, the latest AQI is a number, and [pd.to_datetime]
    raises on the hourly times. *)
Definition trend_error (env : environment) (lat lon : option float) : option exn :=
  match http_air_quality env lat lon with
  | Ok aq =>
      match aqi_timeseries aq with
      | Ok (Some df) =>
          if aqi_present (latest_aqi aq).1
          then to_datetime_error env (frame_time df)
          else None
      | _ => None
      end
  | Err _ => None
  end.

(** How a query that found [loc] and fetched its forecast ends. *)
Definition ending (env : environment) (loc : location) : outcome unit :=
  match trend_error env (loc_latitude loc) (loc_longitude loc) with
  | Some e => Raised e
  | None => Returned tt
  end.

(** ** The conversion formula of the specification *)

(** [f = c * 9/5 + 32], in binary64 arithmetic, left to right. *)
Definition celsius_to_fahrenheit (c : float) : float := (c * f9 / f5 + f32)%F.

(** 32.5 and 90.5 *)
Definition f32_5 : float := Eval vm_compute in PyFloat.of_dyadic 65 (-1).
Definition f90_5 : float := Eval vm_compute in PyFloat.of_dyadic 181 (-1).

(** What the column of day [i] must show: the lines of the minimum and of the
    maximum that [forecast_day] computed, when they are present. *)
Definition day_drawn (units : temperature_unit) (temp_unit : string)
    (tmax tmin : list (option float)) (wcodes : list (option Z)) (i : nat)
    (w : world) : Prop :=
  (∀ x, (forecast_day units tmax tmin wcodes i).1.1 = Some x →
        StWrite ("Min: " +:+ format_1f x +:+ temp_unit) ∈ trace w)
  ∧ (∀ x, (forecast_day units tmax tmin wcodes i).1.2 = Some x →
        StWrite ("Max: " +:+ format_1f x +:+ temp_unit) ∈ trace w).

(** What a query whose forecast was fetched draws of the temperatures. *)
Definition temperatures_drawn (units : temperature_unit) (wd : weather_json)
    (w : world) : Prop :=
  let daily := default empty_daily (daily wd) in
  let shown := convert_current units (cur_temperature (current_of wd)) in
  (∀ x, shown.1 = Some x → StMetric "Current" (format_1f x +:+ shown.2) ∈ trace w)
  ∧ (∀ i, (i < Nat.min 5 (length (default [] (daily_time daily))))%nat →
       day_drawn units shown.2
         (default [] (daily_temperature_2m_max daily))
         (default [] (daily_temperature_2m_min daily))
         (default [] (daily_weathercode daily)) i w).

(** ** A mocked query *)

Definition delhi : location :=
  {| loc_name := Some "Delhi"; loc_country := Some "India";
     loc_latitude := Some (PyFloat.of_int 286667 / PyFloat.of_int 10000)%F;
     loc_longitude := Some (PyFloat.of_int 772167 / PyFloat.of_int 10000)%F |}.

Definition delhi_forecast : weather_json :=
  {| current_weather := Some
       {| cur_temperature := Some f32_5; cur_windspeed := Some f9;
          cur_weathercode := Some 1; cur_time := Some "2024-05-01T12:00" |};
     daily := Some
       {| daily_time := Some ["2024-05-01"; "2024-05-02"];
          daily_temperature_2m_max := Some [Some (PyFloat.of_int 40); Some f32_5];
          daily_temperature_2m_min := Some [Some f25; None];
          daily_weathercode := Some [Some 1; Some 61] |} |}.

(** The geocoder knows Delhi, the forecast is [delhi_forecast], and the
    air-quality service answers [aq]. *)
Definition delhi_env (aq : result aq_json) : environment :=
  {| http_geocoding := λ city,
       if bool_decide (city = "Delhi, India")
       then Ok {| geo_results := Some [delhi] |}
       else Ok {| geo_results := None |};
     http_forecast := λ _ _, Ok delhi_forecast;
     http_air_quality := λ _ _, aq;
     now := "2024-05-01 12:00:00";
     strptime_label := λ _, None;
     to_datetime_error := mock_to_datetime;
     read_back := na_filter |}.

(** The same, with a forecast response that has no block at all. *)
Definition delhi_env_bare (aq : result aq_json) : environment :=
  {| http_geocoding := http_geocoding (delhi_env aq);
     http_forecast := λ _ _, Ok {| current_weather := None; daily := None |};
     http_air_quality := λ _ _, aq;
     now := "2024-05-01 12:00:00";
     strptime_label := λ _, None;
     to_datetime_error := mock_to_datetime;
     read_back := na_filter |}.

(** A world whose log is not a workbook. *)
Definition corrupt_log_world : world :=
  {| fs := {| files := {[ LOG_PATH := Corrupt ]}; read_only := ∅ |}; trace := [] |}.

(** ** The order of floats

    Every float that is not NaN has a key in [Z * Z * Z]; the IEEE
    comparison is the lexicographic order of the keys. *)

Definition key (x : float) : Z * Z * Z :=
  match x with
  | S754_nan => (0, 0, 0)
  | S754_infinity true => (-2, 0, 0)
  | S754_finite true m e => (-1, - e, Z.neg m)
  | S754_zero _ => (0, 0, 0)
  | S754_finite false m e => (1, e, Z.pos m)
  | S754_infinity false => (2, 0, 0)
  end.

Definition lex_compare (a b : Z * Z * Z) : comparison :=
  match a.1.1 ?= b.1.1 with
  | Eq => match a.1.2 ?= b.1.2 with
          | Eq => a.2 ?= b.2
          | c => c
          end
  | c => c
  end.

Definition lex_lt (a b : Z * Z * Z) : Prop :=
  a.1.1 < b.1.1 ∨ (a.1.1 = b.1.1 ∧ (a.1.2 < b.1.2 ∨ (a.1.2 = b.1.2 ∧ a.2 < b.2))).

Definition lex_le (a b : Z * Z * Z) : Prop :=
  a.1.1 < b.1.1 ∨ (a.1.1 = b.1.1 ∧ (a.1.2 < b.1.2 ∨ (a.1.2 = b.1.2 ∧ a.2 <= b.2))).

(** ** Floats as numbers

    A finite binary64 number is an integer multiple of [2^-1074]; [scaled x]
    is that integer, so that [x] is the number [scaled x / 2^1074]. *)

Definition scaled (x : float) : Z :=
  match x with
  | S754_finite s m e => (if s then -1 else 1) * (Z.pos m * 2 ^ (e + 1074))
  | _ => 0
  end.

Definition is_finite (x : float) : bool :=
  match x with
  | S754_finite _ _ _ | S754_zero _ => true
  | _ => false
  end.

(** The integer [n], in the unit of [scaled]. *)
Definition units (n : Z) : Z := n * 2 ^ 1074.

(** The tier of a number, by the table of the specification. *)
Definition number_tier (n : Z) : tier :=
  if n <=? units 50 then Good
  else if n <=? units 100 then Moderate
  else if n <=? units 150 then UnhealthySensitive
  else if n <=? units 200 then Unhealthy
  else if n <=? units 300 then VeryUnhealthy
  else Hazardous.

(** ** Vocabulary of the further properties *)

Definition temperature_tip_set : list string := [tip_comfortable; tip_hot; tip_cool].

(** The tiers from mildest to gravest. *)
Definition tier_rank (t : tier) : nat :=
  match t with
  | Good => 0 | Moderate => 1 | UnhealthySensitive => 2 | Unhealthy => 3
  | VeryUnhealthy => 4 | Hazardous => 5 | Unknown => 6
  end.

Definition weather_tip_set : list string :=
  [tip_clear_sky; tip_daylight; tip_cloudy; tip_rain; tip_wintry].

(** The ["us_aqi"] array of a response, empty when it or the ["hourly"]
    object is missing. *)
Definition us_aqi_array (aq_data : aq_json) : list (option float) :=
  match aq_hourly aq_data with
  | Some hourly => default [] (hourly_series hourly !! "us_aqi")
  | None => []
  end.

(** A response whose hourly times are not times. *)
Definition unparsable_response : aq_json :=
  {| aq_hourly := Some
       {| hourly_time := Some ["yesterday"];
          hourly_series := <["us_aqi" := [Some f50]]> ∅ |} |}.

(** A response whose [us_aqi] array is one longer than its time array. *)
Definition ragged_response : aq_json :=
  {| aq_hourly := Some
       {| hourly_time := Some ["2024-05-01T00:00"; "2024-05-01T01:00"];
          hourly_series :=
            <["us_aqi" := [Some f50; Some f100; Some f150]]>
            (<["pm10" := [Some f9; Some f15]]> ∅) |} |}.

Definition NOT_FOUND : string :=
  "Could not find this city. Try a different spelling or include country (e.g., 'Delhi, India').".

(** An environment whose geocoder finds nothing. *)
Definition nowhere : environment :=
  {| http_geocoding := λ _, Ok {| geo_results := Some [] |};
     http_forecast := λ _ _, Err (RequestException "offline");
     http_air_quality := λ _ _, Err (RequestException "offline");
     now := "2024-05-01 12:00:00";
     strptime_label := λ _, None;
     to_datetime_error := mock_to_datetime;
     read_back := na_filter |}.

(** The requests of a trace, oldest first. *)
Definition request_url (ev : event) : option string :=
  match ev with
  | HttpGet url => Some url
  | _ => None
  end.

Definition requests (t : list event) : list string := omap request_url t.

(** A property of worlds that drawing a widget keeps (sending a request
    need not). *)
Definition ui_stable (I : world → Prop) : Prop :=
  ∀ ev w, request_url ev = None → I w → I (push ev w).


Definition SAVED : string := "📊 Weather record saved in 'weather_records.xlsx'".

(** Every file but the log is as it was, and so are the permissions. *)
Definition only_log_changed (f f' : filesystem) : Prop :=
  read_only f' = read_only f
  ∧ ∀ p, p ≠ LOG_PATH → files f' !! p = files f !! p.

(** The logger cannot write to the path. *)
Definition save_fails (f : filesystem) (path : string) : Prop :=
  files f !! path = Some Corrupt ∨ path ∈ read_only f.

(** The AQI the air-quality block leaves: the latest value of the response,
    or none when the request or the frame fails. *)
Definition fetched_aqi (env : environment) (lat lon : option float) : option float :=
  match http_air_quality env lat lon with
  | Ok aq => match aqi_timeseries aq with
             | Ok _ => (latest_aqi aq).1
             | Err _ => None
             end
  | Err _ => None
  end.

(** The record of a query that found [loc] and fetched the forecast [wd]. *)
Definition query_record (env : environment) (loc : location) (wd : weather_json)
    : record :=
  build_record (now env) (loc_name loc) (loc_country loc)
    (cur_temperature (current_of wd)) (cur_windspeed (current_of wd))
    (cur_weathercode (current_of wd))
    (fetched_aqi env (loc_latitude loc) (loc_longitude loc)).

(** The columns of the log, from the keys of the record of a query. *)
Definition LOG_COLUMNS : list string :=
  ["Date & Time"; "City"; "Country"; "Temperature (°C)"; "Wind Speed (km/h)";
   "Weather Code"; "US AQI"].

(** A daily block cut to its first five days. *)
Definition first_five (d : daily_json) : daily_json :=
  {| daily_time := take 5 <$> daily_time d;
     daily_temperature_2m_max := take 5 <$> daily_temperature_2m_max d;
     daily_temperature_2m_min := take 5 <$> daily_temperature_2m_min d;
     daily_weathercode := take 5 <$> daily_weathercode d |}.

(** * Properties *)

(** ** The float order *)

Lemma SFcompare_key (x y : float) :
  PyFloat.isnan x = false → PyFloat.isnan y = false →
  SFcompare x y = Some (lex_compare (key x) (key y)).
Proof.
  destruct x as [[]|[]| |[] m1 e1], y as [[]|[]| |[] m2 e2];
    intros Hx Hy; try discriminate Hx; try discriminate Hy; try reflexivity.
  unfold SFcompare, key, lex_compare; simpl fst; simpl snd.
  rewrite Z.compare_opp, (Z.compare_antisym e1 e2).
  change (-1 ?= -1) with Eq. cbv iota.
  destruct (e1 ?= e2); reflexivity.
Qed.

Lemma lex_compare_lt (a b : Z * Z * Z) : lex_compare a b = Lt ↔ lex_lt a b.
Proof.
  unfold lex_compare, lex_lt.
  destruct (Z.compare_spec a.1.1 b.1.1), (Z.compare_spec a.1.2 b.1.2),
    (Z.compare_spec a.2 b.2); split; (congruence || lia).
Qed.

Lemma lex_compare_le (a b : Z * Z * Z) : lex_compare a b ≠ Gt ↔ lex_le a b.
Proof.
  unfold lex_compare, lex_le.
  destruct (Z.compare_spec a.1.1 b.1.1), (Z.compare_spec a.1.2 b.1.2),
    (Z.compare_spec a.2 b.2); split; (congruence || lia).
Qed.

Lemma leb_iff (x y : float) :
  PyFloat.isnan x = false → PyFloat.isnan y = false →
  (x <=? y)%F = true ↔ lex_le (key x) (key y).
Proof.
  intros Hx Hy. rewrite <- lex_compare_le. unfold PyFloat.leb, SFleb.
  rewrite (SFcompare_key x y Hx Hy).
  destruct (lex_compare (key x) (key y)); split; congruence.
Qed.

Lemma ltb_iff (x y : float) :
  PyFloat.isnan x = false → PyFloat.isnan y = false →
  (x <? y)%F = true ↔ lex_lt (key x) (key y).
Proof.
  intros Hx Hy. rewrite <- lex_compare_lt. unfold PyFloat.ltb, SFltb.
  rewrite (SFcompare_key x y Hx Hy).
  destruct (lex_compare (key x) (key y)); split; congruence.
Qed.

Lemma leb_false_iff (x y : float) :
  PyFloat.isnan x = false → PyFloat.isnan y = false →
  (x <=? y)%F = false ↔ ¬ lex_le (key x) (key y).
Proof.
  intros Hx Hy. rewrite <- (leb_iff x y Hx Hy).
  destruct (x <=? y)%F; split; congruence.
Qed.

Lemma ltb_false_iff (x y : float) :
  PyFloat.isnan x = false → PyFloat.isnan y = false →
  (x <? y)%F = false ↔ ¬ lex_lt (key x) (key y).
Proof.
  intros Hx Hy. rewrite <- (ltb_iff x y Hx Hy).
  destruct (x <? y)%F; split; congruence.
Qed.

Lemma digits2_pos_bounds (m : positive) :
  2 ^ (Z.pos (digits2_pos m) - 1) <= Z.pos m < 2 ^ Z.pos (digits2_pos m).
Proof.
  induction m as [p IH|p IH|]; cbn [digits2_pos].
  - rewrite Pos2Z.inj_succ, Z.pow_succ_r by lia.
    replace (Z.succ (Z.pos (digits2_pos p)) - 1) with (Z.succ (Z.pos (digits2_pos p) - 1)) by lia.
    rewrite Z.pow_succ_r by lia. lia.
  - rewrite Pos2Z.inj_succ, Z.pow_succ_r by lia.
    replace (Z.succ (Z.pos (digits2_pos p)) - 1) with (Z.succ (Z.pos (digits2_pos p) - 1)) by lia.
    rewrite Z.pow_succ_r by lia. lia.
  - cbn. lia.
Qed.

(** A valid finite float: exponent at least -1074, at most 53 digits, and
    exactly 53 above the least exponent. *)
Lemma valid_finite (s : bool) (m : positive) (e : Z) :
  PyFloat.valid (S754_finite s m e) = true →
  -1074 <= e <= 971 ∧ Z.pos m < 2 ^ 53 ∧ (-1074 < e → 2 ^ 52 <= Z.pos m).
Proof.
  unfold PyFloat.valid, valid_binary, bounded, canonical_mantissa, fexp, emin,
    PyFloat.prec, PyFloat.emax.
  intros H. apply andb_prop in H as [Hc He].
  apply Z.eqb_eq in Hc. apply Z.leb_le in He.
  pose proof (digits2_pos_bounds m) as [Hlo Hhi].
  set (d := Z.pos (digits2_pos m)) in *.
  assert (Hd : d <= 53) by lia.
  split; [lia|]. split.
  - eapply Z.lt_le_trans; [exact Hhi|]. apply Z.pow_le_mono_r; lia.
  - intros He'. assert (d = 53) as Hd53 by lia. rewrite Hd53 in Hlo. exact Hlo.
Qed.

Lemma scaled_lt_exponent (m1 m2 : positive) (e1 e2 : Z) :
  -1074 <= e1 → e1 < e2 → Z.pos m1 < 2 ^ 53 → 2 ^ 52 <= Z.pos m2 →
  Z.pos m1 * 2 ^ (e1 + 1074) < Z.pos m2 * 2 ^ (e2 + 1074).
Proof.
  intros He1 Hlt H1 H2.
  assert (Ha : 0 < 2 ^ (e1 + 1074)) by (apply Z.pow_pos_nonneg; lia).
  assert (Hb : 2 ^ (e1 + 1074 + 1) <= 2 ^ (e2 + 1074)) by (apply Z.pow_le_mono_r; lia).
  rewrite Z.pow_add_r in Hb by lia. change (2 ^ 1) with 2 in Hb.
  change (2 ^ 53) with (2 * 2 ^ 52) in H1.
  set (P := 2 ^ 52) in *. assert (0 < P) by (subst P; lia). 
  nia.
Qed.

Lemma lex_le_scaled (x y : float) :
  PyFloat.valid x = true → PyFloat.valid y = true →
  is_finite x = true → is_finite y = true →
  lex_le (key x) (key y) ↔ scaled x <= scaled y.
Proof.
  intros Vx Vy Fx Fy. unfold lex_le.
  destruct x as [sx| | |sx m1 e1], y as [sy| | |sy m2 e2]; try discriminate;
    cbn [key scaled fst snd].
  - destruct sx, sy; lia.
  - apply valid_finite in Vy as (He & Hm & Hn).
    assert (0 < 2 ^ (e2 + 1074)) by (apply Z.pow_pos_nonneg; lia).
    destruct sx, sy; cbn [fst snd]; nia.
  - apply valid_finite in Vx as (He & Hm & Hn).
    assert (0 < 2 ^ (e1 + 1074)) by (apply Z.pow_pos_nonneg; lia).
    destruct sx, sy; cbn [fst snd]; nia.
  - apply valid_finite in Vx as (He1 & Hm1 & Hn1).
    apply valid_finite in Vy as (He2 & Hm2 & Hn2).
    assert (H1 : 0 < 2 ^ (e1 + 1074)) by (apply Z.pow_pos_nonneg; lia).
    assert (H2 : 0 < 2 ^ (e2 + 1074)) by (apply Z.pow_pos_nonneg; lia).
    destruct (Z.lt_trichotomy e1 e2) as [Hlt|[Heq|Hgt]].
    + pose proof (scaled_lt_exponent m1 m2 e1 e2 ltac:(lia) Hlt Hm1 ltac:(apply Hn2; lia)).
      destruct sx, sy; cbn [fst snd]; lia.
    + subst e2. destruct sx, sy; cbn [fst snd]; nia.
    + pose proof (scaled_lt_exponent m2 m1 e2 e1 ltac:(lia) Hgt Hm2 ltac:(apply Hn1; lia)).
      destruct sx, sy; cbn [fst snd]; lia.
Qed.

Lemma lex_lt_scaled (x y : float) :
  PyFloat.valid x = true → PyFloat.valid y = true →
  is_finite x = true → is_finite y = true →
  lex_lt (key x) (key y) ↔ scaled x < scaled y.
Proof.
  intros Vx Vy Fx Fy.
  pose proof (lex_le_scaled y x Vy Vx Fy Fx) as H.
  assert (Hnot : lex_lt (key x) (key y) ↔ ¬ lex_le (key y) (key x)).
  { unfold lex_lt, lex_le. destruct (key x) as [[a b] c], (key y) as [[a' b'] c'].
    cbn [fst snd]. lia. }
  rewrite Hnot, H. lia.
Qed.

Lemma is_finite_not_nan (x : float) : is_finite x = true → PyFloat.isnan x = false.
Proof. by destruct x. Qed.

(** On genuine finite binary64 numbers the comparisons of the program are
    those of the numbers. *)
Lemma leb_numeric (x y : float) :
  PyFloat.valid x = true → PyFloat.valid y = true →
  is_finite x = true → is_finite y = true →
  (x <=? y)%F = true ↔ scaled x <= scaled y.
Proof.
  intros Vx Vy Fx Fy.
  rewrite (leb_iff x y (is_finite_not_nan x Fx) (is_finite_not_nan y Fy)).
  by apply lex_le_scaled.
Qed.

Lemma ltb_numeric (x y : float) :
  PyFloat.valid x = true → PyFloat.valid y = true →
  is_finite x = true → is_finite y = true →
  (x <? y)%F = true ↔ scaled x < scaled y.
Proof.
  intros Vx Vy Fx Fy.
  rewrite (ltb_iff x y (is_finite_not_nan x Fx) (is_finite_not_nan y Fy)).
  by apply lex_lt_scaled.
Qed.

Lemma scaled_literals :
  scaled f50 = units 50 ∧ scaled f100 = units 100 ∧ scaled f150 = units 150
  ∧ scaled f200 = units 200 ∧ scaled f300 = units 300.
Proof. repeat split; vm_compute; reflexivity. Qed.

(** A NaN is neither below nor above anything. *)
Lemma nan_leb (x y : float) : PyFloat.isnan x = true → (x <=? y)%F = false.
Proof. destruct x; try discriminate. reflexivity. Qed.

Lemma nan_ltb_r (x y : float) : PyFloat.isnan y = true → (x <? y)%F = false.
Proof. destruct y; try discriminate. destruct x; reflexivity. Qed.

Lemma nan_ltb_l (x y : float) : PyFloat.isnan x = true → (x <? y)%F = false.
Proof. destruct x; try discriminate. reflexivity. Qed.

Lemma nan_leb_r (x y : float) : PyFloat.isnan y = true → (x <=? y)%F = false.
Proof. destruct y; try discriminate. destruct x; reflexivity. Qed.

(** Comparisons of one float [v] that is not NaN with the literals of the
    program become linear arithmetic over the key of [v]. *)
Ltac float_order v Hv :=
  unfold PyFloat.gtb in *;
  repeat match goal with
  | H : (_ <=? _)%F = true |- _ => apply leb_iff in H; [| exact Hv || reflexivity ..]
  | H : (_ <=? _)%F = false |- _ => apply leb_false_iff in H; [| exact Hv || reflexivity ..]
  | H : (_ <? _)%F = true |- _ => apply ltb_iff in H; [| exact Hv || reflexivity ..]
  | H : (_ <? _)%F = false |- _ => apply ltb_false_iff in H; [| exact Hv || reflexivity ..]
  | |- (_ <=? _)%F = true => apply leb_iff; [exact Hv || reflexivity ..|]
  | |- (_ <=? _)%F = false => apply leb_false_iff; [exact Hv || reflexivity ..|]
  | |- (_ <? _)%F = true => apply ltb_iff; [exact Hv || reflexivity ..|]
  | |- (_ <? _)%F = false => apply ltb_false_iff; [exact Hv || reflexivity ..|]
  end;
  unfold lex_le, lex_lt in *;
  destruct (key v) as [[? ?] ?]; cbn in *; lia.

(** ** The classifier *)

Lemma tier_description_inj (t1 t2 : tier) :
  tier_description t1 = tier_description t2 → t1 = t2.
Proof. destruct t1, t2; intros H; (reflexivity || discriminate H). Qed.

Lemma tier_badge_inj (t1 t2 : tier) : tier_badge t1 = tier_badge t2 → t1 = t2.
Proof. destruct t1, t2; intros H; (reflexivity || discriminate H). Qed.

(** Every input lies in a tier, and in one only. *)
Lemma in_tier_total (v : option float) : ∃ t, in_tier v t.
Proof.
  destruct v as [v|]; [|exists Unknown; constructor].
  destruct (PyFloat.isnan v) eqn:Hv; [exists Unknown; by constructor|].
  destruct (v <=? f50)%F eqn:H50; [exists Good; by constructor|].
  destruct (v <=? f100)%F eqn:H100;
    [exists Moderate; constructor; [float_order v Hv | done]|].
  destruct (v <=? f150)%F eqn:H150;
    [exists UnhealthySensitive; constructor; [float_order v Hv | done]|].
  destruct (v <=? f200)%F eqn:H200;
    [exists Unhealthy; constructor; [float_order v Hv | done]|].
  destruct (v <=? f300)%F eqn:H300;
    [exists VeryUnhealthy; constructor; [float_order v Hv | done]|].
  exists Hazardous; constructor; float_order v Hv.
Qed.

Lemma leb_true_not_nan (x y : float) : (x <=? y)%F = true → PyFloat.isnan x = false.
Proof.
  intros H. destruct (PyFloat.isnan x) eqn:E; [|done].
  by rewrite (nan_leb x y E) in H.
Qed.

Lemma ltb_true_not_nan_r (x y : float) : (x <? y)%F = true → PyFloat.isnan y = false.
Proof.
  intros H. destruct (PyFloat.isnan y) eqn:E; [|done].
  by rewrite (nan_ltb_r x y E) in H.
Qed.

Lemma ltb_true_not_nan_l (x y : float) : (x <? y)%F = true → PyFloat.isnan x = false.
Proof.
  intros H. destruct (PyFloat.isnan x) eqn:E; [|done].
  by rewrite (nan_ltb_l x y E) in H.
Qed.

(** Both string functions follow the tier table. *)
Lemma in_tier_strings (v : option float) (t : tier) :
  in_tier v t →
  explain_us_aqi v = tier_description t ∧ aqi_emoji v = tier_badge t.
Proof.
  intros Ht. unfold explain_us_aqi, aqi_emoji.
  inversion Ht as [x H|x H1 H|x H1 H|x H1 H|x H1 H|x H| |x H]; subst;
    try (split; reflexivity);
    try (rewrite H; split; reflexivity);
    (assert (Hv : PyFloat.isnan x = false)
       by (first [exact (leb_true_not_nan _ _ H) | exact (ltb_true_not_nan_r _ _ H)]));
    rewrite Hv;
    repeat match goal with
    | |- context [(x <=? ?c)%F] =>
        let E := fresh "E" in destruct (x <=? c)%F eqn:E
    end;
    try (split; reflexivity); exfalso; float_order x Hv.
Qed.

(** A finite number is in the tier the table gives its value. *)
Lemma in_tier_number (x : float) :
  PyFloat.valid x = true → is_finite x = true →
  in_tier (Some x) (number_tier (scaled x)).
Proof.
  intros Vx Fx. destruct scaled_literals as (E50 & E100 & E150 & E200 & E300).
  assert (Hle : ∀ c n, PyFloat.valid c = true → is_finite c = true →
            scaled c = units n → scaled x <= units n → (x <=? c)%F = true).
  { intros c n Vc Fc Ec H. apply leb_numeric; try done. by rewrite Ec. }
  assert (Hlt : ∀ c n, PyFloat.valid c = true → is_finite c = true →
            scaled c = units n → units n < scaled x → (c <? x)%F = true).
  { intros c n Vc Fc Ec H. apply ltb_numeric; try done. by rewrite Ec. }
  unfold number_tier.
  repeat match goal with
  | |- context [?a <=? ?b] => destruct (Z.leb_spec a b)
  end.
  - apply tier_good. by apply (Hle f50 50).
  - apply tier_moderate; [by apply (Hlt f50 50) | by apply (Hle f100 100)].
  - apply tier_sensitive; [by apply (Hlt f100 100) | by apply (Hle f150 150)].
  - apply tier_unhealthy; [by apply (Hlt f150 150) | by apply (Hle f200 200)].
  - apply tier_very_unhealthy; [by apply (Hlt f200 200) | by apply (Hle f300 300)].
  - apply tier_hazardous. by apply (Hlt f300 300).
Qed.

(** C1. For every AQI input the classifier is defined and puts the input
    in exactly one tier, by the inclusive upper bounds 50, 100, 150, 200 and
    300 (Hazardous above 300, Unknown for an absent or NaN input); the
    description and the badge are those of that same tier. For a finite
    number the tier is the one the table gives its value. *)
Theorem aqi_classifier_tier_table :
  (∀ v : option float,
     ∃ t : tier,
       in_tier v t
       ∧ (∀ t', in_tier v t' → t' = t)
       ∧ explain_us_aqi v = tier_description t
       ∧ aqi_emoji v = tier_badge t)
  ∧ (∀ x : float,
       PyFloat.valid x = true → is_finite x = true →
       explain_us_aqi (Some x) = tier_description (number_tier (scaled x))
       ∧ aqi_emoji (Some x) = tier_badge (number_tier (scaled x))).
Proof.
  split.
  - intros v. destruct (in_tier_total v) as [t Ht]. exists t.
    destruct (in_tier_strings v t Ht) as [Hd Hb].
    repeat split; try done.
    intros t' Ht'. apply tier_description_inj.
    destruct (in_tier_strings v t' Ht') as [Hd' _]. congruence.
  - intros x Vx Fx. apply in_tier_strings. by apply in_tier_number.
Qed.

(** The number 175.5 is Unhealthy. *)
Lemma aqi_classifier_tier_table_witness :
  explain_us_aqi (Some (PyFloat.of_dyadic 351 (-1))) = tier_description Unhealthy
  ∧ aqi_emoji (Some (PyFloat.of_dyadic 351 (-1))) = tier_badge Unhealthy.
Proof.
  apply (proj2 aqi_classifier_tier_table (PyFloat.of_dyadic 351 (-1)));
    vm_compute; reflexivity.
Defined.

(** The infinities are floats too: the tiers at the two ends. *)
Example aqi_infinities :
  in_tier (Some (S754_infinity true)) Good
  ∧ in_tier (Some (S754_infinity false)) Hazardous.
Proof. split; by constructor. Qed.

(** The example of the specification: 175 is Unhealthy, with the red badge. *)
Example aqi_175 :
  in_tier (Some (PyFloat.of_int 175)) Unhealthy
  ∧ explain_us_aqi (Some (PyFloat.of_int 175)) = tier_description Unhealthy
  ∧ aqi_emoji (Some (PyFloat.of_int 175)) = "🔴".
Proof. split; [by constructor | split; reflexivity]. Qed.

(** ** The tip engine *)

(** The accumulation is the concatenation of the four categories, in the
    order temperature, weather code, AQI, wind. *)
Lemma eco_tips_by_category (t : float) (c : Z) (a w : option float) :
  eco_tips t c a w
  = or_fallback (temperature_tips t ++ weather_tips c ++ aqi_tips a ++ wind_tips w).
Proof.
  unfold eco_tips, temperature_tips, weather_tips, aqi_tips, wind_tips, append.
  assert (Hc01 : (c =? 0) || (c =? 1) = code_in c 0 1)
    by (unfold code_in; destruct (Z.eqb_spec c 0), (Z.eqb_spec c 1); lia).
  assert (Hc23 : (c =? 2) || (c =? 3) = code_in c 2 3)
    by (unfold code_in; destruct (Z.eqb_spec c 2), (Z.eqb_spec c 3); lia).
  rewrite Hc01, Hc23. fold (code_in c 51 67) (code_in c 80 82)
    (code_in c 71 77) (code_in c 85 86).
  destruct ((f18 <=? t)%F && (t <=? f28)%F), (t >? f30)%F, (t <? f15)%F,
    (code_in c 0 1), (code_in c 2 3), (code_in c 51 67 || code_in c 80 82),
    (code_in c 71 77 || code_in c 85 86);
    destruct a as [x|]; try destruct (PyFloat.isnan x);
    try destruct (x >? f150)%F; try destruct (x <=? f50)%F;
    destruct w as [y|]; try destruct (y >? f6)%F; reflexivity.
Qed.

Lemma or_fallback_nonempty (l : list string) : or_fallback l ≠ [].
Proof. by destruct l. Qed.

Lemma temperature_tips_nil (t : float) :
  temperature_fires t = false → temperature_tips t = [].
Proof.
  unfold temperature_fires, temperature_tips.
  by destruct ((f18 <=? t)%F && (t <=? f28)%F), (t >? f30)%F, (t <? f15)%F.
Qed.

Lemma weather_tips_nil (c : Z) : weather_fires c = false → weather_tips c = [].
Proof.
  unfold weather_fires, weather_tips.
  by destruct (code_in c 0 1), (code_in c 2 3), (code_in c 51 67),
    (code_in c 80 82), (code_in c 71 77), (code_in c 85 86).
Qed.

Lemma aqi_tips_nil (a : option float) : aqi_fires a = false → aqi_tips a = [].
Proof.
  unfold aqi_fires, aqi_tips. destruct a as [x|]; [|done].
  by destruct (PyFloat.isnan x), (x >? f150)%F, (x <=? f50)%F.
Qed.

Lemma wind_tips_nil (w : option float) : wind_fires w = false → wind_tips w = [].
Proof.
  unfold wind_fires, wind_tips. destruct w as [x|]; [|done].
  by destruct (x >? f6)%F.
Qed.

(** C2. Whatever the temperature, weather code, AQI (present or absent)
    and wind speed, the tips are a non-empty list; and when no rule of any
    category fires the list is exactly the one fallback tip. *)
Theorem eco_tips_nonempty_fallback (t : float) (c : Z) (a w : option float) :
  eco_tips t c a w ≠ []
  ∧ (temperature_fires t = false → weather_fires c = false →
     aqi_fires a = false → wind_fires w = false →
     eco_tips t c a w = [tip_fallback]).
Proof.
  rewrite eco_tips_by_category. split; [apply or_fallback_nonempty|].
  intros Ht Hc Ha Hw.
  by rewrite (temperature_tips_nil t Ht), (weather_tips_nil c Hc),
    (aqi_tips_nil a Ha), (wind_tips_nil w Hw).
Qed.

(** 29 degrees, fog (code 45), no AQI, a breeze of 3 km/h: only the
    fallback. *)
Lemma eco_tips_nonempty_fallback_witness :
  eco_tips (PyFloat.of_int 29) 45 None (Some (PyFloat.of_int 3)) = [tip_fallback].
Proof.
  apply (proj2 (eco_tips_nonempty_fallback
                  (PyFloat.of_int 29) 45 None (Some (PyFloat.of_int 3))));
    reflexivity.
Defined.

(** C3. Temperature 20, weather code 61, AQI 40, wind speed 3: exactly the
    comfortable-temperature tip, the rain tip and the walk/cycle tip, in that
    order, and no fallback tip. *)
Theorem eco_tips_example_rain :
  eco_tips (PyFloat.of_int 20) 61 (Some (PyFloat.of_int 40)) (Some (PyFloat.of_int 3))
  = [tip_comfortable; tip_rain; tip_walk_cycle]
  ∧ tip_fallback ∉ eco_tips (PyFloat.of_int 20) 61 (Some (PyFloat.of_int 40))
                            (Some (PyFloat.of_int 3)).
Proof.
  assert (E : eco_tips (PyFloat.of_int 20) 61 (Some (PyFloat.of_int 40))
                (Some (PyFloat.of_int 3))
              = [tip_comfortable; tip_rain; tip_walk_cycle]) by reflexivity.
  split; [exact E|]. rewrite E.
  rewrite !elem_of_cons, elem_of_nil. intros [H|[H|[H|H]]]; (discriminate H || destruct H).
Qed.

(** Membership of a tip in a list of tips that is known case by case. *)
Ltac tip_mem :=
  rewrite ?elem_of_app, ?elem_of_cons, ?elem_of_nil;
  first [ by intuition discriminate | by auto 10 ].

Lemma temperature_tips_no_aqi (t : float) (s : string) :
  is_aqi_tip s → s ∉ temperature_tips t.
Proof.
  unfold temperature_tips.
  intros [-> | [-> | ->]];
    destruct ((f18 <=? t)%F && (t <=? f28)%F), (t >? f30)%F, (t <? f15)%F; tip_mem.
Qed.

Lemma weather_tips_no_aqi (c : Z) (s : string) :
  is_aqi_tip s → s ∉ weather_tips c.
Proof.
  unfold weather_tips.
  intros [-> | [-> | ->]];
    destruct (code_in c 0 1), (code_in c 2 3), (code_in c 51 67 || code_in c 80 82),
      (code_in c 71 77 || code_in c 85 86); tip_mem.
Qed.

Lemma wind_tips_no_aqi (w : option float) (s : string) :
  is_aqi_tip s → s ∉ wind_tips w.
Proof.
  unfold wind_tips.
  intros [-> | [-> | ->]]; destruct w as [x|]; try destruct (x >? f6)%F; tip_mem.
Qed.

(** An AQI tip is in the tips exactly when the AQI rule produced it. *)
Lemma aqi_tip_in_eco_tips (t : float) (c : Z) (a w : option float) (s : string) :
  is_aqi_tip s → s ∈ eco_tips t c a w ↔ s ∈ aqi_tips a.
Proof.
  intros Hs. rewrite eco_tips_by_category.
  pose proof (temperature_tips_no_aqi t s Hs) as Ht.
  pose proof (weather_tips_no_aqi c s Hs) as Hc.
  pose proof (wind_tips_no_aqi w s Hs) as Hw.
  assert (Hf : s ≠ tip_fallback) by (destruct Hs as [-> | [-> | ->]]; discriminate).
  set (l := temperature_tips t ++ weather_tips c ++ aqi_tips a ++ wind_tips w).
  assert (Hl : s ∈ l ↔ s ∈ aqi_tips a)
    by (unfold l; rewrite !elem_of_app; tauto).
  rewrite <- Hl. destruct l as [|s' l'] eqn:El; [|done].
  cbn. rewrite list_elem_of_singleton, elem_of_nil. tauto.
Qed.

Lemma aqi_tips_high (x : float) :
  (x >? f150)%F = true → aqi_tips (Some x) = [tip_avoid_vehicles; tip_wear_mask].
Proof.
  intros H. unfold aqi_tips.
  by rewrite (ltb_true_not_nan_r f150 x H), H.
Qed.

Lemma aqi_tips_good (x : float) :
  (x <=? f50)%F = true → aqi_tips (Some x) = [tip_walk_cycle].
Proof.
  intros H. unfold aqi_tips.
  pose proof (leb_true_not_nan x f50 H) as Hv. rewrite Hv, H.
  destruct (x >? f150)%F eqn:E; [|done]. exfalso. float_order x Hv.
Qed.

Lemma aqi_tips_middle (a : option float) :
  (aqi_present a = false
   ∨ (∃ x, a = Some x ∧ (f50 <? x)%F = true ∧ (x <=? f150)%F = true)) →
  aqi_tips a = [].
Proof.
  unfold aqi_present, aqi_tips. intros [H | (x & -> & H50 & H150)].
  - destruct a as [x|]; [|done]. by destruct (PyFloat.isnan x).
  - pose proof (leb_true_not_nan x f150 H150) as Hv. rewrite Hv.
    destruct (x >? f150)%F eqn:E1; [exfalso; float_order x Hv|].
    destruct (x <=? f50)%F eqn:E2; [exfalso; float_order x Hv|]. done.
Qed.

(** C4. An AQI above 150 puts both high-AQI tips in the output and keeps
    the walk/cycle tip out; an AQI of at most 50 puts the walk/cycle tip in
    and keeps both high-AQI tips out; an AQI that is absent, NaN, or above 50
    and at most 150 puts no AQI tip in. At 175 the output has both high-AQI
    tips and not the walk/cycle tip. *)
Theorem eco_tips_aqi_rule :
  (∀ (t : float) (c : Z) (w : option float) (x : float),
     (x >? f150)%F = true →
     tip_avoid_vehicles ∈ eco_tips t c (Some x) w
     ∧ tip_wear_mask ∈ eco_tips t c (Some x) w
     ∧ tip_walk_cycle ∉ eco_tips t c (Some x) w)
  ∧ (∀ (t : float) (c : Z) (w : option float) (x : float),
     (x <=? f50)%F = true →
     tip_walk_cycle ∈ eco_tips t c (Some x) w
     ∧ (tip_avoid_vehicles ∉ eco_tips t c (Some x) w)
     ∧ (tip_wear_mask ∉ eco_tips t c (Some x) w))
  ∧ (∀ (t : float) (c : Z) (w a : option float),
     (aqi_present a = false
      ∨ (∃ x, a = Some x ∧ (f50 <? x)%F = true ∧ (x <=? f150)%F = true)) →
     ∀ s, is_aqi_tip s → s ∉ eco_tips t c a w)
  ∧ (∀ (t : float) (c : Z) (w : option float),
     tip_avoid_vehicles ∈ eco_tips t c (Some (PyFloat.of_int 175)) w
     ∧ tip_wear_mask ∈ eco_tips t c (Some (PyFloat.of_int 175)) w
     ∧ tip_walk_cycle ∉ eco_tips t c (Some (PyFloat.of_int 175)) w).
Proof.
  assert (Hhigh : ∀ t c w x, (x >? f150)%F = true →
     tip_avoid_vehicles ∈ eco_tips t c (Some x) w
     ∧ tip_wear_mask ∈ eco_tips t c (Some x) w
     ∧ tip_walk_cycle ∉ eco_tips t c (Some x) w).
  { intros t c w x H.
    rewrite !aqi_tip_in_eco_tips by (unfold is_aqi_tip; auto).
    rewrite (aqi_tips_high x H). repeat split; tip_mem. }
  repeat split.
  - by apply Hhigh.
  - by apply Hhigh.
  - by apply Hhigh.
  - rewrite aqi_tip_in_eco_tips by (unfold is_aqi_tip; auto).
    rewrite (aqi_tips_good x H). tip_mem.
  - rewrite aqi_tip_in_eco_tips by (unfold is_aqi_tip; auto).
    rewrite (aqi_tips_good x H). tip_mem.
  - rewrite aqi_tip_in_eco_tips by (unfold is_aqi_tip; auto).
    rewrite (aqi_tips_good x H). tip_mem.
  - intros t c w a H s Hs. rewrite (aqi_tip_in_eco_tips t c a w s Hs).
    rewrite (aqi_tips_middle a H). apply not_elem_of_nil.
  - by apply Hhigh.
  - by apply Hhigh.
  - by apply Hhigh.
Qed.

(** At AQI 175 on a mild rainy day. *)
Lemma eco_tips_aqi_rule_witness :
  tip_avoid_vehicles
    ∈ eco_tips (PyFloat.of_int 20) 61 (Some (PyFloat.of_int 175)) (Some (PyFloat.of_int 3))
  ∧ tip_wear_mask
    ∈ eco_tips (PyFloat.of_int 20) 61 (Some (PyFloat.of_int 175)) (Some (PyFloat.of_int 3))
  ∧ tip_walk_cycle
    ∉ eco_tips (PyFloat.of_int 20) 61 (Some (PyFloat.of_int 175)) (Some (PyFloat.of_int 3)).
Proof.
  apply (proj1 eco_tips_aqi_rule (PyFloat.of_int 20) 61 (Some (PyFloat.of_int 3))
           (PyFloat.of_int 175)).
  reflexivity.
Defined.

(** ** The fallback tip *)

Lemma temperature_tips_fires (t : float) :
  temperature_fires t = true → temperature_tips t ≠ [].
Proof.
  unfold temperature_fires, temperature_tips.
  by destruct ((f18 <=? t)%F && (t <=? f28)%F), (t >? f30)%F, (t <? f15)%F.
Qed.

Lemma weather_tips_fires (c : Z) : weather_fires c = true → weather_tips c ≠ [].
Proof.
  unfold weather_fires, weather_tips.
  by destruct (code_in c 0 1), (code_in c 2 3), (code_in c 51 67),
    (code_in c 80 82), (code_in c 71 77), (code_in c 85 86).
Qed.

Lemma aqi_tips_fires (a : option float) : aqi_fires a = true → aqi_tips a ≠ [].
Proof.
  unfold aqi_fires, aqi_tips. destruct a as [x|]; [|done].
  by destruct (PyFloat.isnan x), (x >? f150)%F, (x <=? f50)%F.
Qed.

Lemma wind_tips_fires (w : option float) : wind_fires w = true → wind_tips w ≠ [].
Proof.
  unfold wind_fires, wind_tips. destruct w as [x|]; [|done].
  by destruct (x >? f6)%F.
Qed.

Lemma rule_tips_no_fallback (t : float) (c : Z) (a w : option float) :
  tip_fallback ∉ temperature_tips t ++ weather_tips c ++ aqi_tips a ++ wind_tips w.
Proof.
  rewrite !not_elem_of_app. repeat split.
  - unfold temperature_tips.
    destruct ((f18 <=? t)%F && (t <=? f28)%F), (t >? f30)%F, (t <? f15)%F; tip_mem.
  - unfold weather_tips.
    destruct (code_in c 0 1), (code_in c 2 3), (code_in c 51 67 || code_in c 80 82),
      (code_in c 71 77 || code_in c 85 86); tip_mem.
  - unfold aqi_tips. destruct a as [x|]; [|tip_mem].
    destruct (PyFloat.isnan x), (x >? f150)%F, (x <=? f50)%F; tip_mem.
  - unfold wind_tips. destruct w as [x|]; [|tip_mem].
    destruct (x >? f6)%F; tip_mem.
Qed.

(** The fallback tip is in the output exactly when no rule fires. *)
Lemma eco_tips_fallback_iff (t : float) (c : Z) (a w : option float) :
  tip_fallback ∈ eco_tips t c a w
  ↔ temperature_fires t = false ∧ weather_fires c = false
    ∧ aqi_fires a = false ∧ wind_fires w = false.
Proof.
  split.
  - intros Hin. rewrite eco_tips_by_category in Hin.
    pose proof (rule_tips_no_fallback t c a w) as Hno.
    destruct (temperature_tips t ++ weather_tips c ++ aqi_tips a ++ wind_tips w)
      as [|s l] eqn:El; [|done].
    apply app_eq_nil in El as [Ht El]. apply app_eq_nil in El as [Hc El].
    apply app_eq_nil in El as [Ha Hw].
    repeat split.
    + destruct (temperature_fires t) eqn:E; [|done].
      by destruct (temperature_tips_fires t E).
    + destruct (weather_fires c) eqn:E; [|done]. by destruct (weather_tips_fires c E).
    + destruct (aqi_fires a) eqn:E; [|done]. by destruct (aqi_tips_fires a E).
    + destruct (wind_fires w) eqn:E; [|done]. by destruct (wind_tips_fires w E).
  - intros (Ht & Hc & Ha & Hw). rewrite eco_tips_by_category.
    rewrite (temperature_tips_nil t Ht), (weather_tips_nil c Hc),
      (aqi_tips_nil a Ha), (wind_tips_nil w Hw).
    cbn. by apply list_elem_of_singleton.
Qed.

(** ** The pollutant summary *)

Lemma pollutant_lines_table (p : gmap string (option float)) :
  pollutant_lines p = omap (present_line p) pollutant_table.
Proof.
  unfold pollutant_lines, pollutant_table, present_line, pollutant_line, append.
  cbn [omap list_omap fst snd].
  by destruct (dict_get p "pm2_5"), (dict_get p "pm10"), (dict_get p "ozone"),
    (dict_get p "nitrogen_dioxide"), (dict_get p "carbon_monoxide").
Qed.

(** C5. The lines of the summary are those of the pollutants that are
    present, one each, in the order PM2.5, PM10, ozone, NO2, CO; the summary
    joins them with newlines; and when all five are absent the summary is the
    "not available" sentence, which is not the empty string. *)
Theorem pollutant_summary_lines (p : gmap string (option float)) :
  pollutant_lines p = omap (present_line p) pollutant_table
  ∧ length (pollutant_lines p)
    = length (filter (λ entry, is_Some (dict_get p entry.1)) pollutant_table)
  ∧ (pollutant_lines p ≠ [] →
     pollutant_summary p = String.concat newline (pollutant_lines p))
  ∧ ((∀ entry, entry ∈ pollutant_table → dict_get p entry.1 = None) →
     pollutant_summary p = NOT_AVAILABLE)
  ∧ NOT_AVAILABLE ≠ "".
Proof.
  split; [apply pollutant_lines_table|]. split; [|split; [|split]].
  - rewrite pollutant_lines_table.
    unfold pollutant_table, present_line. cbn [omap list_omap fst snd].
    rewrite !filter_cons, filter_nil. cbn [fst].
    destruct (dict_get p "pm2_5"), (dict_get p "pm10"), (dict_get p "ozone"),
      (dict_get p "nitrogen_dioxide"), (dict_get p "carbon_monoxide");
      repeat case_decide; cbn; try reflexivity;
      exfalso; repeat match goal with
        | H : ¬ is_Some (Some _) |- _ => apply H; eauto
        | H : is_Some None |- _ => by destruct H
        end.
  - unfold pollutant_summary. by destruct (pollutant_lines p).
  - intros Habs. unfold pollutant_summary. rewrite pollutant_lines_table.
    unfold pollutant_table, present_line in *. cbn [omap list_omap fst snd].
    pose proof (Habs ("pm2_5", "PM2.5: ")) as H1.
    pose proof (Habs ("pm10", "PM10: ")) as H2.
    pose proof (Habs ("ozone", "O₃ (ozone): ")) as H3.
    pose proof (Habs ("nitrogen_dioxide", "NO₂: ")) as H4.
    pose proof (Habs ("carbon_monoxide", "CO: ")) as H5.
    cbn [fst] in H1, H2, H3, H4, H5.
    rewrite H1, H2, H3, H4, H5 by (rewrite !elem_of_cons; auto 10).
    reflexivity.
  - discriminate.
Qed.

(** The five-key mapping of a sample with no values, and the empty
    mapping, both give the sentence. *)
Lemma pollutant_summary_lines_witness :
  pollutant_summary ∅ = NOT_AVAILABLE.
Proof.
  apply (proj1 (proj2 (proj2 (proj2 (pollutant_summary_lines ∅))))).
  intros entry _. reflexivity.
Defined.

Example pollutant_summary_two :
  pollutant_summary (<["carbon_monoxide" := Some f200]>
                       (<["pm10" := Some (PyFloat.of_dyadic 25 (-1))]>
                          (<["ozone" := None]> ∅)))
  = "PM10: 12.5 µg/m³" +:+ newline +:+ "CO: 200.0 µg/m³".
Proof. reflexivity. Qed.

(** ** The latest air-quality sample *)

Lemma item_lookup (arr : list (option float)) (i : nat) :
  item arr i = match arr !! i with Some v => v | None => None end.
Proof. reflexivity. Qed.

Lemma _safe_get_value (h : hourly_json) (key : string) (i : nat) :
  _safe_get h key i
  = series_value {| aq_hourly := Some h |} key i.
Proof.
  unfold _safe_get, series_value, item. cbn.
  destruct (hourly_series h !! key) as [arr|]; [|done].
  destruct arr as [|x arr]; [done|].
  rewrite bool_decide_eq_false_2 by done. cbn [orb].
  destruct (Nat.leb_spec (length (x :: arr)) i) as [Hle|Hlt]; [|done].
  by rewrite (lookup_ge_None_2 _ _ Hle).
Qed.

Lemma latest_aqi_nonempty (aq : aq_json) :
  (0 < length (time_array aq))%nat →
  latest_aqi aq
  = (series_value aq "us_aqi" (length (time_array aq) - 1),
     list_to_map ((λ k, (k, series_value aq k (length (time_array aq) - 1)))
                    <$> pollutant_keys)).
Proof.
  unfold latest_aqi, time_array, default.
  destruct aq as [[h|]]; cbn [aq_hourly from_option id]; [|cbn; lia].
  destruct (hourly_time h) as [times|]; cbn [from_option id]; [|cbn; lia].
  intros Hn. destruct times as [|t times]; [cbn in Hn; lia|].
  rewrite bool_decide_eq_false_2 by done.
  rewrite !_safe_get_value. f_equal.
  unfold series_value. cbn [aq_hourly].
  destruct (hourly_series h !! "us_aqi") as [arr|]; cbn [from_option id].
  - rewrite item_lookup.
    destruct (Nat.ltb_spec (length (t :: times) - 1) (length arr)) as [Hlt|Hge];
      [done|]. by rewrite (lookup_ge_None_2 _ _ Hge).
  - by destruct (length (t :: times) - 1 <? length [])%nat.
Qed.

Lemma latest_aqi_empty (aq : aq_json) :
  time_array aq = [] → latest_aqi aq = (None, ∅).
Proof.
  unfold latest_aqi, time_array, default.
  destruct aq as [[h|]]; cbn [aq_hourly from_option id]; [|done].
  destruct (hourly_time h) as [times|]; cbn [from_option id]; [|done].
  by intros ->.
Qed.

(** C9. When the hourly time array has length [n > 0] the latest sample is
    the [us_aqi] value and each pollutant value at index [n - 1], absent for
    a series that is missing or shorter than [n]; when the time array is
    empty or missing the result is absent with an empty pollutant mapping.
    The time array is used for its length alone: responses that differ
    only in the contents of the time array give the same sample. *)
Theorem latest_aqi_last_index :
  (∀ aq : aq_json,
     (0 < length (time_array aq))%nat →
     latest_aqi aq
     = (series_value aq "us_aqi" (length (time_array aq) - 1),
        list_to_map ((λ k, (k, series_value aq k (length (time_array aq) - 1)))
                       <$> pollutant_keys)))
  ∧ (∀ aq : aq_json, time_array aq = [] → latest_aqi aq = (None, ∅))
  ∧ (∀ (series : gmap string (list (option float))) (t1 t2 : list string),
       length t1 = length t2 →
       latest_aqi {| aq_hourly := Some {| hourly_time := Some t1;
                                          hourly_series := series |} |}
       = latest_aqi {| aq_hourly := Some {| hourly_time := Some t2;
                                            hourly_series := series |} |}).
Proof.
  split; [exact latest_aqi_nonempty|]. split; [exact latest_aqi_empty|].
  intros series t1 t2 Hlen.
  destruct t1 as [|a1 t1], t2 as [|a2 t2]; try discriminate Hlen; [done|].
  rewrite !latest_aqi_nonempty by (cbn; lia).
  unfold time_array, series_value. cbn [aq_hourly hourly_time hourly_series].
  by rewrite Hlen.
Qed.

Lemma latest_aqi_last_index_witness :
  latest_aqi sample_response
  = (Some f150,
     list_to_map [("pm2_5", None); ("pm10", None); ("ozone", Some f25);
                  ("nitrogen_dioxide", None); ("carbon_monoxide", None)]).
Proof.
  rewrite (proj1 latest_aqi_last_index sample_response) by (cbn; lia).
  reflexivity.
Defined.

(** ** The record logger *)

Lemma bind_returned {A B} (m : M A) (f : A → M B) env w a w' :
  m env w = (Returned a, w') → (m ≫= f) env w = f a env w'.
Proof. intros H. unfold mbind, M_bind. by rewrite H. Qed.

(** On a writable path that names nothing, the file is created with the
    single record; nothing is drawn. *)
Lemma save_record_absent (r : record) (path : string) env (w : world) :
  files (fs w) !! path = None → path ∉ read_only (fs w) →
  save_record_to_excel r path env w
  = (Returned tt,
     {| fs := {| files := <[path := Workbook (DataFrame_of_record r)]> (files (fs w));
                 read_only := read_only (fs w) |};
        trace := trace w |}).
Proof.
  intros Hnone Hrw.
  unfold save_record_to_excel, try_except, os_path_exists, to_excel, get_fs, put_fs,
    mbind, M_bind, mret, M_ret.
  rewrite Hnone. rewrite bool_decide_eq_false_2 by (by intros [? ?]).
  by rewrite bool_decide_eq_false_2.
Qed.

(** On a writable path that names a workbook, the workbook is replaced by
    the rows loaded from it followed by the record. *)
Lemma save_record_existing (r : record) (path : string) env (w : world) df :
  files (fs w) !! path = Some (Workbook df) → path ∉ read_only (fs w) →
  save_record_to_excel r path env w
  = (Returned tt,
     {| fs := {| files := <[path := Workbook
                              (pd_concat {| columns := columns df;
                                            rows := read_back env df |}
                                         (DataFrame_of_record r))]>
                            (files (fs w));
                 read_only := read_only (fs w) |};
        trace := trace w |}).
Proof.
  intros Hsome Hrw.
  unfold save_record_to_excel, try_except, os_path_exists, pd_read_excel, to_excel,
    get_fs, put_fs, ask, mbind, M_bind, mret, M_ret.
  cbv beta. rewrite Hsome. rewrite bool_decide_eq_true_2 by eauto.
  cbv beta iota. rewrite Hsome. cbv beta iota.
  by rewrite bool_decide_eq_false_2.
Qed.






(** The fields of a row are those of its record. *)
Lemma row_of_record_field (r : record) (k : string) (v : pyval) :
  NoDup r.*1 → (k, v) ∈ r → (list_to_map r : gmap string pyval) !! k = Some v.
Proof. intros Hnd Hin. by apply elem_of_list_to_map_1. Qed.

(** ** Computations that return: the rules *)

Section Returns.
Context (env : environment).

Lemma returns_ret {A} (a : A) w (Q : A → world → Prop) :
  Q a w → returns env (mret a) w Q.
Proof. intros H. by exists a, w. Qed.

Lemma returns_bind {A B} (m : M A) (f : A → M B) w (Q : B → world → Prop) :
  returns env m w (λ a w', returns env (f a) w' Q) → returns env (m ≫= f) w Q.
Proof.
  intros (a & w' & Hm & b & w'' & Hf & HQ). exists b, w''. split; [|done].
  by rewrite (bind_returned _ _ _ _ _ _ Hm).
Qed.

Lemma returns_emit ev w (Q : unit → world → Prop) :
  Q tt (push ev w) → returns env (emit ev) w Q.
Proof. intros H. by exists tt, (push ev w). Qed.

Lemma returns_ask w (Q : environment → world → Prop) :
  Q env w → returns env ask w Q.
Proof. intros H. by exists env, w. Qed.

Lemma returns_mono {A} (m : M A) w (Q Q' : A → world → Prop) :
  returns env m w Q → (∀ a w', Q a w' → Q' a w') → returns env m w Q'.
Proof. intros (a & w' & Hm & HQ) Himp. exists a, w'. eauto. Qed.

(** Two postconditions of one run hold together. *)
Lemma returns_bind_and {A} (m : M A) w (Q1 Q2 : A → world → Prop) :
  returns env m w Q1 → returns env m w Q2 →
  returns env m w (λ a w', Q1 a w' ∧ Q2 a w').
Proof.
  intros (a1 & w1 & H1 & HQ1) (a2 & w2 & H2 & HQ2).
  rewrite H1 in H2. injection H2 as <- <-. by exists a1, w1.
Qed.

(** Sequencing through an invariant. *)
Lemma returns_seq {A B} (I : world → Prop) (m : M A) (f : A → M B) w
    (Q : B → world → Prop) :
  returns env m w (λ _, I) → (∀ a w', I w' → returns env (f a) w' Q) →
  returns env (m ≫= f) w Q.
Proof.
  intros Hm Hf. apply returns_bind. eapply returns_mono; [exact Hm|].
  intros a w' HI. by apply Hf.
Qed.

Lemma returns_for_each {A} (I : world → Prop) (body : A → M unit) (l : list A) :
  (∀ x w, I w → returns env (body x) w (λ _, I)) →
  ∀ w, I w → returns env (for_each l body) w (λ _, I).
Proof.
  intros Hbody. induction l as [|x l IH]; intros w Hw; cbn [for_each].
  - by apply returns_ret.
  - apply (returns_seq I); [by apply Hbody|]. intros _ w' Hw'. by apply IH.
Qed.
End Returns.

(** A block that only draws keeps every stable property. *)
Ltac draws HI :=
  repeat first
    [ apply returns_bind
    | apply returns_emit
    | apply returns_ret
    | apply returns_ask
    | match goal with
      | |- returns _ (match ?x with _ => _ end) _ _ => destruct x
      end
    | progress cbv beta ];
  repeat apply HI; assumption.

Lemma render_current_inv env (I : world → Prop) city_name country time_str temp
    temp_unit wind_speed weather_code w :
  stable I → I w →
  returns env (render_current city_name country time_str temp temp_unit wind_speed
                 weather_code) w (λ _, I).
Proof. intros HI Hw. unfold render_current. draws HI. Qed.

(** The air-quality section returns when the conversion of the times does
    not raise. *)
Lemma render_air_quality_inv env (I : world → Prop) aqi_val pollutants aqi_df w :
  chart_error env aqi_val aqi_df = None →
  stable I → I w →
  returns env (render_air_quality aqi_val pollutants aqi_df) w (λ _, I).
Proof.
  intros Hchart HI Hw. unfold render_air_quality, chart_error in *.
  destruct aqi_val as [a|]; [|draws HI].
  destruct (PyFloat.isnan a); cbn [negb andb] in *; [draws HI|].
  destruct aqi_df as [df|]; [|draws HI].
  case_bool_decide; cbn [negb] in *; [draws HI|].
  repeat first [ apply returns_bind | apply returns_emit | apply returns_ask
               | progress cbv beta ].
  rewrite Hchart. apply returns_emit. cbv beta.
  apply returns_emit. repeat apply HI. assumption.
Qed.

Lemma render_forecast_day_inv env (I : world → Prop) units temp_unit dates tmax tmin
    wcodes i w :
  stable I → I w →
  returns env (render_forecast_day units temp_unit dates tmax tmin wcodes i) w
    (λ _, I).
Proof.
  intros HI Hw. unfold render_forecast_day.
  destruct (forecast_day units tmax tmin wcodes i) as [[d_tmin d_tmax] d_code].
  draws HI.
Qed.

Lemma render_forecast_inv env (I : world → Prop) units temp_unit daily w :
  stable I → I w →
  returns env (render_forecast units temp_unit daily) w (λ _, I).
Proof.
  intros HI Hw. unfold render_forecast.
  apply returns_bind, returns_emit. cbv beta.
  apply (returns_seq env I).
  - case_bool_decide.
    + apply returns_emit. by do 2 apply HI.
    + apply returns_for_each; [|by apply HI].
      intros i w' Hw'. by apply render_forecast_day_inv.
  - intros _ w' Hw'. apply returns_emit. by apply HI.
Qed.

Lemma render_tips_inv env (I : world → Prop) temp_c wind_speed weather_code aqi_val w :
  stable I → I w →
  returns env (render_tips temp_c wind_speed weather_code aqi_val) w (λ _, I).
Proof.
  intros HI Hw. unfold render_tips.
  apply returns_bind, returns_emit. cbv beta.
  apply returns_for_each; [|by apply HI].
  intros tip w' Hw'. apply returns_emit. by apply HI.
Qed.

Lemma render_raw_inv env (I : world → Prop) show_raw w :
  stable I → I w → returns env (render_raw show_raw) w (λ _, I).
Proof. intros HI Hw. unfold render_raw. draws HI. Qed.

(** Without a usable AQI the air-quality block draws the warning. *)
Lemma render_air_quality_unavailable env aqi_val pollutants aqi_df w :
  aqi_present aqi_val = false →
  returns env (render_air_quality aqi_val pollutants aqi_df) w
    (λ _ w', StWarning AQ_UNAVAILABLE ∈ trace w').
Proof.
  intros Ha. unfold render_air_quality, aqi_present in *.
  assert (Hin : ∀ w0 : world,
    StWarning AQ_UNAVAILABLE
      ∈ trace (push (StMarkdown "---") (push (StWarning AQ_UNAVAILABLE) w0))).
  { intros w0. cbn. rewrite !elem_of_app, !list_elem_of_singleton. auto. }
  destruct aqi_val as [a|]; [rewrite Ha|];
    apply returns_bind, returns_emit; cbv beta;
    apply returns_bind, returns_emit; cbv beta;
    apply returns_emit, Hin.
Qed.

Lemma stable_in_trace (ev : event) : stable (λ w, ev ∈ trace w).
Proof. intros ev' w H. cbn. rewrite elem_of_app. by left. Qed.

Lemma stable_True : stable (λ _, True).
Proof. done. Qed.

Lemma stable_and (I J : world → Prop) :
  stable I → stable J → stable (λ w, I w ∧ J w).
Proof. intros HI HJ ev w [? ?]. split; [by apply HI | by apply HJ]. Qed.

Lemma stable_fs (f : filesystem) : stable (λ w, fs w = f).
Proof. by intros ev w H. Qed.

(** The air-quality block never raises: a failing request, or a frame that
    cannot be built, leaves the unavailable state. *)
Lemma fetch_air_quality_returns env lat lon w :
  ∃ r, fetch_air_quality lat lon env w = (Returned r, push (HttpGet AIR_QUALITY_URL) w)
       ∧ (∀ e, http_air_quality env lat lon = Err e → r = (None, ∅, None))
       ∧ chart_error env r.1.1 r.2 = trend_error env lat lon.
Proof.
  unfold fetch_air_quality, try_except, get_air_quality, ask, emit, lift_result,
    mbind, M_bind, mret, M_ret, raise, trend_error. cbv beta iota.
  destruct (http_air_quality env lat lon) as [aq|e]; cbv beta iota.
  - destruct (latest_aqi aq) as [aqi_val pollutants]. cbn [fst].
    destruct (aqi_timeseries aq) as [df|e] eqn:Hdf; cbv beta iota; eexists;
      (split; [done|]); (split; [intros ? [=]|]); cbn [fst snd]; [|done].
    destruct df as [df|]; [|by destruct aqi_val].
    destruct aqi_val as [a|]; [|done]. cbn [chart_error aqi_present].
    assert (Htimes : frame_time df ≠ []).
    { unfold aqi_timeseries in Hdf. repeat case_bool_decide; cbn in Hdf; try done.
      injection Hdf as <-. cbn. tauto. }
    rewrite (bool_decide_eq_false_2 _ Htimes). cbn [negb]. by rewrite andb_true_r.
  - eexists. split; [done|]. done.
Qed.

(** The logger never raises. When the log cannot be appended to, the file
    system is untouched and one warning is drawn. *)
Lemma save_record_returns (r : record) env w :
  ∃ w', save_record_to_excel r LOG_PATH env w = (Returned tt, w')
        ∧ (fs w' = fs w ∨ ¬ log_fails (fs w))
        ∧ (log_fails (fs w) →
           ∃ msg, w' = push (StWarning ("Could not save record to Excel: " +:+ msg)) w).
Proof.
  unfold log_fails.
  unfold save_record_to_excel, try_except, os_path_exists, pd_read_excel, to_excel,
    get_fs, put_fs, ask, emit, raise, mbind, M_bind, mret, M_ret. cbv beta iota.
  destruct (files (fs w) !! LOG_PATH) as [[df|]|] eqn:Hf; cbv beta iota.
  - rewrite bool_decide_eq_true_2 by eauto. cbv beta iota. rewrite Hf. cbv beta iota.
    case_bool_decide; cbv beta iota; eexists; (split; [done|]); split; eauto.
    + right. intros [?|?]; done.
    + intros [?|?]; done.
  - rewrite bool_decide_eq_true_2 by eauto. cbv beta iota. rewrite Hf. cbv beta iota.
    eexists; (split; [done|]); split; eauto.
  - rewrite bool_decide_eq_false_2 by (by intros [? ?]). cbv beta iota.
    case_bool_decide; cbv beta iota; eexists; (split; [done|]); split; eauto.
    + right. intros [?|?]; done.
    + intros [?|?]; done.
Qed.

(** The drawing that follows the save, block after block: each block
    takes the property of the block before it to its own. *)
Lemma render_all_chain env (I0 I1 I2 I3 I4 I5 : world → Prop) units show_raw
    city_name country time_str temp temp_unit temp_c wind_speed weather_code aqi_val
    pollutants aqi_df daily w :
  I0 (push (StSuccess "📊 Weather record saved in 'weather_records.xlsx'") w) →
  (∀ w', I0 w' →
     returns env (render_current city_name country time_str temp temp_unit
                    wind_speed weather_code) w' (λ _, I1)) →
  (∀ w', I1 w' →
     returns env (render_air_quality aqi_val pollutants aqi_df) w' (λ _, I2)) →
  (∀ w', I2 w' → returns env (render_forecast units temp_unit daily) w' (λ _, I3)) →
  (∀ w', I3 w' →
     returns env (render_tips temp_c wind_speed weather_code aqi_val) w' (λ _, I4)) →
  (∀ w', I4 w' → returns env (render_raw show_raw) w' (λ _, I5)) →
  returns env
    (emit (StSuccess "📊 Weather record saved in 'weather_records.xlsx'");;
     render_current city_name country time_str temp temp_unit wind_speed weather_code;;
     render_air_quality aqi_val pollutants aqi_df;;
     render_forecast units temp_unit daily;;
     render_tips temp_c wind_speed weather_code aqi_val;;
     render_raw show_raw) w (λ _, I5).
Proof.
  intros Hw H1 H2 H3 H4 H5.
  apply returns_bind, returns_emit. cbv beta.
  apply (returns_seq env I1); [by apply H1|].
  intros _ w1 Hw1. apply (returns_seq env I2); [by apply H2|].
  intros _ w2 Hw2. apply (returns_seq env I3); [by apply H3|].
  intros _ w3 Hw3. apply (returns_seq env I4); [by apply H4|].
  intros _ w4 Hw4. by apply H5.
Qed.

(** After a successful forecast fetch the air-quality block and the save
    return; what is left is the drawing, from the world [w2] the save
    leaves. It returns when the conversion of the times for the trend does
    not raise. *)
Lemma after_forecast_tail env units show_raw loc wd w (Q : unit → world → Prop) :
  trend_error env (loc_latitude loc) (loc_longitude loc) = None →
  (∀ aqi_val pollutants aqi_df w2,
     chart_error env aqi_val aqi_df = None →
     (∀ e, http_air_quality env (loc_latitude loc) (loc_longitude loc) = Err e →
           (aqi_val, pollutants, aqi_df) = (None, ∅, None)) →
     returns env
       (emit (StSuccess "📊 Weather record saved in 'weather_records.xlsx'");;
        render_current (loc_name loc) (loc_country loc) (cur_time (current_of wd))
          (convert_current units (cur_temperature (current_of wd))).1
          (convert_current units (cur_temperature (current_of wd))).2
          (cur_windspeed (current_of wd)) (cur_weathercode (current_of wd));;
        render_air_quality aqi_val pollutants aqi_df;;
        render_forecast units
          (convert_current units (cur_temperature (current_of wd))).2
          (default empty_daily (daily wd));;
        render_tips (cur_temperature (current_of wd)) (cur_windspeed (current_of wd))
          (cur_weathercode (current_of wd)) aqi_val;;
        render_raw show_raw) w2 Q) →
  returns env (after_forecast units show_raw loc wd) w Q.
Proof.
  intros Htrend Htail. unfold after_forecast. fold (current_of wd).
  destruct (convert_current units _) as [temp temp_unit] eqn:Hconv.
  destruct (fetch_air_quality_returns env (loc_latitude loc) (loc_longitude loc) w)
    as (r & Hfetch & Hr & Hchart).
  apply returns_bind. exists r, (push (HttpGet AIR_QUALITY_URL) w).
  split; [exact Hfetch|]. destruct r as [[aqi_val pollutants] aqi_df].
  apply returns_bind, returns_ask. cbv beta.
  set (rec := build_record _ _ _ _ _ _ _).
  destruct (save_record_returns rec env (push (HttpGet AIR_QUALITY_URL) w))
    as (w2 & Hsave & Hfs & Hfail).
  apply returns_bind. exists tt, w2. split; [exact Hsave|].
  apply (Htail aqi_val pollutants aqi_df w2); [|done].
  cbn [fst snd] in Hchart. congruence.
Qed.

(** A query whose forecast was fetched returns, whatever the air-quality
    service and the file system do, when the conversion of the times for the
    trend does not raise. *)
Lemma after_forecast_completes env units show_raw loc wd w :
  trend_error env (loc_latitude loc) (loc_longitude loc) = None →
  returns env (after_forecast units show_raw loc wd) w (λ _ _, True).
Proof.
  intros Htrend.
  apply after_forecast_tail; [done|]. intros aqi_val pollutants aqi_df w2 Hchart _.
  apply (render_all_chain env (λ _, True) (λ _, True) (λ _, True) (λ _, True)
           (λ _, True) (λ _, True)); [done|..]; intros w' _.
  - by apply render_current_inv.
  - by apply render_air_quality_inv.
  - by apply render_forecast_inv.
  - by apply render_tips_inv.
  - by apply render_raw_inv.
Qed.

Lemma trend_error_aq_error env lat lon e :
  http_air_quality env lat lon = Err e → trend_error env lat lon = None.
Proof. intros He. unfold trend_error. by rewrite He. Qed.

(** A failing air-quality request ends in the warning of the unavailable
    state. *)
Lemma after_forecast_aq_error env units show_raw loc wd w e :
  http_air_quality env (loc_latitude loc) (loc_longitude loc) = Err e →
  returns env (after_forecast units show_raw loc wd) w
    (λ _ w', StWarning AQ_UNAVAILABLE ∈ trace w').
Proof.
  intros He. apply after_forecast_tail; [by apply (trend_error_aq_error _ _ _ e)|].
  intros aqi_val pollutants aqi_df w2 _ Hr.
  injection (Hr e He) as -> -> ->.
  set (J := λ w' : world, StWarning AQ_UNAVAILABLE ∈ trace w').
  assert (HJ : stable J) by apply stable_in_trace.
  apply (render_all_chain env (λ _, True) (λ _, True) J J J J); [done|..]; intros w' Hw'.
  - by apply render_current_inv.
  - by apply render_air_quality_unavailable.
  - by apply render_forecast_inv.
  - by apply render_tips_inv.
  - by apply render_raw_inv.
Qed.

(** *** Runs that may end with an exception *)

Lemma bind_raised {A B} (m : M A) (f : A → M B) env w e w' :
  m env w = (Raised e, w') → (m ≫= f) env w = (Raised e, w').
Proof. intros H. unfold mbind, M_bind. by rewrite H. Qed.

Lemma stable_ui_stable (I : world → Prop) : stable I → ui_stable I.
Proof. intros HI ev w _. apply HI. Qed.

(** *** The drawing blocks send no request and touch no file *)

Ltac draws_ui HI :=
  repeat first
    [ apply returns_bind
    | apply returns_emit
    | apply returns_ret
    | apply returns_ask
    | match goal with
      | |- returns _ (match ?x with _ => _ end) _ _ => destruct x
      end
    | progress cbv beta ];
  repeat (apply HI; [reflexivity|]); assumption.

Lemma render_current_ui env (I : world → Prop) city_name country time_str temp
    temp_unit wind_speed weather_code w :
  ui_stable I → I w →
  returns env (render_current city_name country time_str temp temp_unit wind_speed
                 weather_code) w (λ _, I).
Proof. intros HI Hw. unfold render_current. draws_ui HI. Qed.

Lemma render_forecast_day_ui env (I : world → Prop) units temp_unit dates tmax tmin
    wcodes i w :
  ui_stable I → I w →
  returns env (render_forecast_day units temp_unit dates tmax tmin wcodes i) w
    (λ _, I).
Proof.
  intros HI Hw. unfold render_forecast_day.
  destruct (forecast_day units tmax tmin wcodes i) as [[d_tmin d_tmax] d_code].
  draws_ui HI.
Qed.

Lemma render_forecast_ui env (I : world → Prop) units temp_unit daily w :
  ui_stable I → I w →
  returns env (render_forecast units temp_unit daily) w (λ _, I).
Proof.
  intros HI Hw. unfold render_forecast.
  apply returns_bind, returns_emit. cbv beta.
  apply (returns_seq env I).
  - case_bool_decide.
    + apply returns_emit. by do 2 (apply HI; [done|]).
    + apply returns_for_each; [|by apply HI].
      intros i w' Hw'. by apply render_forecast_day_ui.
  - intros _ w' Hw'. apply returns_emit. by apply HI.
Qed.

Lemma render_tips_ui env (I : world → Prop) temp_c wind_speed weather_code aqi_val w :
  ui_stable I → I w →
  returns env (render_tips temp_c wind_speed weather_code aqi_val) w (λ _, I).
Proof.
  intros HI Hw. unfold render_tips.
  apply returns_bind, returns_emit. cbv beta.
  apply returns_for_each; [|by apply HI].
  intros tip w' Hw'. apply returns_emit. by apply HI.
Qed.

Lemma render_raw_ui env (I : world → Prop) show_raw w :
  ui_stable I → I w → returns env (render_raw show_raw) w (λ _, I).
Proof. intros HI Hw. unfold render_raw. draws_ui HI. Qed.

(** The air-quality section: it ends with the exception of the conversion,
    right after the heading of the trend, or it returns; either way it only
    draws. *)
Lemma render_air_quality_run env aqi_val pollutants aqi_df w :
  ∃ w', render_air_quality aqi_val pollutants aqi_df env w
        = (match chart_error env aqi_val aqi_df with
           | Some e => Raised e
           | None => Returned tt
           end, w')
    ∧ (∀ I, ui_stable I → I w → I w')
    ∧ (∀ e, chart_error env aqi_val aqi_df = Some e →
         ∃ w0, w' = push (StMarkdown "**AQI Trend (recent hours)**") w0).
Proof.
  assert (Hdraw : ∀ (w' : world),
    (∀ I, ui_stable I → I w → I w') →
    (∀ I, ui_stable I → I w → I w') ∧ (∀ e, @None exn = Some e →
       ∃ w0, w' = push (StMarkdown "**AQI Trend (recent hours)**") w0))
    by (intros w' H; split; [exact H | intros e [=]]).
  unfold render_air_quality, chart_error, emit, ask, raise, mbind, M_bind, mret, M_ret.
  cbv beta iota.
  destruct aqi_val as [a|], aqi_df as [df|]; cbv beta iota;
    try (destruct (PyFloat.isnan a); cbn [negb andb]; cbv beta iota);
    try (case_bool_decide; cbn [negb]; cbv beta iota);
    try (destruct (to_datetime_error env (frame_time df)) as [e|]; cbv beta iota);
    (eexists; split; [reflexivity|]);
    first [ apply Hdraw
          | split; [|intros e' _; eexists; reflexivity] ];
    intros I HI Hw; repeat (apply HI; [reflexivity|]); exact Hw.
Qed.

Lemma fetch_air_quality_aqi env lat lon w aqi_val pollutants aqi_df w' :
  fetch_air_quality lat lon env w = (Returned (aqi_val, pollutants, aqi_df), w') →
  aqi_val = fetched_aqi env lat lon.
Proof.
  unfold fetched_aqi, fetch_air_quality, try_except, get_air_quality, ask, emit,
    lift_result, mbind, M_bind, mret, M_ret, raise. cbv beta iota.
  destruct (http_air_quality env lat lon) as [aq|e]; cbv beta iota.
  - destruct (latest_aqi aq) as [a p].
    destruct (aqi_timeseries aq) as [df|e]; cbv beta iota; by intros [=].
  - by intros [=].
Qed.

(** Every run that fetched its forecast: the air-quality block and the save
    return, the success message and the current block are drawn, and the
    run ends as [ending] says, having only drawn since the save. [I0] holds
    once the success message is drawn, [I1] from the current block on. *)
Lemma after_forecast_any env units show_raw loc wd w (I0 I1 : world → Prop) :
  ui_stable I1 →
  (∀ w2,
     save_record_to_excel (query_record env loc wd) LOG_PATH env
       (push (HttpGet AIR_QUALITY_URL) w) = (Returned tt, w2) →
     I0 (push (StSuccess SAVED) w2)) →
  (∀ w',
     I0 w' →
     returns env
       (render_current (loc_name loc) (loc_country loc) (cur_time (current_of wd))
          (convert_current units (cur_temperature (current_of wd))).1
          (convert_current units (cur_temperature (current_of wd))).2
          (cur_windspeed (current_of wd)) (cur_weathercode (current_of wd)))
       w' (λ _, I1)) →
  ∃ w', after_forecast units show_raw loc wd env w = (ending env loc, w')
        ∧ I1 w'
        ∧ (∀ e, ending env loc = Raised e →
             ∃ w0, w' = push (StMarkdown "**AQI Trend (recent hours)**") w0).
Proof.
  intros HI1 Hsaved Hcurrent. unfold after_forecast, ending. fold (current_of wd).
  destruct (convert_current units _) as [temp temp_unit] eqn:Hconv.
  cbn [fst snd] in Hcurrent.
  destruct (fetch_air_quality_returns env (loc_latitude loc) (loc_longitude loc) w)
    as (r & Hfetch & _ & Hchart).
  rewrite (bind_returned _ _ _ _ _ _ Hfetch).
  destruct r as [[aqi_val pollutants] aqi_df]. cbn [fst snd] in Hchart.
  pose proof (fetch_air_quality_aqi _ _ _ _ _ _ _ _ Hfetch) as Haqi.
  rewrite (bind_returned ask _ env _ env _ eq_refl).
  set (rec := build_record _ _ _ _ _ _ _).
  assert (Hrec : rec = query_record env loc wd) by (unfold rec, query_record; by rewrite Haqi).
  destruct (save_record_returns rec env (push (HttpGet AIR_QUALITY_URL) w))
    as (w2 & Hsave & _ & _).
  rewrite (bind_returned _ _ _ _ _ _ Hsave).
  rewrite (bind_returned (emit _) _ env w2 tt _ eq_refl).
  rewrite Hrec in Hsave.
  destruct (Hcurrent _ (Hsaved w2 Hsave)) as ([] & w3 & Hcur & Hw3).
  rewrite (bind_returned _ _ _ _ _ _ Hcur).
  destruct (render_air_quality_run env aqi_val pollutants aqi_df w3)
    as (w4 & Haq & Hinv & Hlast).
  rewrite Hchart in Haq, Hlast.
  destruct (trend_error env (loc_latitude loc) (loc_longitude loc)) as [e|].
  - rewrite (bind_raised _ _ _ _ _ _ Haq). exists w4. split; [done|].
    split; [by apply Hinv|]. intros e' _. by apply (Hlast e).
  - rewrite (bind_returned _ _ _ _ _ _ Haq).
    assert (Hrest : returns env
              (render_forecast units temp_unit (default empty_daily (daily wd));;
               render_tips (cur_temperature (current_of wd))
                 (cur_windspeed (current_of wd)) (cur_weathercode (current_of wd))
                 aqi_val;;
               render_raw show_raw) w4 (λ _, I1)).
    { apply (returns_seq env I1); [apply render_forecast_ui; [done|by apply Hinv]|].
      intros _ w5 Hw5. apply (returns_seq env I1); [by apply render_tips_ui|].
      intros _ w6 Hw6. by apply render_raw_ui. }
    destruct Hrest as ([] & w' & Hrun & Hw'). exists w'.
    split; [exact Hrun|]. split; [done|]. intros e [=].
Qed.

(** What drawing keeps and holds once the success message is drawn holds at
    the end of the run, however it ends. *)
Lemma after_forecast_ui env units show_raw loc wd w (I : world → Prop) :
  ui_stable I →
  (∀ w2,
     save_record_to_excel (query_record env loc wd) LOG_PATH env
       (push (HttpGet AIR_QUALITY_URL) w) = (Returned tt, w2) →
     I (push (StSuccess SAVED) w2)) →
  ∃ w', after_forecast units show_raw loc wd env w = (ending env loc, w') ∧ I w'.
Proof.
  intros HI Hsaved.
  destruct (after_forecast_any env units show_raw loc wd w I I HI Hsaved)
    as (w' & Hrun & Hw' & _).
  - intros w' Hw'. by apply render_current_ui.
  - by exists w'.
Qed.

(** A log that cannot be appended to: the warning of the logger is drawn, the
    file system is as it was, the success message follows all the same, and
    the run ends as it does with a log that can be written. *)
Lemma after_forecast_log_fails env units show_raw loc wd w :
  log_fails (fs w) →
  ∃ w', after_forecast units show_raw loc wd env w = (ending env loc, w')
        ∧ fs w' = fs w
        ∧ (∃ msg, StWarning ("Could not save record to Excel: " +:+ msg) ∈ trace w')
        ∧ StSuccess SAVED ∈ trace w'.
Proof.
  intros Hfails.
  apply (after_forecast_ui env units show_raw loc wd w
           (λ w', fs w' = fs w
                  ∧ (∃ msg, StWarning ("Could not save record to Excel: " +:+ msg)
                              ∈ trace w')
                  ∧ StSuccess SAVED ∈ trace w')).
  - intros ev w' _ (Hfs & [msg Hin] & Hs). split; [done|]. split.
    + exists msg. by apply (stable_in_trace _ ev w').
    + by apply (stable_in_trace _ ev w').
  - intros w2 Hsave.
    destruct (save_record_returns (query_record env loc wd) env
                (push (HttpGet AIR_QUALITY_URL) w)) as (w2' & Hsave' & _ & Hfail).
    rewrite Hsave in Hsave'. injection Hsave' as <-.
    destruct (Hfail Hfails) as [msg ->]. split; [done|]. split.
    + exists msg. cbn. rewrite !elem_of_app, !list_elem_of_singleton. auto.
    + cbn. rewrite !elem_of_app, !list_elem_of_singleton. auto.
Qed.

(** ** The error policy of one query *)

Lemma location_copy (loc : location) :
  {| loc_name := loc_name loc; loc_country := loc_country loc;
     loc_latitude := loc_latitude loc; loc_longitude := loc_longitude loc |} = loc.
Proof. by destruct loc. Qed.

Lemma main_geocode_error env w city units show_raw e :
  city ≠ "" → http_geocoding env city = Err e →
  main city units show_raw env w
  = (Stopped, push (StError ("Error geocoding city: " +:+ str_exn e))
                (push (HttpGet GEOCODE_URL) w)).
Proof.
  intros Hcity He. unfold main. rewrite bool_decide_eq_false_2 by done.
  unfold try_except, geocode_city, ask, emit, lift_result, raise, st_stop,
    mbind, M_bind, mret, M_ret. cbv beta iota. by rewrite He.
Qed.

Lemma main_forecast_error env w city units show_raw loc locs e :
  city ≠ "" →
  http_geocoding env city = Ok {| geo_results := Some (loc :: locs) |} →
  http_forecast env (loc_latitude loc) (loc_longitude loc) = Err e →
  main city units show_raw env w
  = (Stopped, push (StError ("Error fetching weather data: " +:+ str_exn e))
                (push (HttpGet FORECAST_URL) (push (HttpGet GEOCODE_URL) w))).
Proof.
  intros Hcity Hgeo He. unfold main. rewrite bool_decide_eq_false_2 by done.
  unfold try_except, geocode_city, get_weather_forecast, ask, emit, lift_result,
    raise, st_stop, mbind, M_bind, mret, M_ret. cbv beta iota.
  rewrite Hgeo. cbv beta iota. cbn [geo_results]. cbv beta iota.
  cbn [loc_latitude loc_longitude]. by rewrite He.
Qed.

Lemma main_forecast_ok env w city units show_raw loc locs wd :
  city ≠ "" →
  http_geocoding env city = Ok {| geo_results := Some (loc :: locs) |} →
  http_forecast env (loc_latitude loc) (loc_longitude loc) = Ok wd →
  main city units show_raw env w
  = after_forecast units show_raw loc wd env
      (push (HttpGet FORECAST_URL) (push (HttpGet GEOCODE_URL) w)).
Proof.
  intros Hcity Hgeo Hwd. unfold main. rewrite bool_decide_eq_false_2 by done.
  unfold try_except, geocode_city, get_weather_forecast, ask, emit, lift_result,
    raise, st_stop, mbind, M_bind, mret, M_ret. cbv beta iota.
  rewrite Hgeo. cbv beta iota. cbn [geo_results]. cbv beta iota.
  cbn [loc_latitude loc_longitude]. rewrite Hwd. cbv beta iota.
  by rewrite location_copy.
Qed.

(** C7. A geocoding error and a forecast error abort the query: the run
    stops after the error message, with no later request sent, nothing
    logged and nothing else drawn. An air-quality error and a failing log
    append do not. Whatever the air-quality service and the file system do,
    the query flow runs to its end, the success message that follows the
    save, and the run goes on to the drawing and ends as [ending] says, the
    same for every file system. An air-quality error is caught and leaves
    the unavailable state, and the query returns with its warning; a failing
    append draws a warning and leaves the file system alone. The query
    returns unless the conversion of the hourly times for the trend chart
    raises, which an air-quality error excludes and a failing append does
    not touch. *)
Theorem query_error_policy :
  (∀ env w city units show_raw e,
     city ≠ "" → http_geocoding env city = Err e →
     main city units show_raw env w
     = (Stopped, push (StError ("Error geocoding city: " +:+ str_exn e))
                   (push (HttpGet GEOCODE_URL) w)))
  ∧ (∀ env w city units show_raw loc locs e,
     city ≠ "" →
     http_geocoding env city = Ok {| geo_results := Some (loc :: locs) |} →
     http_forecast env (loc_latitude loc) (loc_longitude loc) = Err e →
     main city units show_raw env w
     = (Stopped, push (StError ("Error fetching weather data: " +:+ str_exn e))
                   (push (HttpGet FORECAST_URL) (push (HttpGet GEOCODE_URL) w))))
  ∧ (∀ env w city units show_raw loc locs wd,
     city ≠ "" →
     http_geocoding env city = Ok {| geo_results := Some (loc :: locs) |} →
     http_forecast env (loc_latitude loc) (loc_longitude loc) = Ok wd →
     (* the query flow runs to its end, whatever else happens *)
     (∃ w', main city units show_raw env w = (ending env loc, w')
            ∧ StSuccess SAVED ∈ trace w')
     (* an air-quality error is caught, and the query returns *)
     ∧ (∀ e, http_air_quality env (loc_latitude loc) (loc_longitude loc) = Err e →
          (∀ w0, fetch_air_quality (loc_latitude loc) (loc_longitude loc) env w0
                 = (Returned (None, ∅, None), push (HttpGet AIR_QUALITY_URL) w0))
          ∧ returns env (main city units show_raw) w
              (λ _ w', StWarning AQ_UNAVAILABLE ∈ trace w'))
     (* a failing append is a warning, and the run goes on *)
     ∧ (log_fails (fs w) →
          ∃ w', main city units show_raw env w = (ending env loc, w')
                ∧ fs w' = fs w
                ∧ (∃ msg, StWarning ("Could not save record to Excel: " +:+ msg)
                            ∈ trace w')
                ∧ StSuccess SAVED ∈ trace w')
     (* the query returns unless the conversion for the trend chart raises *)
     ∧ (trend_error env (loc_latitude loc) (loc_longitude loc) = None →
          returns env (main city units show_raw) w (λ _ _, True))).
Proof.
  split; [exact main_geocode_error|]. split; [exact main_forecast_error|].
  intros env w city units show_raw loc locs wd Hcity Hgeo Hwd.
  pose proof (λ w0, main_forecast_ok env w0 city units show_raw loc locs wd
                      Hcity Hgeo Hwd) as Hmain.
  unfold returns. split; [|split; [|split]].
  - rewrite Hmain.
    destruct (after_forecast_ui env units show_raw loc wd
                (push (HttpGet FORECAST_URL) (push (HttpGet GEOCODE_URL) w))
                (λ w', StSuccess SAVED ∈ trace w')) as (w' & Hrun & Hin).
    + apply stable_ui_stable, stable_in_trace.
    + intros w2 _. cbn. rewrite elem_of_app, list_elem_of_singleton. auto.
    + by exists w'.
  - intros e He. rewrite Hmain. split.
    + intros w0.
      destruct (fetch_air_quality_returns env (loc_latitude loc) (loc_longitude loc) w0)
        as (r & Hfetch & Hr & _).
      by rewrite <- (Hr e He).
    + by apply (after_forecast_aq_error env units show_raw loc wd _ e).
  - intros Hfails. rewrite Hmain.
    by apply (after_forecast_log_fails env units show_raw loc wd
                (push (HttpGet FORECAST_URL) (push (HttpGet GEOCODE_URL) w))).
  - intros Htrend. rewrite Hmain. by apply after_forecast_completes.
Qed.

(** An unreachable geocoder stops the query; with the geocoder and the
    forecast answering, a failing air-quality service and a log that is not a
    workbook leave a query that returns with both warnings. *)
Lemma query_error_policy_witness :
  main "Delhi, India" Celsius false offline empty_world
  = (Stopped, push (StError ("Error geocoding city: " +:+ "offline"))
                (push (HttpGet GEOCODE_URL) empty_world))
  ∧ returns (delhi_env (Err (HTTPError "503"))) (main "Delhi, India" Fahrenheit false)
      corrupt_log_world (λ _ w', StWarning AQ_UNAVAILABLE ∈ trace w')
  ∧ returns (delhi_env (Err (HTTPError "503"))) (main "Delhi, India" Fahrenheit false)
      corrupt_log_world
      (λ _ w', fs w' = fs corrupt_log_world
               ∧ ∃ msg, StWarning ("Could not save record to Excel: " +:+ msg)
                          ∈ trace w').
Proof.
  split.
  - apply (proj1 query_error_policy offline empty_world "Delhi, India" Celsius false
             (RequestException "offline")); [discriminate | reflexivity].
  - destruct (proj2 (proj2 query_error_policy) (delhi_env (Err (HTTPError "503")))
                corrupt_log_world "Delhi, India" Fahrenheit false delhi []
                delhi_forecast) as (_ & Haq & Hlog & _);
      [discriminate | reflexivity | reflexivity |].
    split.
    + apply (Haq (HTTPError "503")). reflexivity.
    + destruct Hlog as (w' & Hrun & Hfs & Hwarn & _); [left; reflexivity|].
      exists tt, w'. split; [exact Hrun|]. by split.
Defined.

(** The exception of the conversion ends the run: with hourly times that are
    not times, the mocked query raises after the heading of the trend, with
    the record logged and neither the forecast nor the tips drawn. *)
Example unparsable_times_raise :
  ∃ w', main "Delhi, India" Celsius false (delhi_env (Ok unparsable_response))
          empty_world = (Raised (ValueError UNPARSABLE), w')
        ∧ last (trace w') = Some (StMarkdown "**AQI Trend (recent hours)**")
        ∧ StSuccess SAVED ∈ trace w'
        ∧ is_Some (files (fs w') !! LOG_PATH)
        ∧ StSubheader "🌱 Eco-Friendly Suggestions" ∉ trace w'.
Proof.
  eexists. split; [vm_compute; reflexivity|].
  split; [vm_compute; reflexivity|].
  split; [apply list_elem_of_In; vm_compute; tauto|].
  split; [by eexists|].
  intros Hin. apply list_elem_of_In in Hin. vm_compute in Hin.
  repeat (destruct Hin as [Hin|Hin]; [discriminate Hin|]). exact Hin.
Qed.

(** ** What the query draws *)

(** A loop whose body draws, for each element, something that stays drawn. *)
Lemma returns_for_each_all env {A} (P : A → world → Prop) (body : A → M unit)
    (l : list A) :
  (∀ x, stable (P x)) →
  (∀ x w (I : world → Prop), stable I → I w →
     returns env (body x) w (λ _ w', P x w' ∧ I w')) →
  ∀ (I : world → Prop) w, stable I → I w →
    returns env (for_each l body) w (λ _ w', I w' ∧ ∀ x, x ∈ l → P x w').
Proof.
  intros HP Hbody. induction l as [|x l IH]; intros I w HI Hw; cbn [for_each].
  - apply returns_ret. split; [done|]. intros x Hx. by apply elem_of_nil in Hx.
  - apply returns_bind. eapply returns_mono; [by apply (Hbody x w I)|].
    intros _ w1 [HPx HI1]. cbv beta.
    eapply returns_mono;
      [apply (IH (λ w', I w' ∧ P x w') w1); [by apply stable_and | done]|].
    intros _ w2 [[HI2 HPx2] Hall]. split; [done|].
    intros y Hy. apply elem_of_cons in Hy as [->|Hy]; [done | by apply Hall].
Qed.

Lemma in_trace_push_here (ev : event) (w : world) : ev ∈ trace (push ev w).
Proof. cbn. rewrite elem_of_app, list_elem_of_singleton. by right. Qed.

Lemma in_trace_push (ev ev' : event) (w : world) :
  ev ∈ trace w → ev ∈ trace (push ev' w).
Proof. apply stable_in_trace. Qed.

Create HintDb trace.
#[local] Hint Resolve in_trace_push_here in_trace_push : trace.

(** The current-temperature metric shows the converted value with its
    unit. *)
Lemma render_current_draws_temp env city_name country time_str x temp_unit wind_speed
    weather_code w :
  returns env (render_current city_name country time_str (Some x) temp_unit wind_speed
                 weather_code) w
    (λ _ w', StMetric "Current" (format_1f x +:+ temp_unit) ∈ trace w').
Proof.
  unfold render_current.
  repeat first
    [ apply returns_bind | apply returns_emit | apply returns_ret
    | match goal with
      | |- returns _ (match ?x with _ => _ end) _ _ => destruct x
      end
    | progress cbv beta ];
  auto 10 with trace.
Qed.

Lemma stable_day_drawn units temp_unit tmax tmin wcodes i :
  stable (day_drawn units temp_unit tmax tmin wcodes i).
Proof.
  intros ev w [Hmin Hmax]. split; intros x Hx; apply in_trace_push; auto.
Qed.

Lemma render_forecast_day_draws env units temp_unit dates tmax tmin wcodes i w
    (I : world → Prop) :
  stable I → I w →
  returns env (render_forecast_day units temp_unit dates tmax tmin wcodes i) w
    (λ _ w', day_drawn units temp_unit tmax tmin wcodes i w' ∧ I w').
Proof.
  intros HI Hw. unfold render_forecast_day, day_drawn.
  destruct (forecast_day units tmax tmin wcodes i) as [[d_tmin d_tmax] d_code].
  cbn [fst snd].
  apply returns_bind, returns_ask. cbv beta.
  apply returns_bind, returns_emit. cbv beta.
  destruct d_tmin as [mn|], d_tmax as [mx|];
    repeat first
      [ apply returns_bind | apply returns_emit | apply returns_ret
      | progress cbv beta ];
    (split; [split; intros x [=]; subst; auto 10 with trace
            | repeat apply HI; exact Hw]).
Qed.

(** Every column of the forecast, up to five, shows its minimum and its
    maximum. *)
Lemma render_forecast_draws env units temp_unit daily w :
  returns env (render_forecast units temp_unit daily) w
    (λ _ w', ∀ i, (i < Nat.min 5 (length (default [] (daily_time daily))))%nat →
       day_drawn units temp_unit
         (default [] (daily_temperature_2m_max daily))
         (default [] (daily_temperature_2m_min daily))
         (default [] (daily_weathercode daily)) i w').
Proof.
  unfold render_forecast.
  apply returns_bind, returns_emit. cbv beta.
  set (n := Nat.min 5 _).
  case_bool_decide as Hn.
  - apply returns_bind, returns_emit. cbv beta. apply returns_emit.
    intros i Hi. lia.
  - apply returns_bind.
    eapply returns_mono;
      [apply (returns_for_each_all env
                (day_drawn units temp_unit (default [] (daily_temperature_2m_max daily))
                   (default [] (daily_temperature_2m_min daily))
                   (default [] (daily_weathercode daily))));
       [intros i; apply stable_day_drawn
       | intros i w' I HI Hw'; by apply render_forecast_day_draws
       | apply stable_True | done]|].
    intros _ w' [_ Hall]. cbv beta. apply returns_emit.
    intros i Hi. apply stable_day_drawn, Hall.
    apply elem_of_seq. lia.
Qed.

(** Every tip of the query is drawn as a bullet. *)
Lemma render_tips_draws env temp_c wind_speed weather_code aqi_val w :
  returns env (render_tips temp_c wind_speed weather_code aqi_val) w
    (λ _ w', ∀ tip, tip ∈ query_tips temp_c wind_speed weather_code aqi_val →
                    StWrite ("• " +:+ tip) ∈ trace w').
Proof.
  unfold render_tips. apply returns_bind, returns_emit. cbv beta.
  eapply returns_mono;
    [apply (returns_for_each_all env (λ tip w', StWrite ("• " +:+ tip) ∈ trace w'));
     [intros tip; apply stable_in_trace | | apply stable_True | done]|].
  - intros tip w' I HI Hw'. apply returns_emit. split; [auto with trace | by apply HI].
  - intros _ w' [_ Hall]. exact Hall.
Qed.

Lemma convert_current_fahrenheit (c : float) :
  convert_current Fahrenheit (Some c) = (Some (celsius_to_fahrenheit c), "°F").
Proof. reflexivity. Qed.

Lemma forecast_day_fahrenheit tmax tmin wcodes i :
  forecast_day Fahrenheit tmax tmin wcodes i
  = (celsius_to_fahrenheit <$> item_or_none tmin i,
     celsius_to_fahrenheit <$> item_or_none tmax i,
     item_or_none wcodes i).
Proof.
  unfold forecast_day. by destruct (item_or_none tmax i), (item_or_none tmin i).
Qed.

Lemma stable_temperatures_drawn units wd : stable (temperatures_drawn units wd).
Proof.
  intros ev w [Hcur Hdays]. split.
  - intros x Hx. apply in_trace_push. auto.
  - intros i Hi. apply stable_day_drawn. auto.
Qed.

(** The current temperature is drawn however the run ends. *)
Lemma after_forecast_draws_current env units show_raw loc wd w :
  ∀ x, (convert_current units (cur_temperature (current_of wd))).1 = Some x →
    StMetric "Current"
      (format_1f x +:+ (convert_current units (cur_temperature (current_of wd))).2)
    ∈ trace (after_forecast units show_raw loc wd env w).2.
Proof.
  intros x Hx.
  set (ev := StMetric "Current" _).
  destruct (after_forecast_any env units show_raw loc wd w (λ _, True)
              (λ w', ev ∈ trace w')) as (w' & -> & Hin & _); [| done | | done].
  - apply stable_ui_stable, stable_in_trace.
  - intros w' _. rewrite Hx. apply render_current_draws_temp.
Qed.

Lemma after_forecast_draws_temperatures env units show_raw loc wd w :
  trend_error env (loc_latitude loc) (loc_longitude loc) = None →
  returns env (after_forecast units show_raw loc wd) w
    (λ _, temperatures_drawn units wd).
Proof.
  intros Htrend.
  apply after_forecast_tail; [done|]. intros aqi_val pollutants aqi_df w2 Hchart _.
  set (shown := convert_current units (cur_temperature (current_of wd))).
  set (J1 := λ w' : world,
         ∀ x, shown.1 = Some x → StMetric "Current" (format_1f x +:+ shown.2) ∈ trace w').
  assert (HJ1 : stable J1).
  { intros ev w' H x Hx. apply in_trace_push. auto. }
  apply (render_all_chain env (λ _, True) J1 J1 (temperatures_drawn units wd)
           (temperatures_drawn units wd) (temperatures_drawn units wd));
    [done|..]; intros w' Hw'.
  - destruct (shown.1) as [x|] eqn:Hx.
    + eapply returns_mono; [apply render_current_draws_temp|].
      intros u w'' Hin y Hy. cbv beta in Hin. by simplify_eq.
    + apply render_current_inv; [done|]. intros y Hy. unfold J1 in *. congruence.
  - by apply render_air_quality_inv.
  - apply returns_bind_and; [by apply render_forecast_inv | apply render_forecast_draws].
  - apply render_tips_inv; [apply stable_temperatures_drawn | done].
  - apply render_raw_inv; [apply stable_temperatures_drawn | done].
Qed.

(** A query whose geocoding and forecast succeed runs [after_forecast]. *)
Lemma main_returns env w city units show_raw loc locs wd (Q : unit → world → Prop) :
  city ≠ "" →
  http_geocoding env city = Ok {| geo_results := Some (loc :: locs) |} →
  http_forecast env (loc_latitude loc) (loc_longitude loc) = Ok wd →
  (∀ w2, returns env (after_forecast units show_raw loc wd) w2 Q) →
  returns env (main city units show_raw) w Q.
Proof.
  intros Hcity Hgeo Hwd Hafter. unfold returns.
  rewrite (main_forecast_ok env w city units show_raw loc locs wd Hcity Hgeo Hwd).
  apply Hafter.
Qed.

(** C8. With Fahrenheit requested the formula [c * 9/5 + 32] is what is
    applied to the current temperature and to the minimum and the maximum of
    every day that is shown, and the query draws the values so converted: the
    current temperature in every run that fetched its forecast, the daily
    values in every run that gets to the forecast section (the conversion of
    the hourly times for the trend chart, before it, does not raise). 32.5
    degrees Celsius is converted to 90.5 and displayed as 90.5°F. *)
Theorem fahrenheit_conversion_uniform :
  (∀ c : float,
     convert_current Fahrenheit (Some c) = (Some (celsius_to_fahrenheit c), "°F"))
  ∧ (∀ tmax tmin wcodes i,
       forecast_day Fahrenheit tmax tmin wcodes i
       = (celsius_to_fahrenheit <$> item_or_none tmin i,
          celsius_to_fahrenheit <$> item_or_none tmax i,
          item_or_none wcodes i))
  ∧ (∀ env w city show_raw loc locs wd,
       city ≠ "" →
       http_geocoding env city = Ok {| geo_results := Some (loc :: locs) |} →
       http_forecast env (loc_latitude loc) (loc_longitude loc) = Ok wd →
       let daily := default empty_daily (daily wd) in
       let unit := (convert_current Fahrenheit (cur_temperature (current_of wd))).2 in
       (∀ c, cur_temperature (current_of wd) = Some c →
          StMetric "Current" (format_1f (celsius_to_fahrenheit c) +:+ "°F")
            ∈ trace (main city Fahrenheit show_raw env w).2)
       ∧ (trend_error env (loc_latitude loc) (loc_longitude loc) = None →
          returns env (main city Fahrenheit show_raw) w (λ _ w',
            ∀ i c, (i < Nat.min 5 (length (default [] (daily_time daily))))%nat →
              (item_or_none (default [] (daily_temperature_2m_min daily)) i = Some c →
               StWrite ("Min: " +:+ format_1f (celsius_to_fahrenheit c) +:+ unit)
                 ∈ trace w')
              ∧ (item_or_none (default [] (daily_temperature_2m_max daily)) i = Some c →
                 StWrite ("Max: " +:+ format_1f (celsius_to_fahrenheit c) +:+ unit)
                   ∈ trace w'))))
  ∧ celsius_to_fahrenheit f32_5 = f90_5
  ∧ format_1f (celsius_to_fahrenheit f32_5) +:+ "°F" = "90.5°F".
Proof.
  split; [exact convert_current_fahrenheit|].
  split; [exact forecast_day_fahrenheit|].
  split; [|split; vm_compute; reflexivity].
  intros env w city show_raw loc locs wd Hcity Hgeo Hwd daily unit. split.
  - intros c Hc.
    rewrite (main_forecast_ok env w city Fahrenheit show_raw loc locs wd) by done.
    pose proof (after_forecast_draws_current env Fahrenheit show_raw loc wd
                  (push (HttpGet FORECAST_URL) (push (HttpGet GEOCODE_URL) w))) as Hcur.
    rewrite Hc in Hcur. by apply Hcur.
  - intros Htrend.
    apply (main_returns env w city Fahrenheit show_raw loc locs wd); try done.
    intros w2. eapply returns_mono; [by apply after_forecast_draws_temperatures|].
    intros u w' [Hcur Hdays]. intros i c Hi.
    specialize (Hdays i Hi). destruct Hdays as [Hmin Hmax].
    rewrite forecast_day_fahrenheit in Hmin, Hmax. cbn [fst snd] in Hmin, Hmax.
    split; intros Hc.
    + apply Hmin. fold daily. by rewrite Hc.
    + apply Hmax. fold daily. by rewrite Hc.
Qed.

(** Without a current temperature the unit label stays that of Celsius,
    also for the daily values, which are converted all the same. *)
Example convert_current_no_temperature :
  convert_current Fahrenheit None = (None, "°C").
Proof. reflexivity. Qed.

(** The mocked query for Delhi, in Fahrenheit: the current 32.5 is drawn as
    90.5°F. *)
Lemma fahrenheit_conversion_uniform_witness :
  StMetric "Current" "90.5°F"
    ∈ trace (main "Delhi, India" Fahrenheit false (delhi_env (Ok sample_response))
               empty_world).2
  ∧ returns (delhi_env (Ok sample_response)) (main "Delhi, India" Fahrenheit false)
      empty_world
      (λ _ w', StWrite "Min: 77.0°F" ∈ trace w' ∧ StWrite "Max: 104.0°F" ∈ trace w').
Proof.
  destruct (proj1 (proj2 (proj2 fahrenheit_conversion_uniform))
              (delhi_env (Ok sample_response)) empty_world "Delhi, India" false
              delhi [] delhi_forecast) as [Hcur Hdays];
    [discriminate | reflexivity | reflexivity |].
  split.
  - assert (E : format_1f (celsius_to_fahrenheit f32_5) +:+ "°F" = "90.5°F")
      by (vm_compute; reflexivity).
    rewrite <- E. apply (Hcur f32_5). reflexivity.
  - eapply returns_mono; [apply Hdays; vm_compute; reflexivity|].
    intros u w' Hall. cbv beta in Hall.
    assert (Emin : "Min: " +:+ format_1f (celsius_to_fahrenheit f25) +:+ "°F"
                   = "Min: 77.0°F") by (vm_compute; reflexivity).
    assert (Emax : "Max: " +:+ format_1f (celsius_to_fahrenheit (PyFloat.of_int 40))
                   +:+ "°F" = "Max: 104.0°F") by (vm_compute; reflexivity).
    rewrite <- Emin, <- Emax.
    destruct (Hall 0%nat f25) as [Hmin _]; [cbn; lia|].
    destruct (Hall 0%nat (PyFloat.of_int 40)) as [_ Hmax]; [cbn; lia|].
    split; [apply Hmin | apply Hmax]; reflexivity.
Defined.

(** The same query, run: the whole of what it requests and draws. *)
Example delhi_query_trace :
  ∃ w', main "Delhi, India" Fahrenheit false (delhi_env (Ok sample_response))
          empty_world = (Returned tt, w')
        ∧ StMetric "Current" "90.5°F" ∈ trace w'
        ∧ StWrite "Min: 77.0°F" ∈ trace w'
        ∧ StWrite "Max: 104.0°F" ∈ trace w'
        ∧ StWrite "Max: 90.5°F" ∈ trace w'.
Proof.
  eexists. split; [vm_compute; reflexivity|].
  repeat split; apply list_elem_of_In; vm_compute; tauto.
Qed.

(** ** The defaults of tip generation *)

Lemma query_tips_defaults temp_c wind_speed weather_code aqi_val :
  query_tips temp_c wind_speed weather_code aqi_val
  = eco_tips (default f25 temp_c) (default 1 weather_code) aqi_val
      (Some (default f0 wind_speed)).
Proof. by destruct temp_c, wind_speed, weather_code. Qed.

(** With every field missing: the comfortable tip (25 degrees), the two
    tips of a clear sky (code 1), then the AQI tips, and no wind tip. *)
Lemma query_tips_absent (aqi_val : option float) :
  query_tips None None None aqi_val
  = [tip_comfortable; tip_clear_sky; tip_daylight] ++ aqi_tips aqi_val.
Proof.
  rewrite query_tips_defaults. cbn [default from_option id].
  rewrite eco_tips_by_category.
  change (temperature_tips f25) with [tip_comfortable].
  change (weather_tips 1) with [tip_clear_sky; tip_daylight].
  change (wind_tips (Some f0)) with (@nil string).
  by rewrite app_nil_r.
Qed.

Lemma after_forecast_draws_tips env units show_raw loc wd w :
  trend_error env (loc_latitude loc) (loc_longitude loc) = None →
  returns env (after_forecast units show_raw loc wd) w
    (λ _ w', ∃ aqi_val,
       ∀ tip, tip ∈ query_tips (cur_temperature (current_of wd))
                      (cur_windspeed (current_of wd))
                      (cur_weathercode (current_of wd)) aqi_val →
              StWrite ("• " +:+ tip) ∈ trace w').
Proof.
  intros Htrend.
  apply after_forecast_tail; [done|]. intros aqi_val pollutants aqi_df w2 Hchart _.
  set (J := λ w' : world,
         ∀ tip, tip ∈ query_tips (cur_temperature (current_of wd))
                        (cur_windspeed (current_of wd))
                        (cur_weathercode (current_of wd)) aqi_val →
                StWrite ("• " +:+ tip) ∈ trace w').
  assert (HJ : stable J).
  { intros ev w' H tip Htip. apply in_trace_push. auto. }
  eapply returns_mono;
    [apply (render_all_chain env (λ _, True) (λ _, True) (λ _, True) (λ _, True) J J);
     [done|..]; intros w' Hw'|].
  - by apply render_current_inv.
  - by apply render_air_quality_inv.
  - by apply render_forecast_inv.
  - apply render_tips_draws.
  - by apply render_raw_inv.
  - intros u w' Hw'. by exists aqi_val.
Qed.

(** C10. Each current-weather field that is missing is replaced for tip
    generation by its default: temperature 25.0, weather code 1, wind speed
    0.0. A query whose response has no current-weather block at all still
    produces tips, the clear-sky tip and the daylight tip among them, and
    draws them when it gets to the tips (the conversion of the hourly times
    for the trend chart, before them, does not raise). *)
Theorem missing_current_weather_defaults :
  (∀ temp_c wind_speed weather_code aqi_val,
     query_tips temp_c wind_speed weather_code aqi_val
     = eco_tips (default (PyFloat.of_int 25) temp_c) (default 1 weather_code) aqi_val
         (Some (default (PyFloat.of_int 0) wind_speed)))
  ∧ (∀ aqi_val,
       query_tips None None None aqi_val ≠ []
       ∧ tip_clear_sky ∈ query_tips None None None aqi_val
       ∧ tip_daylight ∈ query_tips None None None aqi_val)
  ∧ (∀ env w city units show_raw loc locs wd,
       city ≠ "" →
       http_geocoding env city = Ok {| geo_results := Some (loc :: locs) |} →
       http_forecast env (loc_latitude loc) (loc_longitude loc) = Ok wd →
       current_weather wd = None →
       trend_error env (loc_latitude loc) (loc_longitude loc) = None →
       returns env (main city units show_raw) w (λ _ w',
         StWrite ("• " +:+ tip_clear_sky) ∈ trace w'
         ∧ StWrite ("• " +:+ tip_daylight) ∈ trace w')).
Proof.
  split; [exact query_tips_defaults|]. split.
  - intros aqi_val. rewrite query_tips_absent. split; [done|].
    rewrite !elem_of_app, !elem_of_cons. split; auto 10.
  - intros env w city units show_raw loc locs wd Hcity Hgeo Hwd Hcur Htrend.
    apply (main_returns env w city units show_raw loc locs wd); try done.
    intros w2. eapply returns_mono; [by apply after_forecast_draws_tips|].
    intros u w' [aqi_val Hall]. unfold current_of in Hall. rewrite Hcur in Hall.
    cbn [default from_option id empty_current cur_temperature cur_windspeed
           cur_weathercode] in Hall.
    rewrite query_tips_absent in Hall.
    split; apply Hall; rewrite !elem_of_app, !elem_of_cons; auto 10.
Qed.

(** A response with neither current weather nor daily forecast. *)
Lemma missing_current_weather_defaults_witness :
  returns (delhi_env_bare (Ok sample_response)) (main "Delhi, India" Celsius false)
    empty_world
    (λ _ w', StWrite ("• " +:+ tip_clear_sky) ∈ trace w'
             ∧ StWrite ("• " +:+ tip_daylight) ∈ trace w').
Proof.
  apply (proj2 (proj2 missing_current_weather_defaults)
           (delhi_env_bare (Ok sample_response)) empty_world "Delhi, India" Celsius
           false delhi [] {| current_weather := None; daily := None |});
    [discriminate | reflexivity | reflexivity | reflexivity | vm_compute; reflexivity].
Defined.

(** * Further properties of the code *)

Lemma temperature_tips_cases (t : float) :
  temperature_tips t = [] ∨ temperature_tips t = [tip_comfortable]
  ∨ temperature_tips t = [tip_hot] ∨ temperature_tips t = [tip_cool].
Proof.
  unfold temperature_tips.
  destruct ((f18 <=? t)%F && (t <=? f28)%F), (t >? f30)%F, (t <? f15)%F; auto.
Qed.

Lemma weather_tips_cases (c : Z) :
  weather_tips c = [] ∨ weather_tips c = [tip_clear_sky; tip_daylight]
  ∨ weather_tips c = [tip_cloudy] ∨ weather_tips c = [tip_rain]
  ∨ weather_tips c = [tip_wintry].
Proof.
  unfold weather_tips.
  destruct (code_in c 0 1), (code_in c 2 3), (code_in c 51 67 || code_in c 80 82),
    (code_in c 71 77 || code_in c 85 86); auto 10.
Qed.

Lemma aqi_tips_cases (a : option float) :
  aqi_tips a = [] ∨ aqi_tips a = [tip_avoid_vehicles; tip_wear_mask]
  ∨ aqi_tips a = [tip_walk_cycle].
Proof.
  unfold aqi_tips. destruct a as [x|]; [|auto].
  destruct (PyFloat.isnan x), (x >? f150)%F, (x <=? f50)%F; auto.
Qed.

Lemma wind_tips_cases (w : option float) :
  wind_tips w = [] ∨ wind_tips w = [tip_ventilation].
Proof.
  unfold wind_tips. destruct w as [x|]; [|auto]. destruct (x >? f6)%F; auto.
Qed.

(** X1. eco_tips returns between one and six tips, and never the same tip
    twice. *)
Theorem eco_tips_length_nodup (t : float) (c : Z) (a w : option float) :
  (1 <= length (eco_tips t c a w) <= 6)%nat ∧ NoDup (eco_tips t c a w).
Proof.
  rewrite eco_tips_by_category.
  destruct (temperature_tips_cases t) as [-> | [-> | [-> | ->]]],
    (weather_tips_cases c) as [-> | [-> | [-> | [-> | ->]]]],
    (aqi_tips_cases a) as [-> | [-> | ->]],
    (wind_tips_cases w) as [-> | ->];
    (split; [cbn; lia | apply (bool_decide_unpack _); vm_compute; exact I]).
Qed.

(** A temperature tip is in the output exactly when the temperature rule
    produced it. *)
Lemma temperature_tip_in_eco_tips (t : float) (c : Z) (a w : option float) (s : string) :
  s ∈ temperature_tip_set → s ∈ eco_tips t c a w ↔ s ∈ temperature_tips t.
Proof.
  intros Hs. rewrite eco_tips_by_category.
  assert (Hrest : s ∉ weather_tips c ++ aqi_tips a ++ wind_tips w).
  { unfold temperature_tip_set in Hs. rewrite !elem_of_cons, elem_of_nil in Hs.
    destruct (weather_tips_cases c) as [-> | [-> | [-> | [-> | ->]]]],
      (aqi_tips_cases a) as [-> | [-> | ->]],
      (wind_tips_cases w) as [-> | ->];
      destruct Hs as [-> | [-> | [-> | []]]]; tip_mem. }
  assert (Hf : s ≠ tip_fallback).
  { unfold temperature_tip_set in Hs. rewrite !elem_of_cons, elem_of_nil in Hs.
    destruct Hs as [-> | [-> | [-> | []]]]; discriminate. }
  destruct (temperature_tips t ++ weather_tips c ++ aqi_tips a ++ wind_tips w)
    as [|s' l'] eqn:El.
  - apply app_eq_nil in El as [-> _]. cbn.
    rewrite list_elem_of_singleton, elem_of_nil. tauto.
  - cbn [or_fallback]. rewrite <- El, elem_of_app. tauto.
Qed.

Lemma scaled_temperature_literals :
  scaled f15 = units 15 ∧ scaled f18 = units 18 ∧ scaled f28 = units 28
  ∧ scaled f30 = units 30.
Proof. repeat split; vm_compute; reflexivity. Qed.

(** The temperature rule on numbers. *)
Lemma temperature_tips_number (t : float) :
  PyFloat.valid t = true → is_finite t = true →
  temperature_tips t
  = if (units 18 <=? scaled t) && (scaled t <=? units 28) then [tip_comfortable]
    else if units 30 <? scaled t then [tip_hot]
    else if scaled t <? units 15 then [tip_cool]
    else [].
Proof.
  intros Vt Ft. destruct scaled_temperature_literals as (E15 & E18 & E28 & E30).
  unfold temperature_tips, PyFloat.gtb.
  assert (H18 : (f18 <=? t)%F = (units 18 <=? scaled t)).
  { apply eq_true_iff_eq. rewrite leb_numeric, E18 by done. symmetry. apply Z.leb_le. }
  assert (H28 : (t <=? f28)%F = (scaled t <=? units 28)).
  { apply eq_true_iff_eq. rewrite leb_numeric, E28 by done. symmetry. apply Z.leb_le. }
  assert (H30 : (f30 <? t)%F = (units 30 <? scaled t)).
  { apply eq_true_iff_eq. rewrite ltb_numeric, E30 by done. symmetry. apply Z.ltb_lt. }
  assert (H15 : (t <? f15)%F = (scaled t <? units 15)).
  { apply eq_true_iff_eq. rewrite ltb_numeric, E15 by done. symmetry. apply Z.ltb_lt. }
  by rewrite H18, H28, H30, H15.
Qed.

Lemma units_lt (n m : Z) : n < m → units n < units m.
Proof.
  intros H. unfold units. apply Z.mul_lt_mono_pos_r; [|done].
  by apply Z.pow_pos_nonneg.
Qed.

(** The bands of the temperature rule, over abstract bounds. *)
Lemma temperature_bands (x u15 u18 u28 u30 : Z) :
  u15 < u18 → u18 < u28 → u28 < u30 →
  ∀ l : list string,
    l = (if (u18 <=? x) && (x <=? u28) then [tip_comfortable]
         else if u30 <? x then [tip_hot]
         else if x <? u15 then [tip_cool]
         else []) →
    (tip_comfortable ∈ l ↔ u18 <= x <= u28)
    ∧ (tip_hot ∈ l ↔ u30 < x)
    ∧ (tip_cool ∈ l ↔ x < u15)
    ∧ (u15 <= x < u18 ∨ u28 < x <= u30 → l = []).
Proof.
  intros U1 U2 U3 l ->.
  destruct (Z.leb_spec u18 x), (Z.leb_spec x u28), (Z.ltb_spec u30 x),
    (Z.ltb_spec x u15); cbn [andb];
    rewrite ?list_elem_of_singleton, ?elem_of_nil;
    repeat split; try (intros; lia); try reflexivity; try discriminate;
    try (intros; exfalso; lia).
Qed.

(** X2. For a finite temperature t the comfortable tip is given exactly when
    18 <= t <= 28, the hot tip exactly when t > 30, the cool tip exactly when
    t < 15; in the two gaps 15 <= t < 18 and 28 < t <= 30 no temperature tip
    is given. *)
Theorem eco_tips_temperature_bands (t : float) (c : Z) (a w : option float) :
  PyFloat.valid t = true → is_finite t = true →
  (tip_comfortable ∈ eco_tips t c a w ↔ units 18 <= scaled t <= units 28)
  ∧ (tip_hot ∈ eco_tips t c a w ↔ units 30 < scaled t)
  ∧ (tip_cool ∈ eco_tips t c a w ↔ scaled t < units 15)
  ∧ (units 15 <= scaled t < units 18 ∨ units 28 < scaled t <= units 30 →
     ∀ s, s ∈ temperature_tip_set → s ∉ eco_tips t c a w).
Proof.
  intros Vt Ft.
  assert (Hin : ∀ s, s ∈ temperature_tip_set →
            s ∈ eco_tips t c a w ↔ s ∈ temperature_tips t)
    by (intros s; apply temperature_tip_in_eco_tips).
  destruct (temperature_bands (scaled t) (units 15) (units 18) (units 28) (units 30)
              (units_lt 15 18 eq_refl) (units_lt 18 28 eq_refl)
              (units_lt 28 30 eq_refl) (temperature_tips t)
              (temperature_tips_number t Vt Ft)) as (Hc & Hh & Hl & Hgap).
  rewrite !Hin by (unfold temperature_tip_set; rewrite !elem_of_cons; auto).
  split; [exact Hc|]. split; [exact Hh|]. split; [exact Hl|].
  intros Hg s Hs. rewrite (Hin s Hs), (Hgap Hg). apply not_elem_of_nil.
Qed.

(** 35 degrees is hot. *)
Lemma eco_tips_temperature_bands_witness :
  tip_hot ∈ eco_tips (PyFloat.of_int 35) 45 None None.
Proof.
  apply (proj1 (proj2 (eco_tips_temperature_bands (PyFloat.of_int 35) 45 None None
                         eq_refl eq_refl))).
  vm_compute. reflexivity.
Defined.

(** ** The classifier and the order of AQI values *)

Lemma explain_in_tier (v : option float) (t : tier) :
  explain_us_aqi v = tier_description t → in_tier v t.
Proof.
  intros H. destruct (in_tier_total v) as [t' Ht'].
  destruct (in_tier_strings v t' Ht') as [Hd _].
  rewrite Hd in H. by rewrite <- (tier_description_inj _ _ H).
Qed.

Lemma badge_in_tier (v : option float) (t : tier) :
  aqi_emoji v = tier_badge t → in_tier v t.
Proof.
  intros H. destruct (in_tier_total v) as [t' Ht'].
  destruct (in_tier_strings v t' Ht') as [_ Hb].
  rewrite Hb in H. by rewrite <- (tier_badge_inj _ _ H).
Qed.

Lemma leb_true_not_nan_r (x y : float) : (x <=? y)%F = true → PyFloat.isnan y = false.
Proof.
  intros H. destruct (PyFloat.isnan y) eqn:E; [|done].
  by rewrite (nan_leb_r x y E) in H.
Qed.

(** Comparisons among two floats that are not NaN and the literals. *)
Ltac float_order2 Hx Hy :=
  unfold PyFloat.gtb in *;
  repeat match goal with
  | H : (_ <=? _)%F = true |- _ =>
      apply leb_iff in H; [| first [exact Hx | exact Hy | reflexivity] ..]
  | H : (_ <? _)%F = true |- _ =>
      apply ltb_iff in H; [| first [exact Hx | exact Hy | reflexivity] ..]
  end;
  unfold lex_le, lex_lt in *;
  repeat match goal with
  | |- context [key ?v] => is_var v; destruct (key v) as [[? ?] ?]
  | H : context [key ?v] |- _ => is_var v; destruct (key v) as [[? ?] ?]
  end;
  cbn in *; lia.

Lemma in_tier_monotone (x y : float) (tx ty : tier) :
  (x <=? y)%F = true → in_tier (Some x) tx → in_tier (Some y) ty →
  (tier_rank tx <= tier_rank ty)%nat.
Proof.
  intros Hxy Hx Hy.
  pose proof (leb_true_not_nan x y Hxy) as Nx.
  pose proof (leb_true_not_nan_r x y Hxy) as Ny.
  inversion Hx; subst; try congruence;
    inversion Hy; subst; try congruence; cbn [tier_rank];
    first [lia | exfalso; float_order2 Nx Ny].
Qed.

(** X6. The classifier is monotone: if x <= y as floats, the tier of the
    description and of the badge of x is never graver than that of y. *)
Theorem classifier_monotone (x y : float) (tx ty : tier) :
  (x <=? y)%F = true →
  explain_us_aqi (Some x) = tier_description tx →
  explain_us_aqi (Some y) = tier_description ty →
  (tier_rank tx <= tier_rank ty)%nat
  ∧ (∀ bx b_y, aqi_emoji (Some x) = tier_badge bx → aqi_emoji (Some y) = tier_badge b_y →
       (tier_rank bx <= tier_rank b_y)%nat).
Proof.
  intros Hxy Hx Hy. split.
  - by apply (in_tier_monotone x y); [|apply explain_in_tier..].
  - intros bx b_y Hbx Hby. by apply (in_tier_monotone x y); [|apply badge_in_tier..].
Qed.

Lemma classifier_monotone_witness :
  (tier_rank Moderate <= tier_rank Unhealthy)%nat.
Proof.
  apply (proj1 (classifier_monotone (PyFloat.of_int 75) (PyFloat.of_int 175)
                  Moderate Unhealthy eq_refl eq_refl eq_refl)).
Defined.

(** ** The AQI tips and the tiers *)

(** X7. The tips agree with the classifier: the walk/cycle tip is given
    exactly when the description is that of Good, the avoid-vehicles tip
    exactly when it is that of Unhealthy, Very Unhealthy or Hazardous, and the
    mask tip exactly when the avoid-vehicles tip is. *)
Theorem aqi_tips_match_tier (t : float) (c : Z) (w : option float) (x : float) :
  (tip_walk_cycle ∈ eco_tips t c (Some x) w
   ↔ explain_us_aqi (Some x) = tier_description Good)
  ∧ (tip_avoid_vehicles ∈ eco_tips t c (Some x) w
     ↔ explain_us_aqi (Some x) = tier_description Unhealthy
       ∨ explain_us_aqi (Some x) = tier_description VeryUnhealthy
       ∨ explain_us_aqi (Some x) = tier_description Hazardous)
  ∧ (tip_wear_mask ∈ eco_tips t c (Some x) w
     ↔ tip_avoid_vehicles ∈ eco_tips t c (Some x) w).
Proof.
  rewrite !aqi_tip_in_eco_tips by (unfold is_aqi_tip; auto).
  destruct (in_tier_total (Some x)) as [tx Hx].
  destruct (in_tier_strings _ _ Hx) as [Hd _]. rewrite Hd.
  assert (Hcases :
    (tx = Good ∧ aqi_tips (Some x) = [tip_walk_cycle])
    ∨ ((tx = Moderate ∨ tx = UnhealthySensitive ∨ tx = Unknown) ∧ aqi_tips (Some x) = [])
    ∨ ((tx = Unhealthy ∨ tx = VeryUnhealthy ∨ tx = Hazardous)
       ∧ aqi_tips (Some x) = [tip_avoid_vehicles; tip_wear_mask])).
  { inversion Hx as [v H|v H1 H|v H1 H|v H1 H|v H1 H|v H| |v H]; subst.
    - left. split; [done|]. by apply aqi_tips_good.
    - right; left. split; [auto|]. apply aqi_tips_middle. right. exists x.
      split; [done|]. split; [done|].
      pose proof (leb_true_not_nan _ _ H) as Hv. float_order x Hv.
    - right; left. split; [auto|]. apply aqi_tips_middle. right. exists x.
      split; [done|]. split; [|done].
      pose proof (leb_true_not_nan _ _ H) as Hv. float_order x Hv.
    - right; right. split; [auto|]. by apply aqi_tips_high.
    - right; right. split; [auto|]. apply aqi_tips_high.
      pose proof (leb_true_not_nan _ _ H) as Hv. float_order x Hv.
    - right; right. split; [auto|]. apply aqi_tips_high.
      pose proof (ltb_true_not_nan_r _ _ H) as Hv. float_order x Hv.
    - right; left. split; [auto|]. apply aqi_tips_middle. left. cbn. by rewrite H. }
  destruct Hcases as [[-> ->] | [[Ht ->] | [Ht ->]]].
  - repeat split; try tip_mem; try (intros [H|[H|H]]; discriminate H).
  - repeat split; try tip_mem;
      try (intros H; exfalso; destruct Ht as [-> | [-> | ->]]; discriminate H);
      try (intros [H|[H|H]]; exfalso; destruct Ht as [-> | [-> | ->]]; discriminate H).
  - repeat split; try tip_mem;
      try (intros H; exfalso; destruct Ht as [-> | [-> | ->]]; discriminate H);
      try (intros _; destruct Ht as [-> | [-> | ->]]; auto).
Qed.

(** At AQI 40 on a mild rainy day the tier is Good and the walk/cycle tip is
    given. *)
Lemma aqi_tips_match_tier_witness :
  tip_walk_cycle
    ∈ eco_tips (PyFloat.of_int 20) 61 (Some (PyFloat.of_int 40)) (Some (PyFloat.of_int 3)).
Proof.
  apply (proj1 (aqi_tips_match_tier (PyFloat.of_int 20) 61 (Some (PyFloat.of_int 3))
                  (PyFloat.of_int 40))).
  reflexivity.
Defined.


(** ** The fallback tip, both ways *)

(** X5. The fallback tip is in the output exactly when no rule of any category
    fires, and then it is the only tip. *)
Theorem fallback_only_when_nothing_fires (t : float) (c : Z) (a w : option float) :
  (tip_fallback ∈ eco_tips t c a w
   ↔ temperature_fires t = false ∧ weather_fires c = false
     ∧ aqi_fires a = false ∧ wind_fires w = false)
  ∧ (tip_fallback ∈ eco_tips t c a w → eco_tips t c a w = [tip_fallback]).
Proof.
  split; [apply eco_tips_fallback_iff|].
  intros Hin. apply eco_tips_fallback_iff in Hin as (Ht & Hc & Ha & Hw).
  rewrite eco_tips_by_category.
  by rewrite (temperature_tips_nil t Ht), (weather_tips_nil c Hc),
    (aqi_tips_nil a Ha), (wind_tips_nil w Hw).
Qed.

Lemma fallback_only_when_nothing_fires_witness :
  eco_tips (PyFloat.of_int 29) 45 None (Some (PyFloat.of_int 3)) = [tip_fallback].
Proof.
  apply (proj2 (fallback_only_when_nothing_fires (PyFloat.of_int 29) 45 None
                  (Some (PyFloat.of_int 3)))).
  apply (proj1 (fallback_only_when_nothing_fires (PyFloat.of_int 29) 45 None
                  (Some (PyFloat.of_int 3)))).
  repeat split.
Defined.

(** ** The weather codes *)

Lemma weather_tip_in_eco_tips (t : float) (c : Z) (a w : option float) (s : string) :
  s ∈ weather_tip_set → s ∈ eco_tips t c a w ↔ s ∈ weather_tips c.
Proof.
  intros Hs. rewrite eco_tips_by_category.
  unfold weather_tip_set in Hs. rewrite !elem_of_cons, elem_of_nil in Hs.
  assert (Ht : s ∉ temperature_tips t).
  { unfold temperature_tips.
    destruct ((f18 <=? t)%F && (t <=? f28)%F), (t >? f30)%F, (t <? f15)%F;
      destruct Hs as [-> | [-> | [-> | [-> | [-> | []]]]]]; tip_mem. }
  assert (Ha : s ∉ aqi_tips a).
  { unfold aqi_tips. destruct a as [x|];
      [destruct (PyFloat.isnan x), (x >? f150)%F, (x <=? f50)%F|];
      destruct Hs as [-> | [-> | [-> | [-> | [-> | []]]]]]; tip_mem. }
  assert (Hw : s ∉ wind_tips w).
  { unfold wind_tips. destruct w as [x|]; [destruct (x >? f6)%F|];
      destruct Hs as [-> | [-> | [-> | [-> | [-> | []]]]]]; tip_mem. }
  assert (Hf : s ≠ tip_fallback)
    by (destruct Hs as [-> | [-> | [-> | [-> | [-> | []]]]]]; discriminate).
  set (l := temperature_tips t ++ weather_tips c ++ aqi_tips a ++ wind_tips w).
  assert (Hl : s ∈ l ↔ s ∈ weather_tips c)
    by (unfold l; rewrite !elem_of_app; tauto).
  rewrite <- Hl. destruct l as [|s' l'] eqn:El; [|done].
  cbn. rewrite list_elem_of_singleton, elem_of_nil. tauto.
Qed.

Lemma code_in_iff (c lo hi : Z) : code_in c lo hi = true ↔ lo <= c <= hi.
Proof. unfold code_in. rewrite andb_true_iff, !Z.leb_le. tauto. Qed.

Lemma code_in_false_iff (c lo hi : Z) : code_in c lo hi = false ↔ ¬ (lo <= c <= hi).
Proof.
  rewrite <- code_in_iff. destruct (code_in c lo hi); split; congruence.
Qed.

Lemma weather_tips_codes (c : Z) :
  weather_tips c
  = if bool_decide (c = 0 ∨ c = 1) then [tip_clear_sky; tip_daylight]
    else if bool_decide (c = 2 ∨ c = 3) then [tip_cloudy]
    else if bool_decide (51 <= c <= 67 ∨ 80 <= c <= 82) then [tip_rain]
    else if bool_decide (71 <= c <= 77 ∨ 85 <= c <= 86) then [tip_wintry]
    else [].
Proof.
  unfold weather_tips.
  destruct (code_in c 0 1) eqn:E1;
    [apply code_in_iff in E1; by rewrite bool_decide_eq_true_2 by lia|].
  apply code_in_false_iff in E1. rewrite bool_decide_eq_false_2 by lia.
  destruct (code_in c 2 3) eqn:E2;
    [apply code_in_iff in E2; by rewrite bool_decide_eq_true_2 by lia|].
  apply code_in_false_iff in E2. rewrite bool_decide_eq_false_2 by lia.
  destruct (code_in c 51 67) eqn:E3;
    [apply code_in_iff in E3; by rewrite bool_decide_eq_true_2 by lia|].
  apply code_in_false_iff in E3.
  destruct (code_in c 80 82) eqn:E4;
    [apply code_in_iff in E4; by rewrite bool_decide_eq_true_2 by lia|].
  apply code_in_false_iff in E4. rewrite bool_decide_eq_false_2 by lia.
  destruct (code_in c 71 77) eqn:E5;
    [apply code_in_iff in E5; by rewrite bool_decide_eq_true_2 by lia|].
  apply code_in_false_iff in E5.
  destruct (code_in c 85 86) eqn:E6;
    [apply code_in_iff in E6; by rewrite bool_decide_eq_true_2 by lia|].
  apply code_in_false_iff in E6. by rewrite bool_decide_eq_false_2 by lia.
Qed.

(** X3. The clear-sky and daylight tips are given exactly for codes 0 and 1,
    the cloudy tip for 2 and 3, the rain tip for 51..67 and 80..82, the wintry
    tip for 71..77 and 85..86; every other code, negative ones included, gives
    no weather tip. *)
Theorem eco_tips_weather_codes (t : float) (c : Z) (a w : option float) :
  (tip_clear_sky ∈ eco_tips t c a w ↔ c = 0 ∨ c = 1)
  ∧ (tip_daylight ∈ eco_tips t c a w ↔ c = 0 ∨ c = 1)
  ∧ (tip_cloudy ∈ eco_tips t c a w ↔ c = 2 ∨ c = 3)
  ∧ (tip_rain ∈ eco_tips t c a w ↔ 51 <= c <= 67 ∨ 80 <= c <= 82)
  ∧ (tip_wintry ∈ eco_tips t c a w ↔ 71 <= c <= 77 ∨ 85 <= c <= 86).
Proof.
  rewrite !weather_tip_in_eco_tips
    by (unfold weather_tip_set; rewrite !elem_of_cons; auto 10).
  rewrite weather_tips_codes.
  repeat case_bool_decide;
    (repeat split; [tip_mem || (intros; exfalso; lia) ..]) ||
    (repeat split; first [ by intros; tip_mem | by intros; lia
                         | intros H'; exfalso; revert H'; tip_mem
                         | intros; exfalso; lia ]).
Qed.

(** Code 95, a thunderstorm, has no tip of its own; code 63 is rain. *)
Lemma eco_tips_weather_codes_witness :
  tip_rain ∈ eco_tips (PyFloat.of_int 20) 63 None None
  ∧ tip_rain ∉ eco_tips (PyFloat.of_int 20) 95 None None.
Proof.
  split.
  - apply (proj1 (proj2 (proj2 (proj2 (eco_tips_weather_codes (PyFloat.of_int 20) 63
                                         None None))))). lia.
  - intros H.
    apply (proj1 (proj2 (proj2 (proj2 (eco_tips_weather_codes (PyFloat.of_int 20) 95
                                         None None))))) in H. lia.
Defined.

(** ** The pollutant sentence *)

Lemma append_empty_r (x : string) : x +:+ "" = x.
Proof.
  induction x as [|ch x IH]; [done|].
  change (String ch (x +:+ "") = String ch x). by rewrite IH.
Qed.

Lemma concat_head (sep x : string) (l : list string) :
  ∃ rest, String.concat sep (x :: l) = x +:+ rest.
Proof.
  destruct l as [|y l]; cbn.
  - exists "". by rewrite append_empty_r.
  - eauto.
Qed.

(** A line of the summary does not start as the sentence does. *)
Lemma pollutant_line_not_sentence (entry : string * string) (v : float) (rest : string) :
  entry ∈ pollutant_table → pollutant_line entry.2 v +:+ rest ≠ NOT_AVAILABLE.
Proof.
  unfold pollutant_table, pollutant_line. rewrite !elem_of_cons, elem_of_nil.
  intros [-> | [-> | [-> | [-> | [-> | []]]]]]; cbn [snd];
    intros H; cbv -[format_1f] in H; discriminate H.
Qed.

Lemma omap_head_in {A B} (f : A → option B) (l : list A) (y : B) (ys : list B) :
  omap f l = y :: ys → ∃ x, x ∈ l ∧ f x = Some y.
Proof.
  induction l as [|x l IH]; [done|]. cbn. destruct (f x) as [b|] eqn:E.
  - intros [= -> _]. exists x. split; [left|done].
  - intros H. destruct (IH H) as (x' & Hin & Hx'). exists x'. split; [by right|done].
Qed.

(** X8. pollutant_summary returns the 'not available' sentence exactly when
    all five pollutants are absent (missing or None); no list of lines reads
    as that sentence. *)
Theorem summary_sentence_iff_all_absent (p : gmap string (option float)) :
  pollutant_summary p = NOT_AVAILABLE
  ↔ ∀ entry, entry ∈ pollutant_table → dict_get p entry.1 = None.
Proof.
  split.
  - intros Hs entry Hin. unfold pollutant_summary in Hs.
    destruct (pollutant_lines p) as [|l ls] eqn:El.
    + rewrite pollutant_lines_table in El.
      destruct (dict_get p entry.1) as [v|] eqn:Ev; [|done].
      exfalso. clear Hs. revert El.
      assert (Hp : present_line p entry = Some (pollutant_line entry.2 v))
        by (unfold present_line; by rewrite Ev).
      induction pollutant_table as [|e tbl IH]; [by apply elem_of_nil in Hin|].
      cbn. apply elem_of_cons in Hin as [<-|Hin]; [by rewrite Hp|].
      destruct (present_line p e); [done | by apply IH].
    + exfalso. destruct (concat_head newline l ls) as [rest Hrest].
      rewrite Hrest in Hs. rewrite pollutant_lines_table in El.
      destruct (omap_head_in _ _ _ _ El) as (entry' & Hin' & Hl).
      unfold present_line in Hl. destruct (dict_get p entry'.1) as [v|]; [|done].
      injection Hl as <-. by apply (pollutant_line_not_sentence entry' v rest).
  - intros Habs. unfold pollutant_summary. rewrite pollutant_lines_table.
    assert (E : omap (present_line p) pollutant_table = []).
    { induction pollutant_table as [|e tbl IH]; [done|]. cbn.
      unfold present_line at 1. rewrite (Habs e) by left. cbn.
      apply IH. intros e' He'. apply Habs. by right. }
    by rewrite E.
Qed.

Lemma summary_sentence_iff_all_absent_witness :
  pollutant_summary (<["ozone" := None]> ∅) = NOT_AVAILABLE.
Proof.
  apply (summary_sentence_iff_all_absent (<["ozone" := None]> ∅)).
  unfold pollutant_table. intros entry Hin. rewrite !elem_of_cons, elem_of_nil in Hin.
  destruct Hin as [-> | [-> | [-> | [-> | [-> | []]]]]]; reflexivity.
Defined.


(** ** The hourly AQI frame *)

Lemma aqi_timeseries_unfold (aq : aq_json) :
  aqi_timeseries aq
  = if bool_decide (time_array aq = []) || bool_decide (us_aqi_array aq = [])
    then Ok None
    else if bool_decide (length (time_array aq) = length (us_aqi_array aq))
    then Ok (Some {| frame_time := time_array aq; frame_us_aqi := us_aqi_array aq |})
    else Err (ValueError "All arrays must be of the same length").
Proof.
  unfold aqi_timeseries, time_array, us_aqi_array, default.
  destruct aq as [[h|]]; cbn [aq_hourly from_option id]; [|done].
  by destruct (hourly_time h).
Qed.

Lemma aqi_timeseries_some (aq : aq_json) (df : aqi_frame) :
  aqi_timeseries aq = Ok (Some df) →
  frame_time df = time_array aq ∧ frame_us_aqi df = us_aqi_array aq
  ∧ length (frame_time df) = length (frame_us_aqi df)
  ∧ frame_time df ≠ [].
Proof.
  rewrite aqi_timeseries_unfold.
  repeat case_bool_decide; cbn [orb]; intros [=]; subst. done.
Qed.

(** X9. aqi_timeseries returns None when the time or the us_aqi array is empty
    or missing; a frame it returns has the two arrays as its columns, of equal
    length and not empty; two non-empty arrays of different lengths raise. *)
Theorem aqi_timeseries_cases (aq : aq_json) :
  (time_array aq = [] ∨ us_aqi_array aq = [] → aqi_timeseries aq = Ok None)
  ∧ (∀ df, aqi_timeseries aq = Ok (Some df) →
       frame_time df = time_array aq ∧ frame_us_aqi df = us_aqi_array aq
       ∧ length (frame_time df) = length (frame_us_aqi df)
       ∧ frame_time df ≠ [])
  ∧ (time_array aq ≠ [] → us_aqi_array aq ≠ [] →
     length (time_array aq) ≠ length (us_aqi_array aq) →
     ∃ e, aqi_timeseries aq = Err e).
Proof.
  split; [|split].
  - rewrite aqi_timeseries_unfold. intros [-> | ->]; [done|]. by rewrite orb_true_r.
  - apply aqi_timeseries_some.
  - rewrite aqi_timeseries_unfold. intros Ht Hv Hlen.
    rewrite !bool_decide_eq_false_2 by done. cbn [orb]. eauto.
Qed.

Lemma aqi_timeseries_cases_witness : ∃ e, aqi_timeseries ragged_response = Err e.
Proof.
  apply (proj2 (proj2 (aqi_timeseries_cases ragged_response))); vm_compute; congruence.
Defined.

(** ** The latest sample and the frame *)

Lemma series_value_us_aqi (aq : aq_json) (i : nat) :
  series_value aq "us_aqi" i = mjoin (us_aqi_array aq !! i).
Proof.
  unfold series_value, us_aqi_array, default.
  destruct (aq_hourly aq) as [h|]; [|done].
  destruct (hourly_series h !! "us_aqi") as [arr|]; cbn [from_option id]; [|done].
  by destruct (arr !! i) as [[?|]|].
Qed.

(** X10. Whenever aqi_timeseries returns a frame, the AQI of latest_aqi is the
    last entry of the frame's US AQI column: the value shown is the last point
    of the trend. *)
Theorem latest_aqi_is_last_of_frame (aq : aq_json) (df : aqi_frame) :
  aqi_timeseries aq = Ok (Some df) →
  (latest_aqi aq).1 = mjoin (last (frame_us_aqi df)).
Proof.
  intros Hdf.
  destruct (aqi_timeseries_some aq df Hdf) as (Ht & Hv & Hlen & Hne).
  rewrite Ht in Hne, Hlen. rewrite Hv in Hlen.
  rewrite latest_aqi_nonempty by (destruct (time_array aq); [done | cbn; lia]).
  cbn [fst]. rewrite series_value_us_aqi, Hv, Hlen, last_lookup.
  by rewrite Nat.sub_1_r.
Qed.

Lemma latest_aqi_is_last_of_frame_witness :
  (latest_aqi sample_response).1 = Some f150.
Proof.
  rewrite (latest_aqi_is_last_of_frame sample_response
             {| frame_time := time_array sample_response;
                frame_us_aqi := us_aqi_array sample_response |}); reflexivity.
Defined.

(** ** The air-quality block *)

Lemma fetch_air_quality_ok env lat lon w aq :
  http_air_quality env lat lon = Ok aq →
  fetch_air_quality lat lon env w
  = (Returned (match aqi_timeseries aq with
               | Ok df => ((latest_aqi aq).1, (latest_aqi aq).2, df)
               | Err _ => (None, ∅, None)
               end), push (HttpGet AIR_QUALITY_URL) w).
Proof.
  intros Haq.
  unfold fetch_air_quality, try_except, get_air_quality, ask, emit, lift_result,
    mbind, M_bind, mret, M_ret, raise. cbv beta iota. rewrite Haq. cbv beta iota.
  destruct (latest_aqi aq) as [aqi_val pollutants].
  by destruct (aqi_timeseries aq) as [df|e].
Qed.

(** X11. In the air-quality block of a query, a response whose time and us_aqi
    arrays are non-empty and of different lengths leaves the unavailable state
    (None, {}, None), also when latest_aqi had a value; otherwise the block
    returns the latest sample and the frame. *)
Theorem fetch_air_quality_ragged env lat lon w aq :
  http_air_quality env lat lon = Ok aq →
  (time_array aq ≠ [] → us_aqi_array aq ≠ [] →
   length (time_array aq) ≠ length (us_aqi_array aq) →
   fetch_air_quality lat lon env w
   = (Returned (None, ∅, None), push (HttpGet AIR_QUALITY_URL) w))
  ∧ (∀ df, aqi_timeseries aq = Ok df →
     fetch_air_quality lat lon env w
     = (Returned ((latest_aqi aq).1, (latest_aqi aq).2, df),
        push (HttpGet AIR_QUALITY_URL) w)).
Proof.
  intros Haq. rewrite (fetch_air_quality_ok env lat lon w aq Haq). split.
  - intros Ht Hv Hlen. rewrite aqi_timeseries_unfold.
    by rewrite !bool_decide_eq_false_2 by done.
  - by intros df ->.
Qed.

(** The ragged response has a latest AQI of 100, and the block drops it. *)
Lemma fetch_air_quality_ragged_witness :
  (latest_aqi ragged_response).1 = Some f100
  ∧ fetch_air_quality None None (delhi_env (Ok ragged_response)) empty_world
    = (Returned (None, ∅, None), push (HttpGet AIR_QUALITY_URL) empty_world).
Proof.
  split; [reflexivity|].
  apply (proj1 (fetch_air_quality_ragged (delhi_env (Ok ragged_response)) None None
                  empty_world ragged_response eq_refl)); vm_compute; congruence.
Defined.

(** ** Geocoding *)

(** X12. geocode_city sends one request; a failing request raises its error;
    otherwise it returns the first match and ignores the others, or None when
    the results are missing or empty. *)
Theorem geocode_city_first_match env w city :
  (∀ e, http_geocoding env city = Err e →
     geocode_city city env w = (Raised e, push (HttpGet GEOCODE_URL) w))
  ∧ (∀ data, http_geocoding env city = Ok data →
       geocode_city city env w
       = (Returned (head (default [] (geo_results data))),
          push (HttpGet GEOCODE_URL) w)).
Proof.
  unfold geocode_city, ask, emit, lift_result, raise, mbind, M_bind, mret, M_ret.
  cbv beta iota. split.
  - by intros e ->.
  - intros data ->. cbv beta iota.
    destruct (geo_results data) as [[|loc locs]|]; try done.
    cbn. by rewrite location_copy.
Qed.

Lemma geocode_city_first_match_witness :
  geocode_city "Delhi, India" (delhi_env (Err (HTTPError "503"))) empty_world
  = (Returned (Some delhi), push (HttpGet GEOCODE_URL) empty_world).
Proof.
  apply (proj2 (geocode_city_first_match (delhi_env (Err (HTTPError "503"))) empty_world
                  "Delhi, India") {| geo_results := Some [delhi] |}).
  reflexivity.
Defined.

(** ** The summary of the latest sample *)

Lemma dict_get_list_to_map (f : string → option float) (k : string) :
  k ∈ pollutant_keys →
  dict_get (list_to_map ((λ k, (k, f k)) <$> pollutant_keys)) k = f k.
Proof.
  unfold pollutant_keys. rewrite !elem_of_cons, elem_of_nil.
  intros [-> | [-> | [-> | [-> | [-> | []]]]]]; reflexivity.
Qed.

(** X13. pollutant_summary of the pollutants of latest_aqi: the sentence when
    the time array is empty; otherwise the mapping has exactly the five keys
    and the lines are those of the series values at the last index, in table
    order. *)
Theorem summary_of_latest_sample (aq : aq_json) :
  (time_array aq = [] → pollutant_summary (latest_aqi aq).2 = NOT_AVAILABLE)
  ∧ ((0 < length (time_array aq))%nat →
     dom (latest_aqi aq).2 = list_to_set pollutant_keys
     ∧ pollutant_lines (latest_aqi aq).2
       = omap (λ entry, pollutant_line entry.2
                          <$> series_value aq entry.1 (length (time_array aq) - 1))
           pollutant_table).
Proof.
  split.
  - intros Ht. by rewrite (latest_aqi_empty aq Ht).
  - intros Hn. rewrite (latest_aqi_nonempty aq Hn). cbn [snd]. split.
    + by rewrite dom_list_to_map_L.
    + rewrite pollutant_lines_table. unfold present_line, pollutant_table.
      cbn [omap list_omap fst snd].
      by rewrite !dict_get_list_to_map
        by (unfold pollutant_keys; rewrite !elem_of_cons; auto 10).
Qed.

Lemma summary_of_latest_sample_witness :
  pollutant_lines (latest_aqi sample_response).2 = ["O₃ (ozone): 25.0 µg/m³"].
Proof.
  rewrite (proj2 (proj2 (summary_of_latest_sample sample_response) ltac:(cbn; lia))).
  vm_compute. reflexivity.
Defined.

(** ** NaN readings *)

(** X4. A NaN temperature, a NaN or absent AQI and a NaN or absent wind speed
    fire no rule: the tips are those of the weather code alone, or the
    fallback. *)
Theorem eco_tips_nan_readings (t : float) (c : Z) (a w : option float) :
  PyFloat.isnan t = true →
  (∀ x, a = Some x → PyFloat.isnan x = true) →
  (∀ x, w = Some x → PyFloat.isnan x = true) →
  eco_tips t c a w = eco_tips t c None None
  ∧ ∀ s, s ∈ eco_tips t c a w → s ∈ weather_tips c ∨ s = tip_fallback.
Proof.
  intros Ht Ha Hw. rewrite !eco_tips_by_category.
  assert (Et : temperature_tips t = []).
  { unfold temperature_tips, PyFloat.gtb.
    by rewrite (nan_leb_r f18 t Ht), (nan_ltb_r f30 t Ht), (nan_ltb_l t f15 Ht). }
  assert (Ea : aqi_tips a = []).
  { unfold aqi_tips. destruct a as [x|]; [|done]. by rewrite (Ha x). }
  assert (Ew : wind_tips w = []).
  { unfold wind_tips, PyFloat.gtb. destruct w as [x|]; [|done].
    by rewrite (nan_ltb_r f6 x (Hw x eq_refl)). }
  rewrite Et, Ea, Ew. cbn [aqi_tips wind_tips app]. rewrite !app_nil_r.
  split; [done|]. intros s. destruct (weather_tips c) as [|s' l]; cbn.
  - rewrite list_elem_of_singleton. auto.
  - auto.
Qed.

Lemma eco_tips_nan_readings_witness :
  eco_tips S754_nan 61 (Some S754_nan) (Some S754_nan) = eco_tips S754_nan 61 None None.
Proof.
  apply (eco_tips_nan_readings S754_nan 61 (Some S754_nan) (Some S754_nan) eq_refl).
  - by intros x [= <-].
  - by intros x [= <-].
Defined.

(** ** The guarded lookup *)

(** X14. _safe_get returns None for a missing series and for an index at or
    past its end, and the element otherwise; the inline us_aqi lookup of
    latest_aqi returns what _safe_get returns for that key. *)
Theorem _safe_get_bounds (h : hourly_json) (key : string) (idx : nat) :
  (hourly_series h !! key = None → _safe_get h key idx = None)
  ∧ (∀ arr, hourly_series h !! key = Some arr → (length arr <= idx)%nat →
       _safe_get h key idx = None)
  ∧ (∀ arr x, hourly_series h !! key = Some arr → arr !! idx = Some x →
       _safe_get h key idx = x)
  ∧ (∀ times, hourly_time h = Some times → times ≠ [] →
       (latest_aqi {| aq_hourly := Some h |}).1
       = _safe_get h "us_aqi" (length times - 1)).
Proof.
  split; [|split; [|split]].
  - intros Hk. unfold _safe_get. by rewrite Hk.
  - intros arr Hk Hlen. rewrite _safe_get_value. unfold series_value. cbn.
    by rewrite Hk, (lookup_ge_None_2 _ _ Hlen).
  - intros arr x Hk Hx. rewrite _safe_get_value. unfold series_value. cbn.
    by rewrite Hk, Hx.
  - intros times Ht Hne. rewrite _safe_get_value.
    rewrite latest_aqi_nonempty; unfold time_array; cbn [aq_hourly]; rewrite Ht.
    + done.
    + destruct times; [done | cbn; lia].
Qed.

Lemma _safe_get_bounds_witness :
  _safe_get {| hourly_time := None; hourly_series := {[ "pm10" := [Some f9; None] ]} |}
    "pm10" 0 = Some f9.
Proof.
  apply (proj1 (proj2 (proj2 (_safe_get_bounds _ "pm10" 0))) [Some f9; None]);
    reflexivity.
Defined.

(** ** The logger and the file system *)

Lemma save_record_cases (r : record) (path : string) env (w : world) :
  (files (fs w) !! path = None → path ∉ read_only (fs w) →
   save_record_to_excel r path env w
   = (Returned tt,
      {| fs := {| files := <[path := Workbook (DataFrame_of_record r)]> (files (fs w));
                  read_only := read_only (fs w) |};
         trace := trace w |}))
  ∧ (∀ df, files (fs w) !! path = Some (Workbook df) → path ∉ read_only (fs w) →
     save_record_to_excel r path env w
     = (Returned tt,
        {| fs := {| files := <[path := Workbook
                                 (pd_concat {| columns := columns df;
                                               rows := read_back env df |}
                                            (DataFrame_of_record r))]>
                               (files (fs w));
                    read_only := read_only (fs w) |};
           trace := trace w |}))
  ∧ (files (fs w) !! path = Some Corrupt →
     save_record_to_excel r path env w
     = (Returned tt,
        push (StWarning ("Could not save record to Excel: "
                         +:+ "Excel file format cannot be determined")) w))
  ∧ (files (fs w) !! path ≠ Some Corrupt → path ∈ read_only (fs w) →
     save_record_to_excel r path env w
     = (Returned tt, push (StWarning ("Could not save record to Excel: " +:+ path)) w)).
Proof.
  split; [apply save_record_absent|]. split; [intros df; apply save_record_existing|].
  unfold save_record_to_excel, try_except, os_path_exists, pd_read_excel, to_excel,
    get_fs, put_fs, ask, emit, raise, mbind, M_bind, mret, M_ret. cbv beta iota.
  split.
  - intros Hf. rewrite Hf. rewrite bool_decide_eq_true_2 by eauto.
    cbv beta iota. by rewrite Hf.
  - intros Hf Hro.
    destruct (files (fs w) !! path) as [[df|]|] eqn:E; cbv beta iota; try done.
    + rewrite bool_decide_eq_true_2 by eauto. cbv beta iota. rewrite E. cbv beta iota.
      by rewrite bool_decide_eq_true_2.
    + rewrite bool_decide_eq_false_2 by (by intros [? ?]). cbv beta iota.
      by rewrite bool_decide_eq_true_2.
Qed.

Lemma save_fails_dec (f : filesystem) (path : string) :
  save_fails f path ∨ ¬ save_fails f path.
Proof.
  unfold save_fails. destruct (decide (path ∈ read_only f)); [auto|].
  destruct (files f !! path) as [[df|]|]; [right|left|right]; try tauto;
    intros [?|?]; done.
Qed.

(** What the logger does to a world, in all cases: it returns; it leaves
    every other path and the permissions alone; when it cannot save, the
    file system is as it was and one warning is drawn; otherwise nothing is
    drawn and the path names a workbook with the rows loaded from the prior
    one and the record after them. *)
Lemma save_record_world (r : record) (path : string) env (w : world) :
  ∃ w', save_record_to_excel r path env w = (Returned tt, w')
    ∧ read_only (fs w') = read_only (fs w)
    ∧ (∀ p, p ≠ path → files (fs w') !! p = files (fs w) !! p)
    ∧ (save_fails (fs w) path →
       ∃ msg, w' = push (StWarning ("Could not save record to Excel: " +:+ msg)) w)
    ∧ (¬ save_fails (fs w) path →
       trace w' = trace w
       ∧ ∃ df, files (fs w') !! path = Some (Workbook df)
               ∧ rows df = loaded_rows env (files (fs w) !! path) ++ [list_to_map r]
               ∧ r.*1 ⊆ columns df).
Proof.
  destruct (save_record_cases r path env w) as (Habs & Hex & Hcor & Hro).
  unfold save_fails.
  destruct (decide (path ∈ read_only (fs w))) as [Hin|Hnin].
  - assert (Hc : files (fs w) !! path = Some Corrupt
                 ∨ files (fs w) !! path ≠ Some Corrupt)
      by (destruct (files (fs w) !! path) as [[?|]|]; auto).
    destruct Hc as [Hc|Hc].
    + eexists. split; [by apply Hcor|]. split; [done|]. split; [done|]. split; [eauto|]. intros Hn; exfalso; apply Hn; auto.
    + eexists. split; [by apply Hro|]. split; [done|]. split; [done|]. split; [eauto|]. intros Hn; exfalso; apply Hn; auto.
  - destruct (files (fs w) !! path) as [[df|]|] eqn:E.
    + eexists. split; [by apply Hex|]. cbn [fs files read_only trace].
      split; [done|]. split; [by intros p Hp; rewrite lookup_insert_ne|].
      split; [intros [?|?]; done|]. intros _. split; [done|].
      eexists. split; [apply lookup_insert_eq|]. cbn [rows columns pd_concat loaded_rows
        DataFrame_of_record]. split; [done|].
      intros k Hk. rewrite elem_of_app.
      destruct (decide (k ∈ columns df)); [by left|right].
      by apply list_elem_of_difference.
    + eexists. split; [by apply Hcor|]. split; [done|]. split; [done|]. split; [eauto|]. intros Hn; exfalso; apply Hn; auto.
    + eexists. split; [by apply Habs|]. cbn [fs files read_only trace].
      split; [done|]. split; [by intros p Hp; rewrite lookup_insert_ne|].
      split; [intros [?|?]; done|]. intros _. split; [done|].
      eexists. split; [apply lookup_insert_eq|]. done.
Qed.

(** X15. save_record_to_excel always returns and changes no path but its own.
    When the file is not a workbook or the path cannot be written, the file
    system is as it was and exactly one warning is drawn; otherwise nothing is
    drawn and the workbook written holds the rows pd.read_excel loaded from
    the prior workbook, which need not be the rows once written, followed by
    the record as it was given, with the record's keys among its columns. *)
Theorem logger_never_raises (r : record) (path : string) env (w : world) :
  ∃ w', save_record_to_excel r path env w = (Returned tt, w')
    ∧ read_only (fs w') = read_only (fs w)
    ∧ (∀ p, p ≠ path → files (fs w') !! p = files (fs w) !! p)
    ∧ (save_fails (fs w) path →
       fs w' = fs w
       ∧ ∃ msg, trace w'
                = trace w ++ [StWarning ("Could not save record to Excel: " +:+ msg)])
    ∧ (¬ save_fails (fs w) path →
       trace w' = trace w
       ∧ ∃ df, files (fs w') !! path = Some (Workbook df)
               ∧ rows df = loaded_rows env (files (fs w) !! path) ++ [list_to_map r]
               ∧ last (rows df) = Some (list_to_map r)
               ∧ r.*1 ⊆ columns df).
Proof.
  destruct (save_record_world r path env w) as (w' & Hrun & Hro & Hfr & Hfail & Hok).
  exists w'. split; [done|]. split; [done|]. split; [done|]. split.
  - intros H. destruct (Hfail H) as [msg ->]. split; [done|]. by exists msg.
  - intros H. destruct (Hok H) as (Htr & df & Hdf & Hrows & Hcols).
    split; [done|]. exists df. split; [done|]. split; [done|].
    split; [|done]. rewrite Hrows. apply last_snoc.
Qed.

Lemma logger_never_raises_witness :
  (∃ w', save_record_to_excel record_delhi LOG_PATH offline corrupt_log_world
         = (Returned tt, w')
     ∧ fs w' = fs corrupt_log_world)
  ∧ (∃ w' df, save_record_to_excel record_delhi LOG_PATH offline empty_world
              = (Returned tt, w')
       ∧ files (fs w') !! LOG_PATH = Some (Workbook df)
       ∧ rows df = [list_to_map record_delhi]).
Proof.
  split.
  - destruct (logger_never_raises record_delhi LOG_PATH offline corrupt_log_world)
      as (w' & Hrun & _ & _ & Hfail & _).
    exists w'. split; [exact Hrun|]. apply Hfail. left. reflexivity.
  - destruct (logger_never_raises record_delhi LOG_PATH offline empty_world)
      as (w' & Hrun & _ & _ & _ & Hok).
    destruct Hok as (_ & df & Hdf & Hrows & _).
    { intros [H|H]; [discriminate H | by apply elem_of_empty in H]. }
    by exists w', df.
Defined.

(** ** Every run of a query *)

Lemma requests_push (ev : event) (w : world) :
  requests (trace (push ev w))
  = requests (trace w) ++ match request_url ev with Some u => [u] | None => [] end.
Proof.
  unfold requests. cbn [push trace]. rewrite omap_app. cbn.
  by destruct (request_url ev).
Qed.

Lemma requests_push_ui (ev : event) (w : world) :
  request_url ev = None → requests (trace (push ev w)) = requests (trace w).
Proof. intros H. by rewrite requests_push, H, app_nil_r. Qed.


Lemma main_blank env w units show_raw :
  main "" units show_raw env w
  = (Returned tt, push (StError "Please enter a city name.") w).
Proof. reflexivity. Qed.

Lemma main_no_match env w city units show_raw data :
  city ≠ "" → http_geocoding env city = Ok data →
  default [] (geo_results data) = [] →
  main city units show_raw env w
  = (Stopped,
     push (StError "Could not find this city. Try a different spelling or include country (e.g., 'Delhi, India').")
       (push (HttpGet GEOCODE_URL) w)).
Proof.
  intros Hcity Hgeo Hnone. unfold main. rewrite bool_decide_eq_false_2 by done.
  unfold try_except, geocode_city, ask, emit, lift_result, raise, st_stop,
    mbind, M_bind, mret, M_ret. cbv beta iota. rewrite Hgeo. cbv beta iota.
  by destruct (geo_results data) as [[|loc locs]|].
Qed.

(** The state of a run that got its forecast, however it ends: what the
    file system and the requests are at the end. *)
Lemma after_forecast_frame env units show_raw loc wd w :
  ∃ w', after_forecast units show_raw loc wd env w = (ending env loc, w')
        ∧ only_log_changed (fs w) (fs w')
        ∧ requests (trace w') = requests (trace w) ++ [AIR_QUALITY_URL].
Proof.
  apply (after_forecast_ui env units show_raw loc wd w
           (λ w', only_log_changed (fs w) (fs w')
                  ∧ requests (trace w') = requests (trace w) ++ [AIR_QUALITY_URL])).
  - intros ev w' Hev [Hfs Hreq]. split; [done|]. by rewrite requests_push_ui.
  - intros w2 Hsave.
    destruct (save_record_world (query_record env loc wd) LOG_PATH env
                (push (HttpGet AIR_QUALITY_URL) w))
      as (w2' & Hsave' & Hro & Hfr & Hfail & Hok).
    rewrite Hsave in Hsave'. injection Hsave' as <-.
    split; [by split|].
    rewrite requests_push_ui by done.
    destruct (save_fails_dec (fs (push (HttpGet AIR_QUALITY_URL) w)) LOG_PATH) as [Hf|Hf].
    + destruct (Hfail Hf) as [msg ->]. rewrite requests_push_ui by done.
      by rewrite requests_push.
    + destruct (Hok Hf) as [-> _]. by rewrite requests_push.
Qed.




(** X18. A query sends at most three requests, always a prefix of geocoding,
    forecast, air quality in that order (no retry); a query for a non-blank
    city that returns has sent all three. *)
Theorem main_requests_in_order env w city units show_raw :
  ∃ k, (k <= 3)%nat
    ∧ requests (trace (main city units show_raw env w).2)
      = requests (trace w) ++ take k [GEOCODE_URL; FORECAST_URL; AIR_QUALITY_URL]
    ∧ (city ≠ "" → (main city units show_raw env w).1 = Returned tt → k = 3%nat).
Proof.
  destruct (decide (city = "")) as [->|Hcity].
  { exists 0%nat. rewrite main_blank. cbn [fst snd take].
    rewrite requests_push_ui by done. split; [lia|]. by rewrite app_nil_r. }
  destruct (http_geocoding env city) as [data|e] eqn:Hgeo.
  2:{ exists 1%nat. rewrite (main_geocode_error env w city units show_raw e) by done.
      cbn [fst snd take]. rewrite requests_push_ui, requests_push by done.
      split; [lia|]. split; [done|]. by intros _ [=]. }
  destruct (geo_results data) as [[|loc locs]|] eqn:Hres.
  1,3: (exists 1%nat;
        rewrite (main_no_match env w city units show_raw data) by (by rewrite ?Hres);
        cbn [fst snd take]; rewrite requests_push_ui, requests_push by done;
        split; [lia|]; split; [done|]; by intros _ [=]).
  assert (Hgeo' : http_geocoding env city = Ok {| geo_results := Some (loc :: locs) |})
    by (rewrite Hgeo; destruct data; cbn in Hres; by subst).
  destruct (http_forecast env (loc_latitude loc) (loc_longitude loc)) as [wd|e] eqn:Hwd.
  2:{ exists 2%nat.
      rewrite (main_forecast_error env w city units show_raw loc locs e) by done.
      cbn [fst snd take]. rewrite requests_push_ui, !requests_push by done.
      cbn. rewrite <- app_assoc. split; [lia|]. split; [done|]. by intros _ [=]. }
  exists 3%nat. split; [lia|]. split; [|done].
  destruct (after_forecast_frame env units show_raw loc wd
              (push (HttpGet FORECAST_URL) (push (HttpGet GEOCODE_URL) w)))
    as (w' & Hrun & _ & Hreq).
  rewrite (main_forecast_ok env w city units show_raw loc locs wd) by done.
  rewrite Hrun. cbn [snd]. rewrite Hreq, !requests_push. cbn.
  by rewrite <- !app_assoc.
Qed.

(** A query answered in full sends the three requests, in order. *)
Lemma main_requests_in_order_witness :
  requests (trace (main "Delhi, India" Celsius false (delhi_env (Ok sample_response))
                     empty_world).2)
  = [GEOCODE_URL; FORECAST_URL; AIR_QUALITY_URL].
Proof.
  destruct (main_requests_in_order (delhi_env (Ok sample_response)) empty_world
              "Delhi, India" Celsius false) as (k & Hk & Hreq & Hall).
  rewrite Hreq, (Hall ltac:(discriminate) ltac:(vm_compute; reflexivity)).
  reflexivity.
Defined.

(** ** What a query logs *)

(** At the end of a run that fetched its forecast, however it ends, the
    file system is the one the logger left, the logger was given the record
    of the query, and the success message is drawn. *)
Lemma after_forecast_logged env units show_raw loc wd w :
  ∃ w2 w',
    save_record_to_excel (query_record env loc wd) LOG_PATH env
      (push (HttpGet AIR_QUALITY_URL) w) = (Returned tt, w2)
    ∧ after_forecast units show_raw loc wd env w = (ending env loc, w')
    ∧ fs w' = fs w2
    ∧ StSuccess SAVED ∈ trace w'.
Proof.
  destruct (save_record_world (query_record env loc wd) LOG_PATH env
              (push (HttpGet AIR_QUALITY_URL) w)) as (w2 & Hsave & _).
  exists w2.
  destruct (after_forecast_ui env units show_raw loc wd w
              (λ w', fs w' = fs w2 ∧ StSuccess SAVED ∈ trace w'))
    as (w' & Hrun & Hfs & Hin).
  - intros ev w' Hev [Hfs Hin]. split; [done|]. by apply in_trace_push.
  - intros w2' Hsave'. rewrite Hsave in Hsave'. injection Hsave' as <-.
    split; [done|]. apply in_trace_push_here.
  - by exists w'.
Qed.

(** X19. A query whose geocoding and forecast succeed, with a log that can be
    appended to, writes however it ends a workbook with exactly one row more
    than pd.read_excel loaded from the prior one, the last: the record of the
    query, with the temperature in Celsius whatever unit is displayed and the
    AQI the air-quality block left. *)
Theorem query_logs_one_row env w city units show_raw loc locs wd :
  city ≠ "" →
  http_geocoding env city = Ok {| geo_results := Some (loc :: locs) |} →
  http_forecast env (loc_latitude loc) (loc_longitude loc) = Ok wd →
  ¬ save_fails (fs w) LOG_PATH →
  ∃ df, files (fs (main city units show_raw env w).2) !! LOG_PATH = Some (Workbook df)
        ∧ rows df = loaded_rows env (files (fs w) !! LOG_PATH)
                    ++ [list_to_map (query_record env loc wd)]
        ∧ last (rows df) = Some (list_to_map (query_record env loc wd)).
Proof.
  intros Hcity Hgeo Hwd Hok.
  rewrite (main_forecast_ok env w city units show_raw loc locs wd) by done.
  set (w0 := push (HttpGet FORECAST_URL) (push (HttpGet GEOCODE_URL) w)).
  destruct (after_forecast_logged env units show_raw loc wd w0)
    as (w2 & w' & Hsave & Hrun & Hfs & _).
  rewrite Hrun. cbn [snd].
  destruct (save_record_world (query_record env loc wd) LOG_PATH env
              (push (HttpGet AIR_QUALITY_URL) w0))
    as (w2' & Hsave' & _ & _ & _ & Hrows).
  rewrite Hsave in Hsave'. injection Hsave' as <-.
  destruct (Hrows Hok) as (_ & df & Hdf & Hr & _).
  exists df. rewrite Hfs. split; [done|]. split; [done|].
  rewrite Hr. apply last_snoc.
Qed.

(** The row of the mocked query, asked for in Fahrenheit: the temperature
    logged is the Celsius reading. *)
Lemma query_logs_one_row_witness :
  ∃ df, files (fs (main "Delhi, India" Fahrenheit false
                     (delhi_env (Ok sample_response)) empty_world).2) !! LOG_PATH
        = Some (Workbook df)
    ∧ rows df = [list_to_map
                   [ ("Date & Time", VStr "2024-05-01 12:00:00");
                     ("City", VStr "Delhi"); ("Country", VStr "India");
                     ("Temperature (°C)", VFloat f32_5);
                     ("Wind Speed (km/h)", VFloat f9);
                     ("Weather Code", VInt 1); ("US AQI", VFloat f150) ]].
Proof.
  destruct (query_logs_one_row (delhi_env (Ok sample_response)) empty_world
              "Delhi, India" Fahrenheit false delhi [] delhi_forecast)
    as (df & Hdf & Hrows & _);
    [discriminate | reflexivity | reflexivity | |].
  - intros [H|H]; [discriminate H | by apply elem_of_empty in H].
  - by exists df.
Defined.

(** X20. The file system after a query does not depend on the temperature unit
    or on the raw-data switch: what is logged is independent of what is
    displayed. *)
Theorem log_independent_of_display env w city show_raw show_raw' :
  fs (main city Celsius show_raw env w).2
  = fs (main city Fahrenheit show_raw' env w).2.
Proof.
  destruct (decide (city = "")) as [->|Hcity]; [by rewrite !main_blank|].
  destruct (http_geocoding env city) as [data|e] eqn:Hgeo.
  2:{ by rewrite !(main_geocode_error env w city _ _ e) by done. }
  destruct (geo_results data) as [[|loc locs]|] eqn:Hres.
  1,3: by rewrite !(main_no_match env w city _ _ data) by (by rewrite ?Hres).
  assert (Hgeo' : http_geocoding env city = Ok {| geo_results := Some (loc :: locs) |})
    by (rewrite Hgeo; destruct data; cbn in Hres; by subst).
  destruct (http_forecast env (loc_latitude loc) (loc_longitude loc)) as [wd|e] eqn:Hwd.
  2:{ by rewrite !(main_forecast_error env w city _ _ loc locs e) by done. }
  rewrite !(main_forecast_ok env w city _ _ loc locs wd) by done.
  set (w0 := push (HttpGet FORECAST_URL) (push (HttpGet GEOCODE_URL) w)).
  destruct (after_forecast_logged env Celsius show_raw loc wd w0)
    as (w2 & w1 & Hsave1 & Hrun1 & Hfs1 & _).
  destruct (after_forecast_logged env Fahrenheit show_raw' loc wd w0)
    as (w2' & w1' & Hsave2 & Hrun2 & Hfs2 & _).
  rewrite Hrun1, Hrun2. cbn [snd]. rewrite Hsave1 in Hsave2.
  injection Hsave2 as <-. congruence.
Qed.

(** X21. When the log cannot be appended to, a query that reached the save
    leaves the file system as it was and still draws the 'Weather record
    saved' success message, after the warning of the logger, however the run
    ends. *)
Theorem saved_message_even_when_save_fails env w city units show_raw loc locs wd :
  city ≠ "" →
  http_geocoding env city = Ok {| geo_results := Some (loc :: locs) |} →
  http_forecast env (loc_latitude loc) (loc_longitude loc) = Ok wd →
  save_fails (fs w) LOG_PATH →
  ∃ msg before after,
    fs (main city units show_raw env w).2 = fs w
    ∧ trace (main city units show_raw env w).2
      = before ++ [StWarning ("Could not save record to Excel: " +:+ msg);
                   StSuccess SAVED] ++ after.
Proof.
  intros Hcity Hgeo Hwd Hfail.
  rewrite (main_forecast_ok env w city units show_raw loc locs wd) by done.
  set (w0 := push (HttpGet FORECAST_URL) (push (HttpGet GEOCODE_URL) w)).
  destruct (save_record_world (query_record env loc wd) LOG_PATH env
              (push (HttpGet AIR_QUALITY_URL) w0))
    as (w2 & Hsave & _ & _ & Hf & _).
  destruct (Hf Hfail) as [msg Hw2].
  set (warned := StWarning ("Could not save record to Excel: " +:+ msg)) in *.
  destruct (after_forecast_ui env units show_raw loc wd w0
              (λ w', fs w' = fs w
                     ∧ ∃ after, trace w'
                                = trace (push (HttpGet AIR_QUALITY_URL) w0)
                                  ++ [warned; StSuccess SAVED] ++ after))
    as (w' & Hrun & Hfs & after & Htrace).
  - intros ev w' _ [Hfs [after Htr]]. split; [done|]. exists (after ++ [ev]).
    change (trace (push ev w')) with (trace w' ++ [ev]).
    rewrite Htr. by rewrite <- !app_assoc.
  - intros w2' Hsave'. rewrite Hsave in Hsave'. injection Hsave' as <-.
    rewrite Hw2. split; [done|]. exists [].
    change (trace (push (StSuccess SAVED) (push warned ?x)))
      with ((trace x ++ [warned]) ++ [StSuccess SAVED]).
    by rewrite app_nil_r, <- !app_assoc.
  - exists msg, (trace (push (HttpGet AIR_QUALITY_URL) w0)), after.
    rewrite Hrun. by split.
Qed.

Lemma saved_message_even_when_save_fails_witness :
  ∃ msg before after,
    fs (main "Delhi, India" Celsius false (delhi_env (Ok sample_response))
          corrupt_log_world).2 = fs corrupt_log_world
    ∧ trace (main "Delhi, India" Celsius false (delhi_env (Ok sample_response))
               corrupt_log_world).2
      = before ++ [StWarning ("Could not save record to Excel: " +:+ msg);
                   StSuccess SAVED] ++ after.
Proof.
  apply (saved_message_even_when_save_fails (delhi_env (Ok sample_response))
           corrupt_log_world "Delhi, India" Celsius false delhi [] delhi_forecast);
    [discriminate | reflexivity | reflexivity | left; reflexivity].
Defined.

(** ** A query without a location *)

(** X22. A blank city draws one error and sends no request; a geocoding answer
    without results stops the query after the 'could not find' error, with one
    request sent and nothing else done. *)
Theorem main_without_location env w units show_raw :
  main "" units show_raw env w
  = (Returned tt, push (StError "Please enter a city name.") w)
  ∧ (∀ city data,
       city ≠ "" → http_geocoding env city = Ok data →
       default [] (geo_results data) = [] →
       main city units show_raw env w
       = (Stopped, push (StError NOT_FOUND) (push (HttpGet GEOCODE_URL) w))).
Proof.
  split; [apply main_blank|].
  intros city data Hcity Hgeo Hnone. by apply (main_no_match env w city _ _ data).
Qed.

Lemma main_without_location_witness :
  main "Atlantis" Celsius false nowhere empty_world
  = (Stopped, push (StError NOT_FOUND) (push (HttpGet GEOCODE_URL) empty_world)).
Proof.
  apply (proj2 (main_without_location nowhere empty_world Celsius false)
           "Atlantis" {| geo_results := Some [] |}); [discriminate | reflexivity..].
Defined.

(** ** The columns of the log *)

Lemma list_difference_subseteq (l k : list string) : l ⊆ k → list_difference l k = [].
Proof.
  intros Hsub. induction l as [|x l IH]; [done|]. cbn.
  destruct (decide_rel elem_of x k) as [_|Hn].
  - apply IH. intros y Hy. apply Hsub. by right.
  - exfalso. apply Hn, Hsub. left.
Qed.

Lemma append_all_columns (rs : list record) (path : string) env :
  ∀ (w : world) df,
    Forall (λ r, r.*1 = columns df) rs →
    files (fs w) !! path = Some (Workbook df) → path ∉ read_only (fs w) →
    ∃ w' df',
      append_all rs path env w = (Returned tt, w')
      ∧ files (fs w') !! path = Some (Workbook df')
      ∧ columns df' = columns df.
Proof.
  induction rs as [|r rs IH]; intros w df Hall Hf Hrw.
  - exists w, df. by destruct w.
  - apply Forall_cons in Hall as [Hr Hall].
    pose proof (save_record_existing r path env w df Hf Hrw) as Hsave.
    set (df1 := pd_concat {| columns := columns df; rows := read_back env df |}
                  (DataFrame_of_record r)) in *.
    assert (Hcols : columns df1 = columns df).
    { unfold df1. cbn. rewrite Hr, list_difference_subseteq by done.
      by rewrite app_nil_r. }
    set (w1 := {| fs := {| files := <[path := Workbook df1]> (files (fs w));
                           read_only := read_only (fs w) |};
                  trace := trace w |}) in *.
    destruct (IH w1 df1) as (w' & df' & Hrun & Hf' & Hc').
    { by rewrite Hcols. }
    { cbn. apply lookup_insert_eq. }
    { done. }
    exists w', df'. split; [|split; [done | congruence]].
    unfold append_all. cbn [for_each].
    by rewrite (bind_returned _ _ _ _ _ _ Hsave).
Qed.

(** X16. The record of a query has the seven keys of the log in order, and a
    log built from an absent file by appending such records has exactly these
    seven columns, in that order. *)
Theorem log_columns_fixed :
  (∀ now city_name country temp_c wind_speed weather_code aqi_val,
     (build_record now city_name country temp_c wind_speed weather_code aqi_val).*1
     = LOG_COLUMNS)
  ∧ (∀ env (w : world) (path : string) (r1 : record) (rs : list record),
       Forall (λ r, r.*1 = LOG_COLUMNS) (r1 :: rs) →
       files (fs w) !! path = None → path ∉ read_only (fs w) →
       ∃ w' df,
         append_all (r1 :: rs) path env w = (Returned tt, w')
         ∧ files (fs w') !! path = Some (Workbook df)
         ∧ columns df = LOG_COLUMNS).
Proof.
  split; [done|].
  intros env w path r1 rs Hall Hnone Hrw. apply Forall_cons in Hall as [Hr1 Hall].
  pose proof (save_record_absent r1 path env w Hnone Hrw) as Hsave.
  set (w1 := {| fs := {| files := <[path := Workbook (DataFrame_of_record r1)]>
                                    (files (fs w));
                         read_only := read_only (fs w) |};
                trace := trace w |}) in *.
  destruct (append_all_columns rs path env w1 (DataFrame_of_record r1))
    as (w' & df' & Hrun & Hf' & Hc').
  { cbn. by rewrite Hr1. }
  { cbn. apply lookup_insert_eq. }
  { done. }
  exists w', df'. split; [|split; [done|]].
  - unfold append_all. cbn [for_each]. by rewrite (bind_returned _ _ _ _ _ _ Hsave).
  - rewrite Hc'. exact Hr1.
Qed.

Lemma log_columns_fixed_witness :
  ∃ w' df,
    append_all [record_delhi; record_oslo] LOG_PATH offline empty_world
    = (Returned tt, w')
    ∧ files (fs w') !! LOG_PATH = Some (Workbook df)
    ∧ columns df = LOG_COLUMNS.
Proof.
  apply (proj2 log_columns_fixed offline empty_world LOG_PATH record_delhi [record_oslo]).
  - repeat constructor.
  - reflexivity.
  - cbn. apply not_elem_of_empty.
Defined.

(** ** The forecast block *)

Lemma for_each_ext {A} (l : list A) (f g : A → M unit) env w :
  (∀ x, x ∈ l → f x = g x) → for_each l f env w = for_each l g env w.
Proof.
  revert w. induction l as [|x l IH]; intros w Hfg; [done|].
  cbn [for_each]. unfold mbind, M_bind. rewrite (Hfg x) by left.
  destruct (g x env w) as [[[]| |] w']; try done.
  apply IH. intros y Hy. apply Hfg. by right.
Qed.

Lemma item_or_none_take {A} (l : list (option A)) (i : nat) :
  (i < 5)%nat → item_or_none (take 5 l) i = item_or_none l i.
Proof.
  intros Hi. unfold item_or_none. rewrite length_take, lookup_take_lt by done.
  destruct (Nat.ltb_spec i (length l)), (Nat.ltb_spec i (5 `min` length l)); try done; lia.
Qed.

(** X23. The forecast block draws on a response what it draws on the response
    cut to its first five days; with an empty or missing list of dates it
    draws the 'Forecast data not available' warning. *)
Theorem forecast_shows_at_most_five units temp_unit daily env w :
  render_forecast units temp_unit daily env w
  = render_forecast units temp_unit (first_five daily) env w
  ∧ (default [] (daily_time daily) = [] →
     render_forecast units temp_unit daily env w
     = (Returned tt,
        push (StMarkdown "---")
          (push (StWarning "Forecast data not available.")
             (push (StSubheader "📅 5-Day Forecast (Daily Min/Max from Open-Meteo)") w)))).
Proof.
  split.
  - unfold render_forecast, first_five, mbind, M_bind.
    cbn [daily_time daily_temperature_2m_max daily_temperature_2m_min
           daily_weathercode].
    destruct (emit _ env w) as [[[]| |] w1]; try done.
    set (dates := default [] (daily_time daily)).
    set (tmax := default [] (daily_temperature_2m_max daily)).
    set (tmin := default [] (daily_temperature_2m_min daily)).
    set (wcodes := default [] (daily_weathercode daily)).
    assert (Hd : default [] (take 5 <$> daily_time daily) = take 5 dates)
      by (unfold dates; by destruct (daily_time daily)).
    assert (Hx : default [] (take 5 <$> daily_temperature_2m_max daily) = take 5 tmax)
      by (unfold tmax; by destruct (daily_temperature_2m_max daily)).
    assert (Hn : default [] (take 5 <$> daily_temperature_2m_min daily) = take 5 tmin)
      by (unfold tmin; by destruct (daily_temperature_2m_min daily)).
    assert (Hc : default [] (take 5 <$> daily_weathercode daily) = take 5 wcodes)
      by (unfold wcodes; by destruct (daily_weathercode daily)).
    rewrite Hd, Hx, Hn, Hc.
    assert (Hlen : (5 `min` length (take 5 dates) = 5 `min` length dates)%nat)
      by (rewrite length_take; lia).
    rewrite Hlen.
    case_bool_decide as Hz; [done|].
    rewrite (for_each_ext _ _
               (render_forecast_day units temp_unit (take 5 dates) (take 5 tmax)
                  (take 5 tmin) (take 5 wcodes))); [done|].
    intros i Hi. apply elem_of_seq in Hi.
    unfold render_forecast_day, forecast_day.
    rewrite !item_or_none_take, lookup_take_lt by lia. done.
  - intros Hnone. unfold render_forecast. rewrite Hnone. reflexivity.
Qed.

Lemma forecast_shows_at_most_five_witness :
  render_forecast Celsius "°C" {| daily_time := None; daily_temperature_2m_max := None;
                                  daily_temperature_2m_min := None;
                                  daily_weathercode := None |} offline empty_world
  = (Returned tt,
     push (StMarkdown "---")
       (push (StWarning "Forecast data not available.")
          (push (StSubheader "📅 5-Day Forecast (Daily Min/Max from Open-Meteo)")
             empty_world))).
Proof.
  apply (proj2 (forecast_shows_at_most_five Celsius "°C" _ offline empty_world)).
  reflexivity.
Defined.
